(** * BPAK package facade: a shallow embedding of lib/pkg.c, its FILE-based
    variant and lib/pkg_create.c

    The development follows the C sources function by function; where the
    two variants of the facade differ, the FILE-based one carries the suffix
    [_fp].  Structs are
    records, error codes an enumeration, the random-access stream a byte list
    with a cursor, and the message-digest contexts the sequence of chunks they
    were fed.  Everything that the facade only calls (the header validator,
    the digest primitives, the struct layout, the name hash, the transport
    back-end) is a parameter of the section in which the facade is defined. *)

From Stdlib Require Import ZArith Lia.
From Stdlib.Strings Require Import Byte.
From Stdlib Require Import Ascii String.
From stdpp Require Import base list strings.

Local Open Scope Z_scope.

(** ** Error codes *)

(** The values of [enum bpak_errors] that the sources name, together with
    the codes the specification names for the functions modelled from it
    (NO_SPACE, EXISTS, INVALID_HEADER).  A C return code [-BPAK_X] is written
    [BPAK_X], and [BPAK_OK] is the zero return code. *)
Inductive bpak_errors : Set :=
| BPAK_OK
| BPAK_FAILED
| BPAK_NOT_FOUND
| BPAK_SIZE_ERROR
| BPAK_NO_SPACE_LEFT
| BPAK_EXISTS
| BPAK_SEEK_ERROR
| BPAK_NOT_SUPPORTED
| BPAK_READ_ERROR
| BPAK_WRITE_ERROR
| BPAK_FILE_NOT_FOUND
| BPAK_INVALID_HEADER.

Definition bpak_errors_eqb (a b : bpak_errors) : bool :=
  match a, b with
  | BPAK_OK, BPAK_OK | BPAK_FAILED, BPAK_FAILED | BPAK_NOT_FOUND, BPAK_NOT_FOUND
  | BPAK_SIZE_ERROR, BPAK_SIZE_ERROR | BPAK_NO_SPACE_LEFT, BPAK_NO_SPACE_LEFT
  | BPAK_EXISTS, BPAK_EXISTS | BPAK_SEEK_ERROR, BPAK_SEEK_ERROR
  | BPAK_NOT_SUPPORTED, BPAK_NOT_SUPPORTED | BPAK_READ_ERROR, BPAK_READ_ERROR
  | BPAK_WRITE_ERROR, BPAK_WRITE_ERROR
  | BPAK_FILE_NOT_FOUND, BPAK_FILE_NOT_FOUND
  | BPAK_INVALID_HEADER, BPAK_INVALID_HEADER => true
  | _, _ => false
  end.

(** ** Bytes and buffers *)

Definition zeros (n : nat) : list byte := replicate n x00.
Arguments zeros : simpl never.

(** [memcpy dst src]: the first [length src] bytes of [dst] are replaced. *)
Definition memcpy (dst src : list byte) : list byte :=
  src ++ drop (length src) dst.

(** ** Random-access byte streams *)

Record stream : Type := mk_stream {
  s_data : list byte;
  s_pos : Z
}.

Definition stream_end (s : stream) : Z := Z.of_nat (length (s_data s)).

(** Reading returns the bytes actually available, so a request past the end
    of the data comes back short. *)
Definition stream_read (s : stream) (n : Z) : list byte * stream :=
  let got := take (Z.to_nat n) (drop (Z.to_nat (s_pos s)) (s_data s)) in
  (got, mk_stream (s_data s) (s_pos s + Z.of_nat (length got))).

(** Writing replaces bytes in place and extends the data; a gap between the
    end of the data and the cursor is filled with zero bytes.  A write of no
    bytes changes nothing. *)
Definition stream_put (s : stream) (bytes : list byte) : Z * stream :=
  let p := Z.to_nat (s_pos s) in
  let before := take p (s_data s) ++ zeros (p - length (s_data s)) in
  let after := drop (p + length bytes) (s_data s) in
  (Z.of_nat (length bytes),
   mk_stream (before ++ bytes ++ after) (s_pos s + Z.of_nat (length bytes))).

Definition stream_write (s : stream) (bytes : list byte) : Z * stream :=
  match bytes with
  | [] => (0, s)
  | _ :: _ => stream_put s bytes
  end.

(** Bytes between the cursor and the end of the data. *)
Definition available (s : stream) : Z :=
  Z.of_nat (length (drop (Z.to_nat (s_pos s)) (s_data s))).

(** *** The C library's FILE streams (part_001 and pkg_create.c) *)

Inductive whence : Set := SEEK_SET | SEEK_CUR | SEEK_END.

(** [fseek] returns 0 on success; a negative resulting position is refused. *)
Definition fseek (fp : stream) (offset : Z) (w : whence) : Z * stream :=
  let target := match w with
                | SEEK_SET => offset
                | SEEK_CUR => s_pos fp + offset
                | SEEK_END => stream_end fp + offset
                end in
  if target <? 0 then (-1, fp) else (0, mk_stream (s_data fp) target).

Definition fread (fp : stream) (n : Z) : list byte * stream := stream_read fp n.
Definition fwrite (fp : stream) (bytes : list byte) : Z * stream :=
  stream_write fp bytes.

(** *** The bpak_io streams (lib/pkg.c) *)

Inductive bpak_io_seek_dir : Set :=
| BPAK_IO_SEEK_SET | BPAK_IO_SEEK_FWD | BPAK_IO_SEEK_END.

(** Modelled from the spec: bpak_io_seek (bpak/file.h and its implementation
    are not among the sources).  The header locator "seeks to end - 4096",
    so [BPAK_IO_SEEK_END] counts its offset backwards from the end; the other
    two directions are absolute and forward-relative. *)
Definition bpak_io_seek (io : stream) (position : Z) (dir : bpak_io_seek_dir)
  : bpak_errors * stream :=
  let target := match dir with
                | BPAK_IO_SEEK_SET => position
                | BPAK_IO_SEEK_FWD => s_pos io + position
                | BPAK_IO_SEEK_END => stream_end io - position
                end in
  if target <? 0 then (BPAK_SEEK_ERROR, io)
  else (BPAK_OK, mk_stream (s_data io) target).

Definition bpak_io_read (io : stream) (n : Z) : list byte * stream :=
  stream_read io n.
Definition bpak_io_write (io : stream) (bytes : list byte) : Z * stream :=
  stream_write io bytes.

(** *** Files on disk *)

(** A directory entry: the size [stat] reports and the bytes [fopen] then
    delivers.  For a file at rest the two agree; they are kept apart because
    the sources read them at different moments. *)
Record file_entry : Type := mk_file {
  f_st_size : Z;
  f_data : list byte
}.

Definition filesystem : Type := string -> option file_entry.

(** [stat]: the reported size, when the file exists. *)
Definition stat (fs : filesystem) (filename : string) : option Z :=
  f_st_size <$> fs filename.

(** What [fopen] hands back: the stream, with its cursor at 0, and the
    access the mode grants. *)
Record FILE : Type := mk_FILE {
  fp_stream : stream;
  fp_reads : bool;
  fp_writes : bool
}.

(** A "+" among the letters of the mode. *)
Fixpoint mode_plus (mode : string) : bool :=
  match mode with
  | EmptyString => false
  | String c rest => Ascii.eqb c "+"%char || mode_plus rest
  end.

(** [fopen]: the mode's first letter decides.  "r" needs the file and
    reads it, "w" starts from an empty file and writes, "a" keeps or
    creates the file and writes; a "+" among the letters that follow gives
    the other direction as well (that writes through an "a" stream always
    go to the end is not part of the model). *)
Definition fopen (fs : filesystem) (filename mode : string) : option FILE :=
  match mode with
  | String "r"%char rest =>
      (fun e => mk_FILE (mk_stream (f_data e) 0) true (mode_plus rest))
        <$> fs filename
  | String "w"%char rest =>
      Some (mk_FILE (mk_stream [] 0) (mode_plus rest) true)
  | String "a"%char rest =>
      Some (mk_FILE (mk_stream (from_option f_data [] (fs filename)) 0)
              (mode_plus rest) true)
  | _ => None
  end.

(** [fread] through a stream that was opened with [reads]: a stream opened
    for writing only delivers nothing and stays where it is. *)
Definition fread_as (reads : bool) (fp : stream) (n : Z)
  : list byte * stream :=
  if reads then fread fp n else ([], fp).

(** Modelled from the spec: bpak_io_init_file (bpak/file.h is not among the
    sources), "open random-access byte stream", with the access of the mode
    as for [fopen]; a file that cannot be opened is reported as NOT_FOUND.
    bpak_io_read on a stream opened for writing only delivers nothing. *)
Definition bpak_io_init_file (fs : filesystem) (filename mode : string)
  : bpak_errors * option FILE :=
  match fopen fs filename mode with
  | Some f => (BPAK_OK, Some f)
  | None => (BPAK_NOT_FOUND, None)
  end.

Definition bpak_io_read_as (reads : bool) (io : stream) (n : Z)
  : list byte * stream :=
  if reads then bpak_io_read io n else ([], io).

(** ** The header *)

(** Modelled from the spec: struct bpak_part_header, struct bpak_meta_header
    and struct bpak_header (bpak/bpak.h is not among the sources); the fields
    are those of the data model, integers are kept as [Z]. *)
Record bpak_part_header : Type := mk_part {
  p_id : Z;
  p_size : Z;
  p_transport_size : Z;
  p_offset : Z;
  p_pad_bytes : Z;
  p_flags : Z
}.

Record bpak_meta_header : Type := mk_meta {
  m_id : Z;
  m_part_id_ref : Z;
  m_data_offset : Z;
  m_size : Z
}.

Record bpak_header : Type := mk_header {
  magic : Z;
  version : Z;
  hash_kind : Z;
  signature_kind : Z;
  payload_hash : list byte;
  signature : list byte;
  signature_sz : Z;
  keystore_id : Z;
  key_id : Z;
  alignment : Z;
  meta : list bpak_meta_header;
  metadata : list byte;
  parts : list bpak_part_header
}.

Definition set_payload_hash (v : list byte) (h : bpak_header) : bpak_header :=
  mk_header (magic h) (version h) (hash_kind h) (signature_kind h) v
    (signature h) (signature_sz h) (keystore_id h) (key_id h) (alignment h)
    (meta h) (metadata h) (parts h).

Definition set_signature (v : list byte) (h : bpak_header) : bpak_header :=
  mk_header (magic h) (version h) (hash_kind h) (signature_kind h)
    (payload_hash h) v (signature_sz h) (keystore_id h) (key_id h)
    (alignment h) (meta h) (metadata h) (parts h).

Definition set_signature_sz (v : Z) (h : bpak_header) : bpak_header :=
  mk_header (magic h) (version h) (hash_kind h) (signature_kind h)
    (payload_hash h) (signature h) v (keystore_id h) (key_id h)
    (alignment h) (meta h) (metadata h) (parts h).

Definition set_parts (v : list bpak_part_header) (h : bpak_header)
  : bpak_header :=
  mk_header (magic h) (version h) (hash_kind h) (signature_kind h)
    (payload_hash h) (signature h) (signature_sz h) (keystore_id h) (key_id h)
    (alignment h) (meta h) (metadata h) v.

(** sizeof(struct bpak_header), sizeof(header.signature) and
    sizeof(header.payload_hash). *)
Definition BPAK_HEADER_SIZE : Z := 4096.
Definition BPAK_SIGNATURE_MAX_BYTES : nat := 512.
Definition BPAK_PAYLOAD_HASH_BYTES : Z := 64.

(** Modelled from the spec: the values of enum bpak_hash_kind. *)
Definition BPAK_HASH_SHA256 : Z := 1.
Definition BPAK_HASH_SHA384 : Z := 2.
Definition BPAK_HASH_SHA512 : Z := 3.

(** ** The package *)

Inductive bpak_header_pos : Set :=
| BPAK_HEADER_POS_FIRST
| BPAK_HEADER_POS_LAST.

Record bpak_package : Type := mk_package {
  io : stream;
  header : bpak_header;
  header_location : bpak_header_pos
}.

Definition set_io (s : stream) (pkg : bpak_package) : bpak_package :=
  mk_package s (header pkg) (header_location pkg).

Definition set_header (h : bpak_header) (pkg : bpak_package) : bpak_package :=
  mk_package (io pkg) h (header_location pkg).

(** ** Message digests *)

Inductive md_alg : Set := MD_SHA256 | MD_SHA384 | MD_SHA512.

(** A digest context records the algorithm it was started with and the chunks
    it has been fed, most recent last. *)
Record md_context : Type := mk_md {
  md_kind : md_alg;
  md_fed : list (list byte)
}.

Definition md_starts (a : md_alg) : md_context := mk_md a [].
Definition md_update (c : md_context) (chunk : list byte) : md_context :=
  mk_md (md_kind c) (md_fed c ++ [chunk]).
Definition md_message (c : md_context) : list byte := concat (md_fed c).

(** The [switch (pkg->header.hash_kind)] that opens both hash functions:
    the digest length is checked against [*size], and the context started. *)
Definition hash_begin (kind size : Z) : bpak_errors + (md_context * Z) :=
  if kind =? BPAK_HASH_SHA256 then
    if size <? 32 then inl BPAK_FAILED else inr (md_starts MD_SHA256, 32)
  else if kind =? BPAK_HASH_SHA384 then
    if size <? 48 then inl BPAK_FAILED else inr (md_starts MD_SHA384, 48)
  else if kind =? BPAK_HASH_SHA512 then
    if size <? 64 then inl BPAK_FAILED else inr (md_starts MD_SHA512, 64)
  else inl BPAK_NOT_SUPPORTED.

Definition md_len (a : md_alg) : nat :=
  match a with MD_SHA256 => 32 | MD_SHA384 => 48 | MD_SHA512 => 64 end%nat.

(** What a hash function hands back: the return code, the package (its
    stream cursor and header may have moved), the caller's output buffer and
    the caller's [*size]. *)
Record hash_result : Type := mk_hash_result {
  hr_rc : bpak_errors;
  hr_pkg : bpak_package;
  hr_output : list byte;
  hr_size : Z
}.

(** The state threaded through the part loop of the payload hash: the
    stream, the automatic array [hash_buffer] and the digest context. *)
Record hash_state : Type := mk_hash_state {
  hs_io : stream;
  hs_buffer : list byte;
  hs_ctx : md_context
}.

(** ** Transport decoding: shared data *)

(** struct decode_private.  The two stream members point at the streams of
    the output and origin packages; the decoder's hooks read and write
    through them, so they are carried here and handed back at the end. *)
Record decode_private : Type := mk_decode_private {
  output_io : stream;
  origin_io : option stream;
  origin_offset : Z;
  output_offset : Z
}.

Definition set_offsets (origin_off output_off : Z) (d : decode_private)
  : decode_private :=
  mk_decode_private (output_io d) (origin_io d) origin_off output_off.

(** The result of a call that may dereference a null pointer. *)
Inductive outcome (A : Type) : Type :=
| Returned (a : A)
| Fault.
Arguments Returned {A} a.
Arguments Fault {A}.

(** The decoder as the facade sees it: the back-end's own context, the patch
    header it was initialised with (it keeps the pointer) and the private
    data of its hooks. *)
Record decode_world (C : Type) : Type := mk_decode_world {
  dw_ctx : C;
  dw_patch_header : bpak_header;
  dw_private : decode_private
}.
Arguments mk_decode_world {C} _ _ _.
Arguments dw_ctx {C} _.
Arguments dw_patch_header {C} _.
Arguments dw_private {C} _.

(** ** Stand-ins for the parts that are not among the sources

    The facade is verified for every header layout, validator, digest and
    transport back-end.  The instances below make its theorems runnable on
    concrete packages. *)
Module Standin.

Definition byte_of_Z (z : Z) : byte :=
  default x00 (Byte.of_N (Z.to_N (z mod 256))).
Definition Z_of_byte (b : byte) : Z := Z.of_N (Byte.to_N b).

Fixpoint le_encode (width : nat) (v : Z) : list byte :=
  match width with
  | O => []
  | S w => byte_of_Z v :: le_encode w (v / 256)
  end.

Fixpoint le_decode (bs : list byte) : Z :=
  match bs with
  | [] => 0
  | b :: bs' => Z_of_byte b + 256 * le_decode bs'
  end.

Definition N_META : nat := 32.
Definition N_PARTS : nat := 32.
Definition META_DATA_BYTES : nat := 2048.

Definition empty_part : bpak_part_header := mk_part 0 0 0 0 0 0.
Definition empty_meta : bpak_meta_header := mk_meta 0 0 0 0.

(** Modelled from the spec: the header image, with the members in the order
    of the data model, little-endian, the tables at their fixed capacity and
    zero fill up to 4096 bytes.  Where the data model gives no width, the
    enumerations take 32 bits.  A part slot is
    [{id: u32, size: u64, transport_size: u64, offset: u64, pad_bytes: u8,
    flags: u8}]. *)
Definition part_image (p : bpak_part_header) : list byte :=
  le_encode 4 (p_id p) ++ le_encode 8 (p_size p)
  ++ le_encode 8 (p_transport_size p) ++ le_encode 8 (p_offset p)
  ++ le_encode 1 (p_pad_bytes p) ++ le_encode 1 (p_flags p).

Definition meta_image (m : bpak_meta_header) : list byte :=
  le_encode 4 (m_id m) ++ le_encode 4 (m_part_id_ref m)
  ++ le_encode 2 (m_data_offset m) ++ le_encode 2 (m_size m).

Definition header_image (h : bpak_header) : list byte :=
  resize (Z.to_nat BPAK_HEADER_SIZE) x00
    (le_encode 4 (magic h) ++ le_encode 4 (version h)
     ++ le_encode 4 (hash_kind h) ++ le_encode 4 (signature_kind h)
     ++ resize 64 x00 (payload_hash h)
     ++ resize BPAK_SIGNATURE_MAX_BYTES x00 (signature h)
     ++ le_encode 2 (signature_sz h)
     ++ le_encode 4 (keystore_id h) ++ le_encode 4 (key_id h)
     ++ le_encode 4 (alignment h)
     ++ flat_map meta_image (resize N_META empty_meta (meta h))
     ++ resize META_DATA_BYTES x00 (metadata h)
     ++ flat_map part_image (resize N_PARTS empty_part (parts h))).

Definition bytes_at (img : list byte) (off len : nat) : list byte :=
  take len (drop off img).
Definition field_at (img : list byte) (off len : nat) : Z :=
  le_decode (bytes_at img off len).

Definition META_OFFSET : nat := 606.
Definition META_DATA_OFFSET : nat := 990.
Definition PARTS_OFFSET : nat := 3038.

Definition image_part (img : list byte) (i : nat) : bpak_part_header :=
  let b := (PARTS_OFFSET + 30 * i)%nat in
  mk_part (field_at img b 4) (field_at img (b + 4) 8)
    (field_at img (b + 12) 8) (field_at img (b + 20) 8)
    (field_at img (b + 28) 1) (field_at img (b + 29) 1).

Definition image_meta (img : list byte) (i : nat) : bpak_meta_header :=
  let b := (META_OFFSET + 12 * i)%nat in
  mk_meta (field_at img b 4) (field_at img (b + 4) 4)
    (field_at img (b + 8) 2) (field_at img (b + 10) 2).

Definition image_header (img : list byte) : bpak_header :=
  mk_header (field_at img 0 4) (field_at img 4 4) (field_at img 8 4)
    (field_at img 12 4) (bytes_at img 16 64) (bytes_at img 80 512)
    (field_at img 592 2) (field_at img 594 4) (field_at img 598 4)
    (field_at img 602 4)
    (map (image_meta img) (seq 0 N_META))
    (bytes_at img META_DATA_OFFSET META_DATA_BYTES)
    (map (image_part img) (seq 0 N_PARTS)).

(** Modelled from the spec: the magic bytes 0x4B 0x41 0x50 0x42 read as a
    little-endian word, and the current version. *)
Definition BPAK_HEADER_MAGIC : Z := 0x4250414B.
Definition BPAK_VERSION : Z := 2.

(** Empty slots occur only at the tail of a table. *)
Fixpoint holes_at_tail (ids : list Z) : bool :=
  match ids with
  | [] => true
  | i :: ids' =>
      if i =? 0 then forallb (fun j => j =? 0) ids' else holes_at_tail ids'
  end.

(** Modelled from the spec: bpak_valid_header of bpak.c, "rejects on bad
    magic, unknown version, out-of-range kinds" and on the table invariants;
    the checks are those whose constants the data model spells out. *)
Definition bpak_valid_header (h : bpak_header) : bpak_errors :=
  if negb (magic h =? BPAK_HEADER_MAGIC) then BPAK_INVALID_HEADER
  else if negb (version h =? BPAK_VERSION) then BPAK_INVALID_HEADER
  else if negb ((BPAK_HASH_SHA256 <=? hash_kind h)
                && (hash_kind h <=? BPAK_HASH_SHA512))
  then BPAK_NOT_SUPPORTED
  else if negb (signature_sz h <=? 512) then BPAK_SIZE_ERROR
  else if negb (holes_at_tail (map m_id (meta h))) then BPAK_INVALID_HEADER
  else if negb (holes_at_tail (map p_id (parts h))) then BPAK_INVALID_HEADER
  else BPAK_OK.

(** A transparent digest: the message itself.  The facade cuts or pads it
    to the digest length of the algorithm. *)
Definition digest (a : md_alg) (msg : list byte) : list byte := msg.

(** Bits 0 and 1 for the two part flags. *)
Definition BPAK_FLAG_EXCLUDE_FROM_HASH : Z := 1.
Definition BPAK_FLAG_TRANSPORT : Z := 2.

(** Modelled from the spec: the transport back-end for a part without
    transport metadata, "the part is copied verbatim".  Its context counts
    the bytes of the part written so far; a chunk goes through the
    write_output hook, that is to [output_offset + offset] of the output
    stream. *)
Definition decode_init (h : bpak_header) (priv : decode_private)
  : bpak_errors * decode_world Z :=
  (BPAK_OK, mk_decode_world 0 h priv).

Definition decode_set_origin (w : decode_world Z) (h : bpak_header)
  : bpak_errors * decode_world Z :=
  (BPAK_OK, w).

Definition decode_start (w : decode_world Z) (p : bpak_part_header)
  : bpak_errors * decode_world Z :=
  (BPAK_OK, mk_decode_world 0 (dw_patch_header w) (dw_private w)).

Definition decode_write_chunk (w : decode_world Z) (chunk : list byte)
  : bpak_errors * decode_world Z :=
  let priv := dw_private w in
  let '(rc, out1) :=
    bpak_io_seek (output_io priv) (output_offset priv + dw_ctx w)
      BPAK_IO_SEEK_SET in
  match rc with
  | BPAK_OK =>
      let '(n, out2) := bpak_io_write out1 chunk in
      (BPAK_OK,
       mk_decode_world (dw_ctx w + n) (dw_patch_header w)
         (mk_decode_private out2 (origin_io priv) (origin_offset priv)
            (output_offset priv)))
  | _ => (BPAK_SEEK_ERROR, w)
  end.

Definition decode_finish (w : decode_world Z) : bpak_errors * decode_world Z :=
  (BPAK_OK, w).

(** In place of the CRC-32 of crc.c: some non-zero function of the name. *)
Definition bpak_id (name : string) : Z := Z.of_nat (String.length name) + 1.

(** Modelled from the spec: the alignment it names, and the range of a
    [pad_bytes] member that is a u8, as its data model declares. *)
Definition BPAK_PART_ALIGN : Z := 4096.
Definition pad_bytes_modulus : Z := 2 ^ 8.

(** Modelled from the spec: what a memcpy of more than 512 bytes into
    [signature] leaves in the struct, with the members laid out as in the
    header image (the signature at offset 80): the bytes run over the
    members behind it, up to the end of the struct. *)
Definition signature_overrun (sig : list byte) (h : bpak_header)
  : bpak_header :=
  let img := header_image h in
  image_header
    (take (Z.to_nat BPAK_HEADER_SIZE)
       (take 80 img ++ sig ++ drop (80 + length sig) img)).

(** Recognisable contents for memory that was never written. *)
Definition hash_buffer_init : list byte := replicate 512 "165"%byte.
Definition memory_after_chunk_buffer (i : nat) : byte := "090"%byte.

End Standin.

(** ** Sample packages *)
Module Sample.

(** A header as [create] leaves it: no parts, no metadata, no signature. *)
Definition fresh_header (kind : Z) : bpak_header :=
  mk_header Standin.BPAK_HEADER_MAGIC Standin.BPAK_VERSION kind 1
    (zeros 64) (zeros BPAK_SIGNATURE_MAX_BYTES) 0 0 0 4096
    (replicate Standin.N_META Standin.empty_meta)
    (zeros Standin.META_DATA_BYTES)
    (replicate Standin.N_PARTS Standin.empty_part).

Definition with_parts (ps : list bpak_part_header) (h : bpak_header)
  : bpak_header :=
  set_parts (resize Standin.N_PARTS Standin.empty_part ps) h.

(** Bytes 1, 2, 3, ... (modulo 256). *)
Definition counting (n : nat) : list byte :=
  map (fun i => Standin.byte_of_Z (Z.of_nat i + 1)) (seq 0 n).

(** A 64-byte signature of 0xFF bytes stored in a SHA-256 header. *)
Definition signed_header (kind : Z) : bpak_header :=
  set_signature_sz 64
    (set_signature (replicate 64 "255"%byte ++ zeros 448) (fresh_header kind)).

(** A signed package whose hash kind (0) is not a known one. *)
Definition unknown_kind_pkg : bpak_package :=
  mk_package (mk_stream (Standin.header_image (signed_header 0)) 0)
    (signed_header 0) BPAK_HEADER_POS_FIRST.

(** A signed SHA-256 package, for a caller whose buffer has 16 bytes. *)
Definition sha256_pkg : bpak_package :=
  mk_package (mk_stream (Standin.header_image (signed_header 1)) 0)
    (signed_header 1) BPAK_HEADER_POS_FIRST.

(** Three parts behind a front header: 3 hashed bytes, 2 excluded bytes,
    600 hashed bytes. *)
Definition three_parts : list bpak_part_header :=
  [mk_part 11 3 0 4096 0 0;
   mk_part 12 2 0 4099 0 Standin.BPAK_FLAG_EXCLUDE_FROM_HASH;
   mk_part 13 600 0 4101 0 0].

Definition three_part_pkg : bpak_package :=
  let h := with_parts three_parts (fresh_header 1) in
  mk_package (mk_stream (Standin.header_image h ++ counting 605) 0) h
    BPAK_HEADER_POS_FIRST.

(** Two parts, the first followed by 5 bytes of padding: bytes 1 2 3, the
    padding, then 9 9 at the offset the header records for the second. *)
Definition padded_pkg : bpak_package :=
  let h := with_parts [mk_part 11 3 0 4096 5 0; mk_part 12 2 0 4104 0 0]
             (fresh_header 1) in
  mk_package
    (mk_stream (Standin.header_image h ++ counting 3 ++ zeros 5 ++ [x09; x09])
       0)
    h BPAK_HEADER_POS_FIRST.

(** A header that promises a 4-byte part on a stream that ends with the
    header. *)
Definition truncated_pkg : bpak_package :=
  let h := with_parts [mk_part 11 4 0 4096 0 0] (fresh_header 1) in
  mk_package (mk_stream (Standin.header_image h) 0) h BPAK_HEADER_POS_FIRST.

(** A directory with a file of 8192 zero bytes, a file of 8193 bytes, a
    file whose reported size (5) exceeds its 3 bytes, and a package whose
    header sits behind 8192 bytes of payload. *)
Definition tail_data : list byte :=
  zeros (Z.to_nat 8192) ++ Standin.header_image (fresh_header 1).

Definition tail_pkg : bpak_package :=
  mk_package (mk_stream tail_data 0) (signed_header 1) BPAK_HEADER_POS_LAST.

Definition tail_data' : list byte :=
  zeros (Z.to_nat 8192) ++ Standin.header_image (signed_header 1).

Definition fs : filesystem := fun name =>
  if String.eqb name "blank.bin" then
    Some (mk_file 8192 (zeros (Z.to_nat 8192)))
  else if String.eqb name "kernel.bin" then
    Some (mk_file 8193 (counting (Z.to_nat 8193)))
  else if String.eqb name "short.bin" then Some (mk_file 5 (counting 3))
  else if String.eqb name "tail.bpak" then Some (mk_file 12288 tail_data')
  else None.

(** A fresh package, header in front, already written out. *)
Definition fresh_pkg : bpak_package :=
  mk_package (mk_stream (Standin.header_image (fresh_header 1)) 0)
    (fresh_header 1) BPAK_HEADER_POS_FIRST.

(** A transport input with one 4-byte part, an empty output, and an origin
    that carries the same part. *)
Definition input_pkg : bpak_package :=
  let h := with_parts [mk_part 11 4 0 4096 0 0] (fresh_header 1) in
  mk_package (mk_stream (Standin.header_image h ++ counting 4) 0) h
    BPAK_HEADER_POS_FIRST.

Definition output_pkg : bpak_package :=
  mk_package (mk_stream [] 0) (fresh_header 1) BPAK_HEADER_POS_FIRST.


(** An archive whose header validates, followed by 5 bytes of payload, and
    a fresh archive as it sits on disk. *)
Definition front_data : list byte :=
  Standin.header_image (signed_header 1) ++ counting 5.

Definition front_fs : filesystem := fun name =>
  if String.eqb name "front.bpak" then Some (mk_file 4101 front_data)
  else if String.eqb name "fresh.bpak" then
    Some (mk_file 4096 (Standin.header_image (fresh_header 1)))
  else None.

(** "front.bpak" after its header has been replaced by a fresh one, and a
    file whose first 4096 bytes (zero) and last 4096 bytes (1, 2, 3, ...)
    differ and are both no header. *)
Definition rewritten_data : list byte :=
  Standin.header_image (fresh_header 1) ++ counting 5.

Definition mixed_data : list byte :=
  zeros (Z.to_nat 4096) ++ counting (Z.to_nat 4096).

Definition rewritten_fs : filesystem := fun name =>
  if String.eqb name "front.bpak" then Some (mk_file 4101 rewritten_data)
  else if String.eqb name "mixed.bin" then Some (mk_file 8192 mixed_data)
  else None.

(** An archive with one part of 3 bytes and the 253 bytes of padding that
    bpak_pkg_add_file gives it with a [pad_bytes] member of 8 bits. *)
Definition one_part_pkg : bpak_package :=
  let h := with_parts [mk_part 11 3 0 4096 253 0] (fresh_header 1) in
  mk_package
    (mk_stream (Standin.header_image h ++ counting 3 ++ zeros 253) 0)
    h BPAK_HEADER_POS_FIRST.

(** A key of 5 bytes as the key writer leaves it: at the end of the 4096
    bytes of [tmp]. *)
Definition key_buffer : list byte := zeros 4091 ++ counting 5.

(** A transport back-end that accepts and discards whatever it is given. *)
Definition discard_init (h : bpak_header) (priv : decode_private)
  : bpak_errors * decode_world unit :=
  (BPAK_OK, mk_decode_world tt h priv).

Definition discard_header (w : decode_world unit) (h : bpak_header)
  : bpak_errors * decode_world unit := (BPAK_OK, w).

Definition discard_part (w : decode_world unit) (p : bpak_part_header)
  : bpak_errors * decode_world unit := (BPAK_OK, w).

Definition discard_chunk (w : decode_world unit) (chunk : list byte)
  : bpak_errors * decode_world unit := (BPAK_OK, w).

Definition discard_finish (w : decode_world unit)
  : bpak_errors * decode_world unit := (BPAK_OK, w).

End Sample.

(** ** Observing a package *)

(** The package with other contents in the signature slot. *)
Definition with_signature (sig : list byte) (sz : Z) (pkg : bpak_package)
  : bpak_package :=
  set_header (set_signature_sz sz (set_signature sig (header pkg))) pkg.

(** What the caller of a hash function receives: return code, digest
    buffer and [*size]. *)
Definition hr_public (r : hash_result) : bpak_errors * list byte * Z :=
  (hr_rc r, hr_output r, hr_size r).

(** write_signature as the specification words it: the bytes left-aligned
    in the signature slot, the remainder zero, [signature_sz] their number,
    and every other member as it was. *)
Definition spec_write_signature (sig : list byte) (h : bpak_header)
  : bpak_header :=
  mk_header (magic h) (version h) (hash_kind h) (signature_kind h)
    (payload_hash h)
    (sig ++ zeros (BPAK_SIGNATURE_MAX_BYTES - length sig))
    (Z.of_nat (length sig))
    (keystore_id h) (key_id h) (alignment h) (meta h) (metadata h) (parts h).

(** A slot in which no part was ever stored: id, size and padding are
    zero. *)
Definition slot_unused (p : bpak_part_header) : Prop :=
  p_id p = 0 /\ p_size p = 0 /\ p_pad_bytes p = 0.

#[global] Instance slot_unused_dec p : Decision (slot_unused p).
Proof. unfold slot_unused. apply _. Defined.

Section Facade.

(** The SHA-2 primitives behind mbedtls_sha256_* and mbedtls_sha512_*. *)
Variable digest : md_alg -> list byte -> list byte.

(** The packed struct as bytes, [(unsigned char * ) &pkg->header], and the
    struct a 4096-byte image denotes. *)
Variable header_image : bpak_header -> list byte.
Variable image_header : list byte -> bpak_header.

(** bpak_valid_header of bpak.c. *)
Variable bpak_valid_header : bpak_header -> bpak_errors.

(** The part flag bits of bpak/bpak.h. *)
Variable BPAK_FLAG_EXCLUDE_FROM_HASH : Z.
Variable BPAK_FLAG_TRANSPORT : Z.

(** What the automatic array [hash_buffer] holds before its first use. *)
Variable hash_buffer_init : list byte.

(** mbedtls_*_finish_ret: the digest lands at the start of [output]. *)
Definition md_finish (c : md_context) (output : list byte) : list byte :=
  memcpy output (resize (md_len (md_kind c)) x00
                   (digest (md_kind c) (md_message c))).

(** Modelled from the spec: bpak_part_size of bpak.c, "if flag TRANSPORT,
    transport_size, else size". *)
Definition bpak_part_size (p : bpak_part_header) : Z :=
  if Z.land (p_flags p) BPAK_FLAG_TRANSPORT =? 0 then p_size p
  else p_transport_size p.

(** A slot is in use when its id is not zero. *)
Definition part_live (p : bpak_part_header) : bool := negb (p_id p =? 0).

Definition part_excluded (p : bpak_part_header) : bool :=
  negb (Z.land (p_flags p) BPAK_FLAG_EXCLUDE_FROM_HASH =? 0).

(** The payload hash as the specification words it: walking the part table
    in order with a cursor into the stream data, a live part that is not
    excluded contributes the [bpak_part_size] bytes at the cursor, every
    live part moves the cursor by its [bpak_part_size], and nothing else is
    contributed. *)
Fixpoint spec_payload_message (data : list byte) (cursor : Z)
    (ps : list bpak_part_header) : list byte :=
  match ps with
  | [] => []
  | p :: ps' =>
      if negb (part_live p) then spec_payload_message data cursor ps'
      else if part_excluded p then
        spec_payload_message data (cursor + bpak_part_size p) ps'
      else
        take (Z.to_nat (bpak_part_size p)) (drop (Z.to_nat cursor) data)
        ++ spec_payload_message data (cursor + bpak_part_size p) ps'
  end.

(** Bytes the live parts span on the stream, and bytes of those that enter
    the hash. *)
Definition payload_span (ps : list bpak_part_header) : Z :=
  foldr (fun p acc => if part_live p then bpak_part_size p + acc else acc)
    0 ps.

Definition hashed_span (ps : list bpak_part_header) : Z :=
  foldr (fun p acc =>
           if part_live p && negb (part_excluded p)
           then bpak_part_size p + acc else acc) 0 ps.

(** *** bpak_pkg_compute_payload_hash (lib/pkg.c) *)

Definition HASH_BUFFER_SIZE : Z := 512.

(** The [do ... while (bytes_to_read)] loop.  The value of bpak_io_read is
    dropped by the source; the digest is fed [chunk] bytes of the buffer
    whatever the read delivered. *)
Fixpoint hash_chunks (fuel : nat) (bytes_to_read : Z) (s : hash_state)
  : option hash_state :=
  match fuel with
  | O => None
  | S fuel' =>
      let chunk := if bytes_to_read >? HASH_BUFFER_SIZE
                   then HASH_BUFFER_SIZE else bytes_to_read in
      let '(got, io') := bpak_io_read (hs_io s) chunk in
      let buffer' := memcpy (hs_buffer s) got in
      let ctx' := md_update (hs_ctx s) (take (Z.to_nat chunk) buffer') in
      let s' := mk_hash_state io' buffer' ctx' in
      let bytes_to_read' := bytes_to_read - chunk in
      if bytes_to_read' =? 0 then Some s'
      else hash_chunks fuel' bytes_to_read' s'
  end.

(** Iterations the loop needs for a part of [n] bytes. *)
Definition hash_chunks_fuel (n : Z) : nat :=
  S (Z.to_nat (n / HASH_BUFFER_SIZE)).

(** The body of [bpak_foreach_part (&pkg->header, p)], slot by slot. *)
Fixpoint hash_parts (ps : list bpak_part_header) (s : hash_state)
  : option hash_state :=
  match ps with
  | [] => Some s
  | p :: ps' =>
      if p_id p =? 0 then hash_parts ps' s
      else if negb (Z.land (p_flags p) BPAK_FLAG_EXCLUDE_FROM_HASH =? 0) then
        let io' := snd (bpak_io_seek (hs_io s) (bpak_part_size p)
                          BPAK_IO_SEEK_FWD) in
        hash_parts ps' (mk_hash_state io' (hs_buffer s) (hs_ctx s))
      else
        match hash_chunks (hash_chunks_fuel (bpak_part_size p))
                (bpak_part_size p) s with
        | None => None
        | Some s' => hash_parts ps' s'
        end
  end.

Definition payload_start (l : bpak_header_pos) : Z :=
  match l with
  | BPAK_HEADER_POS_FIRST => BPAK_HEADER_SIZE
  | BPAK_HEADER_POS_LAST => 0
  end.

(** The state in which the part loop starts: the stream positioned by the
    seek (its return code is dropped), the array as the stack left it. *)
Definition hash_start (pkg : bpak_package) (ctx : md_context) : hash_state :=
  mk_hash_state
    (snd (bpak_io_seek (io pkg) (payload_start (header_location pkg))
            BPAK_IO_SEEK_SET))
    (resize (Z.to_nat HASH_BUFFER_SIZE) x00 hash_buffer_init) ctx.

(** The part loop keeps the algorithm and only appends chunks. *)
Definition feeds (s s' : hash_state) (fed : list (list byte)) : Prop :=
  hs_ctx s' = mk_md (md_kind (hs_ctx s)) (md_fed (hs_ctx s) ++ fed).

(** The part with another value in [pad_bytes]. *)
Definition set_pad_bytes (v : Z) (p : bpak_part_header) : bpak_part_header :=
  mk_part (p_id p) (p_size p) (p_transport_size p) (p_offset p) v (p_flags p).

Definition bpak_pkg_compute_payload_hash (pkg : bpak_package)
    (output : list byte) (size : Z) : option hash_result :=
  match hash_begin (hash_kind (header pkg)) size with
  | inl rc => Some (mk_hash_result rc pkg output size)
  | inr (ctx, size') =>
      match hash_parts (parts (header pkg)) (hash_start pkg ctx) with
      | None => None
      | Some s =>
          Some (mk_hash_result BPAK_OK (set_io (hs_io s) pkg)
                  (md_finish (hs_ctx s) output) size')
      end
  end.

(** *** bpak_pkg_update_payload_hash (lib/pkg.c) *)

(** The output buffer is [pkg->header.payload_hash] itself. *)
Definition bpak_pkg_update_payload_hash (pkg : bpak_package)
  : option (bpak_errors * bpak_package) :=
  match bpak_pkg_compute_payload_hash pkg (payload_hash (header pkg))
          BPAK_PAYLOAD_HASH_BYTES with
  | None => None
  | Some r =>
      Some (hr_rc r,
            set_header (set_payload_hash (hr_output r) (header (hr_pkg r)))
              (hr_pkg r))
  end.

(** *** bpak_pkg_compute_header_hash (lib/pkg.c) *)

Definition bpak_pkg_compute_header_hash (pkg : bpak_package)
    (output : list byte) (size : Z) (update_payload_hash : bool)
  : option hash_result :=
  let after_payload :=
    if update_payload_hash then
      match bpak_pkg_update_payload_hash pkg with
      | None => None
      | Some (rc, pkg') => Some (rc, pkg')
      end
    else Some (BPAK_OK, pkg) in
  match after_payload with
  | None => None
  | Some (rc, pkg1) =>
      if negb (bpak_errors_eqb rc BPAK_OK) then
        Some (mk_hash_result rc pkg1 output size)
      else
        (* memcpy(signature, ...); signature_sz = ...; memset; ... = 0 *)
        let saved_signature := signature (header pkg1) in
        let saved_signature_sz := signature_sz (header pkg1) in
        let zeroed :=
          set_signature_sz 0
            (set_signature (zeros BPAK_SIGNATURE_MAX_BYTES) (header pkg1)) in
        let pkg2 := set_header zeroed pkg1 in
        match hash_begin (hash_kind zeroed) size with
        | inl rc' => Some (mk_hash_result rc' pkg2 output size)
        | inr (ctx, size') =>
            let ctx' := md_update ctx (header_image zeroed) in
            let output' := md_finish ctx' output in
            let restored :=
              set_signature_sz saved_signature_sz
                (set_signature saved_signature zeroed) in
            Some (mk_hash_result BPAK_OK (set_header restored pkg2)
                    output' size')
        end
  end.

(** [sizeof(pkg->header)] bytes leave through bpak_io_write and fwrite. *)
Hypothesis header_image_length :
  forall h, length (header_image h) = Z.to_nat BPAK_HEADER_SIZE.

(** *** bpak_pkg_open *)

(** The header candidates are read into [pkg->header] after
    [memset(pkg, 0, sizeof( *pkg))]: a short read leaves the tail of the
    previous image in place. *)
Definition zero_image : list byte := zeros (Z.to_nat BPAK_HEADER_SIZE).

Definition is_ok (rc : bpak_errors) : bool := bpak_errors_eqb rc BPAK_OK.

Definition full_header_read (got : list byte) : bool :=
  Z.of_nat (length got) =? BPAK_HEADER_SIZE.

(** lib/pkg.c, on bpak_io.  Every [goto skip_header] lands on the seek to 0
    and [return BPAK_OK]; the code assigned to [rc] before the jump is
    overwritten there.  The allocation of the package is taken to succeed.
    The reads go through the stream with the access its mode gave it; the
    package keeps the stream. *)
Definition bpak_pkg_open (fs : filesystem) (filename : string)
    (mode : option string) : bpak_errors * option bpak_package :=
  match mode with
  | None => (BPAK_FAILED, None)
  | Some m =>
      match bpak_io_init_file fs filename m with
      | (rc, None) => (rc, None)
      | (_, Some f) =>
          let bpak_io_read := bpak_io_read_as (fp_reads f) in
          let '(rc, io1) := bpak_io_seek (fp_stream f) 0 BPAK_IO_SEEK_SET in
          if negb (is_ok rc) then (rc, None)
          else
            let '(got, io2) := bpak_io_read io1 BPAK_HEADER_SIZE in
            let img1 := memcpy zero_image got in
            let '(io_s, img, loc) :=
              if negb (full_header_read got) then
                (io2, img1, BPAK_HEADER_POS_FIRST)
              else if is_ok (bpak_valid_header (image_header img1)) then
                (io2, img1, BPAK_HEADER_POS_FIRST)
              else
                let '(rc', io3) := bpak_io_seek io2 4096 BPAK_IO_SEEK_END in
                if negb (is_ok rc') then (io3, img1, BPAK_HEADER_POS_FIRST)
                else
                  let '(got2, io4) := bpak_io_read io3 BPAK_HEADER_SIZE in
                  let img2 := memcpy img1 got2 in
                  if negb (full_header_read got2) then
                    (io4, img2, BPAK_HEADER_POS_FIRST)
                  else if negb (is_ok (bpak_valid_header (image_header img2)))
                  then (io4, img2, BPAK_HEADER_POS_FIRST)
                  else (io4, img2, BPAK_HEADER_POS_LAST) in
            (* skip_header: *)
            let '(rc'', io5) := bpak_io_seek io_s 0 BPAK_IO_SEEK_SET in
            if negb (is_ok rc'') then (rc'', None)
            else (BPAK_OK, Some (mk_package io5 (image_header img) loc))
      end
  end.

(** part_001, on FILE streams: the same control flow with fopen, fseek and
    fread. *)
Definition bpak_pkg_open_fp (fs : filesystem) (filename : string)
    (mode : option string) : bpak_errors * option bpak_package :=
  match mode with
  | None => (BPAK_FAILED, None)
  | Some m =>
      match fopen fs filename m with
      | None => (BPAK_NOT_FOUND, None)
      | Some f =>
          let fread := fread_as (fp_reads f) in
          let '(r, fp1) := fseek (fp_stream f) 0 SEEK_SET in
          if negb (r =? 0) then (BPAK_SEEK_ERROR, None)
          else
            let '(got, fp2) := fread fp1 BPAK_HEADER_SIZE in
            let img1 := memcpy zero_image got in
            let '(fp_s, img, loc) :=
              if negb (full_header_read got) then
                (fp2, img1, BPAK_HEADER_POS_FIRST)
              else if is_ok (bpak_valid_header (image_header img1)) then
                (fp2, img1, BPAK_HEADER_POS_FIRST)
              else
                let '(r', fp3) := fseek fp2 4096 SEEK_END in
                if negb (r' =? 0) then (fp3, img1, BPAK_HEADER_POS_FIRST)
                else
                  let '(got2, fp4) := fread fp3 BPAK_HEADER_SIZE in
                  let img2 := memcpy img1 got2 in
                  if negb (full_header_read got2) then
                    (fp4, img2, BPAK_HEADER_POS_FIRST)
                  else if negb (is_ok (bpak_valid_header (image_header img2)))
                  then (fp4, img2, BPAK_HEADER_POS_FIRST)
                  else (fp4, img2, BPAK_HEADER_POS_LAST) in
            (* skip_header: *)
            let '(r'', fp5) := fseek fp_s 0 SEEK_SET in
            if negb (r'' =? 0) then (BPAK_SEEK_ERROR, None)
            else (BPAK_OK, Some (mk_package fp5 (image_header img) loc))
      end
  end.

(** *** bpak_pkg_installed_size *)

Definition wrap64 (x : Z) : Z := x mod 2 ^ 64.

(** [bpak_foreach_part] visits every slot of the table, used or not. *)
Definition bpak_pkg_installed_size (pkg : bpak_package) : Z :=
  fold_left (fun acc p => wrap64 (acc + wrap64 (p_size p + p_pad_bytes p)))
    (parts (header pkg)) 0.

(** *** bpak_pkg_write_header *)

(** lib/pkg.c. *)
Definition bpak_pkg_write_header (pkg : bpak_package)
  : bpak_errors * bpak_package :=
  let '(rc, io1) :=
    match header_location pkg with
    | BPAK_HEADER_POS_FIRST => bpak_io_seek (io pkg) 0 BPAK_IO_SEEK_SET
    | BPAK_HEADER_POS_LAST => bpak_io_seek (io pkg) 4096 BPAK_IO_SEEK_END
    end in
  if negb (is_ok rc) then (rc, set_io io1 pkg)
  else
    let '(n, io2) := bpak_io_write io1 (header_image (header pkg)) in
    if negb (n =? BPAK_HEADER_SIZE) then (BPAK_FAILED, set_io io2 pkg)
    else (BPAK_OK, set_io io2 pkg).

(** part_001. *)
Definition bpak_pkg_write_header_fp (pkg : bpak_package)
  : bpak_errors * bpak_package :=
  let '(r, fp1) :=
    match header_location pkg with
    | BPAK_HEADER_POS_FIRST => fseek (io pkg) 0 SEEK_SET
    | BPAK_HEADER_POS_LAST => fseek (io pkg) BPAK_HEADER_SIZE SEEK_END
    end in
  if negb (r =? 0) then (BPAK_SEEK_ERROR, set_io fp1 pkg)
  else
    let '(n, fp2) := fwrite fp1 (header_image (header pkg)) in
    if negb (n =? BPAK_HEADER_SIZE) then (BPAK_WRITE_ERROR, set_io fp2 pkg)
    else (BPAK_OK, set_io fp2 pkg).

(** *** bpak_pkg_sign and bpak_pkg_write_raw_signature *)

(** [memcpy(pkg->header.signature, signature, size)] with [size] above
    512 runs over the members that follow [signature] in struct
    bpak_header; which ones, and what they hold afterwards, depends on the
    layout of bpak/bpak.h.  [signature_overrun sig h] is the header after
    such a copy into [h]. *)
Variable signature_overrun : list byte -> bpak_header -> bpak_header.

(** The three stores both functions open with; [sig] is the [size] bytes
    behind the [signature] pointer, and [signature_sz] is a uint16_t. *)
Definition store_signature (sig : list byte) (h : bpak_header) : bpak_header :=
  let h1 := set_signature (zeros BPAK_SIGNATURE_MAX_BYTES) h in
  let h2 :=
    if (length sig <=? BPAK_SIGNATURE_MAX_BYTES)%nat
    then set_signature (memcpy (signature h1) sig) h1
    else signature_overrun sig h1 in
  set_signature_sz (Z.of_nat (length sig) mod 2 ^ 16) h2.

(** lib/pkg.c. *)
Definition bpak_pkg_sign (pkg : bpak_package) (sig : list byte)
  : bpak_errors * bpak_package :=
  bpak_pkg_write_header (set_header (store_signature sig (header pkg)) pkg).

(** part_001. *)
Definition bpak_pkg_write_raw_signature (pkg : bpak_package) (sig : list byte)
  : bpak_errors * bpak_package :=
  bpak_pkg_write_header_fp (set_header (store_signature sig (header pkg)) pkg).

(** *** bpak_pkg_add_file (lib/pkg_create.c) *)

(** bpak_id of crc.c, BPAK_PART_ALIGN of bpak/bpak.h, and the range of the
    [pad_bytes] member (a store keeps the value modulo this). *)
Variable bpak_id : string -> Z.
Variable BPAK_PART_ALIGN : Z.
Variable pad_bytes_modulus : Z.

(** The memory that follows the automatic array [chunk_buffer]: the padding
    is written with [fwrite(chunk_buffer, 1, p->pad_bytes, ...)], which
    fetches from there once [pad_bytes] exceeds the array. *)
Variable memory_after_chunk_buffer : nat -> byte.

Definition CHUNK_BUFFER_SIZE : Z := 512.

(** Index of the first slot that satisfies [f]. *)
Fixpoint first_slot (f : bpak_part_header -> bool)
    (ps : list bpak_part_header) : option nat :=
  match ps with
  | [] => None
  | p :: ps' => if f p then Some 0%nat else S <$> first_slot f ps'
  end.

(** Modelled from the spec: bpak_add_part of bpak.c, "append into first
    empty part slot.  Fails with NO_SPACE if table full, EXISTS if a live
    slot already carries id".  The slot is handed back as its index. *)
Definition bpak_add_part (h : bpak_header) (id : Z)
  : bpak_errors * option nat :=
  if existsb (fun p => part_live p && (p_id p =? id)) (parts h) then
    (BPAK_EXISTS, None)
  else
    match first_slot (fun p => negb (part_live p)) (parts h) with
    | None => (BPAK_NO_SPACE_LEFT, None)
    | Some i => (BPAK_OK, Some i)
    end.

(** [new_offset += (p->size + p->pad_bytes)] over every slot. *)
Definition next_part_offset (h : bpak_header) : Z :=
  fold_left (fun acc p => wrap64 (acc + wrap64 (p_size p + p_pad_bytes p)))
    (parts h) BPAK_HEADER_SIZE.

Definition part_padding (st_size : Z) : Z :=
  if negb (Z.rem st_size BPAK_PART_ALIGN =? 0) then
    (BPAK_PART_ALIGN - Z.rem st_size BPAK_PART_ALIGN) mod pad_bytes_modulus
  else 0.

(** The stores through [p] after bpak_add_part. *)
Definition fill_part (id new_offset flags st_size : Z) (p : bpak_part_header)
  : bpak_part_header :=
  mk_part id (wrap64 st_size) (p_transport_size p) new_offset
    (part_padding st_size) flags.

(** The [while (bytes_to_write)] copy loop.  [None] is a loop still running
    when the fuel is spent. *)
Fixpoint copy_loop (fuel : nat) (bytes_to_write : Z) (in_fp out_fp : stream)
  : option (bpak_errors * stream * stream) :=
  if bytes_to_write =? 0 then Some (BPAK_OK, in_fp, out_fp)
  else
    match fuel with
    | O => None
    | S fuel' =>
        let '(chunk, in_fp') := fread in_fp CHUNK_BUFFER_SIZE in
        let read_bytes := Z.of_nat (length chunk) in
        let '(written, out_fp') := fwrite out_fp chunk in
        if negb (written =? read_bytes) then
          Some (BPAK_WRITE_ERROR, in_fp', out_fp')
        else copy_loop fuel' (wrap64 (bytes_to_write - read_bytes))
               in_fp' out_fp'
    end.

(** [pad] bytes starting at the zeroed [chunk_buffer]. *)
Definition padding_bytes (pad : Z) : list byte :=
  take (Z.to_nat pad) (zeros (Z.to_nat CHUNK_BUFFER_SIZE))
  ++ map memory_after_chunk_buffer
       (seq 0 (Z.to_nat pad - Z.to_nat CHUNK_BUFFER_SIZE)).

(** The statements after the copy loop: the zero padding, the payload hash
    refresh and the header write. *)
Definition add_file_finish (pkg2 : bpak_package) (pad : Z)
  : option (bpak_errors * bpak_package) :=
  let '(pad_ok, pkg3) :=
    if negb (pad =? 0) then
      let '(n, fp3) := fwrite (io pkg2) (padding_bytes pad) in
      (n =? pad, set_io fp3 pkg2)
    else (true, pkg2) in
  if negb pad_ok then Some (BPAK_WRITE_ERROR, pkg3)
  else
    match bpak_pkg_update_payload_hash pkg3 with
    | None => None
    | Some (rc', pkg4) =>
        if negb (is_ok rc') then Some (BPAK_FAILED, pkg4)
        else Some (bpak_pkg_write_header_fp pkg4)
    end.

Definition bpak_pkg_add_file (fuel : nat) (fs : filesystem)
    (pkg : bpak_package) (filename part_name : string) (flags : Z)
  : option (bpak_errors * bpak_package) :=
  match stat fs filename with
  | None => Some (BPAK_FAILED, pkg)
  | Some st_size =>
      let h := header pkg in
      let new_offset := next_part_offset h in
      match bpak_add_part h (bpak_id part_name) with
      | (rc, None) => Some (rc, pkg)
      | (_, Some i) =>
          let h' :=
            set_parts
              (alter (fill_part (bpak_id part_name) new_offset flags st_size)
                 i (parts h)) h in
          let pkg1 := set_header h' pkg in
          let '(r, fp1) := fseek (io pkg1) new_offset SEEK_SET in
          if negb (r =? 0) then Some (BPAK_SEEK_ERROR, set_io fp1 pkg1)
          else
            let bytes_to_write := wrap64 st_size in
            match fp_stream <$> fopen fs filename "r" with
            | None => Some (BPAK_FAILED, set_io fp1 pkg1)
            | Some in_fp =>
                match copy_loop fuel bytes_to_write in_fp fp1 with
                | None => None
                | Some (rc, _, fp2) =>
                    let pkg2 := set_io fp2 pkg1 in
                    if negb (is_ok rc) then Some (rc, pkg2)
                    else add_file_finish pkg2 (part_padding st_size)
                end
            end
      end
  end.

(** *** bpak_pkg_transport_decode *)

(** The transport back-end of transport.c: its context (which keeps the
    pointer to the patch header and to the private data of the hooks) and its
    entry points. *)
Variable decode_ctx : Type.

Variable bpak_transport_decode_init :
  bpak_header -> decode_private -> bpak_errors * decode_world decode_ctx.
Variable bpak_transport_decode_set_origin :
  decode_world decode_ctx -> bpak_header ->
  bpak_errors * decode_world decode_ctx.
Variable bpak_transport_decode_start :
  decode_world decode_ctx -> bpak_part_header ->
  bpak_errors * decode_world decode_ctx.
Variable bpak_transport_decode_write_chunk :
  decode_world decode_ctx -> list byte -> bpak_errors * decode_world decode_ctx.
Variable bpak_transport_decode_finish :
  decode_world decode_ctx -> bpak_errors * decode_world decode_ctx.

(** Modelled from the spec: bpak_get_part ("linear scan of live slots;
    NOT_FOUND if absent") and bpak_part_offset ("part.offset") of bpak.c. *)
Definition bpak_get_part (h : bpak_header) (id : Z)
  : bpak_errors * option bpak_part_header :=
  match find (fun p => part_live p && (p_id p =? id)) (parts h) with
  | Some p => (BPAK_OK, Some p)
  | None => (BPAK_NOT_FOUND, None)
  end.

Definition bpak_part_offset (h : bpak_header) (p : bpak_part_header) : Z :=
  p_offset p.

Definition DECODE_CHUNK_SIZE : Z := 4096.

(** The [while (bytes_to_process)] loop that feeds the decoder. *)
Fixpoint decode_chunks (fuel : nat) (bytes_to_process : Z) (input_io : stream)
    (w : decode_world decode_ctx)
  : option (bpak_errors * stream * decode_world decode_ctx) :=
  if bytes_to_process =? 0 then Some (BPAK_OK, input_io, w)
  else
    match fuel with
    | O => None
    | S fuel' =>
        let chunk_length := Z.min bytes_to_process DECODE_CHUNK_SIZE in
        let '(chunk, input_io') := bpak_io_read input_io chunk_length in
        if negb (Z.of_nat (length chunk) =? chunk_length) then
          Some (BPAK_READ_ERROR, input_io', w)
        else
          let '(rc, w') := bpak_transport_decode_write_chunk w chunk in
          if negb (is_ok rc) then Some (rc, input_io', w')
          else decode_chunks fuel' (bytes_to_process - chunk_length)
                 input_io' w'
    end.

(** [bpak_foreach_part(patch_header, part)] from slot [i] on, [n] slots to
    go.  [origin] is the third argument of the function, [None] for NULL: the
    test [origin->io != NULL] reads through it. *)
Fixpoint decode_parts (n i : nat) (origin : option bpak_package)
    (input_io : stream) (w : decode_world decode_ctx)
  : option (outcome (bpak_errors * stream * decode_world decode_ctx)) :=
  match n with
  | O => Some (Returned (BPAK_OK, input_io, w))
  | S n' =>
      match parts (dw_patch_header w) !! i with
      | None => Some (Returned (BPAK_OK, input_io, w))
      | Some part =>
          if p_id part =? 0 then Some (Returned (BPAK_OK, input_io, w))
          else
            match origin with
            | None => Some Fault
            | Some o =>
                match bpak_get_part (header o) (p_id part) with
                | (rc, None) => Some (Returned (rc, input_io, w))
                | (_, Some origin_part) =>
                    let priv :=
                      set_offsets (bpak_part_offset (header o) origin_part)
                        (bpak_part_offset (dw_patch_header w) part)
                        (dw_private w) in
                    let w1 := mk_decode_world (dw_ctx w) (dw_patch_header w)
                                priv in
                    let '(rc, w2) := bpak_transport_decode_start w1 part in
                    if negb (is_ok rc) then Some (Returned (rc, input_io, w2))
                    else
                      let size := bpak_part_size part in
                      match decode_chunks
                              (S (Z.to_nat (size / DECODE_CHUNK_SIZE)))
                              size input_io w2 with
                      | None => None
                      | Some (rc', input_io', w3) =>
                          if negb (is_ok rc') then
                            Some (Returned (rc', input_io', w3))
                          else
                            let '(rc'', w4) :=
                              bpak_transport_decode_finish w3 in
                            if negb (is_ok rc'') then
                              Some (Returned (rc'', input_io', w4))
                            else decode_parts n' (S i) origin input_io' w4
                      end
                end
            end
      end
  end.

(** What the caller sees afterwards: the return code and the three
    packages. *)
Record decode_result : Type := mk_decode_result {
  dr_rc : bpak_errors;
  dr_input : bpak_package;
  dr_output : bpak_package;
  dr_origin : option bpak_package
}.

Definition decode_done (rc : bpak_errors) (input_io : stream)
    (w : decode_world decode_ctx) (input output : bpak_package)
    (origin : option bpak_package) : decode_result :=
  mk_decode_result rc
    (mk_package input_io (dw_patch_header w) (header_location input))
    (set_io (output_io (dw_private w)) output)
    (match origin, origin_io (dw_private w) with
     | Some o, Some s => Some (set_io s o)
     | _, _ => origin
     end).

(** Everything after the seek on the input stream; lib/pkg.c and part_001
    differ only in that seek. *)
Definition transport_decode_with
    (seek_input : stream -> bpak_errors * stream)
    (input output : bpak_package) (origin : option bpak_package)
  : option (outcome decode_result) :=
  let priv0 := mk_decode_private (io output) (io <$> origin) 0 0 in
  let '(rc, w0) := bpak_transport_decode_init (header input) priv0 in
  if negb (is_ok rc) then
    Some (Returned (decode_done rc (io input) w0 input output origin))
  else
    let '(rc1, w1) :=
      match origin with
      | Some o => bpak_transport_decode_set_origin w0 (header o)
      | None => (BPAK_OK, w0)
      end in
    if negb (is_ok rc1) then
      Some (Returned (decode_done rc1 (io input) w1 input output origin))
    else
      let '(rc2, input_io) := seek_input (io input) in
      if negb (is_ok rc2) then
        Some (Returned (decode_done rc2 input_io w1 input output origin))
      else
        match decode_parts (length (parts (dw_patch_header w1))) 0 origin
                input_io w1 with
        | None => None
        | Some Fault => Some Fault
        | Some (Returned (rc3, input_io', w2)) =>
            Some (Returned (decode_done rc3 input_io' w2 input output origin))
        end.

(** lib/pkg.c. *)
Definition bpak_pkg_transport_decode :=
  transport_decode_with
    (fun s => bpak_io_seek s BPAK_HEADER_SIZE BPAK_IO_SEEK_SET).

(** part_001. *)
Definition bpak_pkg_transport_decode_fp :=
  transport_decode_with
    (fun s => let '(r, s') := fseek s BPAK_HEADER_SIZE SEEK_SET in
              (if r =? 0 then BPAK_OK else BPAK_SEEK_ERROR, s')).

(** *** Sizes *)

(** Bytes that the slots of a table account for, padding included, as an
    unbounded sum. *)
Definition slots_span (ps : list bpak_part_header) : Z :=
  foldr (fun p acc => p_size p + p_pad_bytes p + acc) 0 ps.

(** bpak_pkg_size (lib/pkg.c and part_001 alike): every slot counts, with
    [transport_size] for a part flagged TRANSPORT and [size] otherwise, and
    the header comes on top. *)
Definition bpak_pkg_size (pkg : bpak_package) : Z :=
  wrap64
    (fold_left
       (fun acc p =>
          wrap64 (acc + (if negb (Z.land (p_flags p) BPAK_FLAG_TRANSPORT =? 0)
                         then p_transport_size p else p_size p)))
       (parts (header pkg)) 0
     + BPAK_HEADER_SIZE).

(** *** The hooks handed to the transport decoder *)

Definition set_output_io (s : stream) (d : decode_private) : decode_private :=
  mk_decode_private s (origin_io d) (origin_offset d) (output_offset d).

(** The hooks return a ssize_t: a negated error code ([inl]) or a byte
    count.  A write hook is given the [length] bytes of [buffer]; a read hook
    hands back the bytes it stored at the start of [buffer]. *)

(** lib/pkg.c. *)
Definition decode_write_output (priv : decode_private) (offset : Z)
    (buffer : list byte) : (bpak_errors + Z) * decode_private :=
  let '(rc, io1) :=
    bpak_io_seek (output_io priv) (output_offset priv + offset)
      BPAK_IO_SEEK_SET in
  if negb (is_ok rc) then (inl BPAK_SEEK_ERROR, set_output_io io1 priv)
  else
    let '(n, io2) := bpak_io_write io1 buffer in
    (inr n, set_output_io io2 priv).

Definition decode_read_output (priv : decode_private) (offset length : Z)
  : (bpak_errors + list byte) * decode_private :=
  let '(rc, io1) :=
    bpak_io_seek (output_io priv) (output_offset priv + offset)
      BPAK_IO_SEEK_SET in
  if negb (is_ok rc) then (inl BPAK_SEEK_ERROR, set_output_io io1 priv)
  else
    let '(got, io2) := bpak_io_read io1 length in
    (inr got, set_output_io io2 priv).

Definition decode_write_output_header (priv : decode_private) (offset : Z)
    (buffer : list byte) : (bpak_errors + Z) * decode_private :=
  if negb (Z.of_nat (length buffer) =? BPAK_HEADER_SIZE) then
    (inl BPAK_SIZE_ERROR, priv)
  else
    let '(rc, io1) := bpak_io_seek (output_io priv) 0 BPAK_IO_SEEK_SET in
    if negb (is_ok rc) then (inl BPAK_SEEK_ERROR, set_output_io io1 priv)
    else
      let '(n, io2) := bpak_io_write io1 buffer in
      (inr n, set_output_io io2 priv).

(** part_001. *)
Definition decode_write_output_fp (priv : decode_private) (offset : Z)
    (buffer : list byte) : (bpak_errors + Z) * decode_private :=
  let '(r, fp1) :=
    fseek (output_io priv) (output_offset priv + offset) SEEK_SET in
  if negb (r =? 0) then (inl BPAK_SEEK_ERROR, set_output_io fp1 priv)
  else
    let '(n, fp2) := fwrite fp1 buffer in
    (inr n, set_output_io fp2 priv).

Definition decode_read_output_fp (priv : decode_private) (offset length : Z)
  : (bpak_errors + list byte) * decode_private :=
  let '(r, fp1) :=
    fseek (output_io priv) (output_offset priv + offset) SEEK_SET in
  if negb (r =? 0) then (inl BPAK_SEEK_ERROR, set_output_io fp1 priv)
  else
    let '(got, fp2) := fread fp1 length in
    (inr got, set_output_io fp2 priv).

Definition decode_write_output_header_fp (priv : decode_private) (offset : Z)
    (buffer : list byte) : (bpak_errors + Z) * decode_private :=
  if negb (Z.of_nat (length buffer) =? BPAK_HEADER_SIZE) then
    (inl BPAK_SIZE_ERROR, priv)
  else
    let '(r, fp1) := fseek (output_io priv) 0 SEEK_SET in
    if negb (r =? 0) then (inl BPAK_SEEK_ERROR, set_output_io fp1 priv)
    else
      let '(n, fp2) := fwrite fp1 buffer in
      (inr n, set_output_io fp2 priv).

(** *** pkg_read_payload (part_001) *)

(** The result, the bytes that reached [buf], and the stream.  A short read
    is an error, but what was read has been stored by then. *)
Definition pkg_read_payload (fp : stream) (offset length : Z)
  : (bpak_errors + Z) * list byte * stream :=
  let '(r, fp1) := fseek fp offset SEEK_SET in
  if negb (r =? 0) then (inl BPAK_SEEK_ERROR, [], fp1)
  else
    let '(got, fp2) := fread fp1 length in
    let read_bytes := Z.of_nat (List.length got) in
    if negb (read_bytes =? length) then (inl BPAK_READ_ERROR, got, fp2)
    else (inr read_bytes, got, fp2).

(** *** merkle_wr and merkle_rd (lib/pkg_create.c) *)

(** [priv] is the array the hash tree is kept in.  Neither function knows
    its size: a range that leaves the array is an access outside the
    object. *)
Definition merkle_wr (offset : Z) (buf : list byte) (data : list byte)
  : outcome (Z * list byte) :=
  if (0 <=? offset)
     && (offset + Z.of_nat (length buf) <=? Z.of_nat (length data)) then
    Returned
      (Z.of_nat (length buf),
       take (Z.to_nat offset) data ++ buf
       ++ drop (Z.to_nat offset + length buf) data)
  else Fault.

Definition merkle_rd (offset size : Z) (data : list byte)
  : outcome (Z * list byte) :=
  if (0 <=? offset) && (0 <=? size)
     && (offset + size <=? Z.of_nat (length data)) then
    Returned (size, take (Z.to_nat size) (drop (Z.to_nat offset) data))
  else Fault.

(** *** bpak_pkg_add_key (lib/pkg_create.c) *)

Definition KEY_BUFFER_SIZE : Z := 4096.

(** The [while (bytes_to_write)] loop over [tmp], the array of 4096 bytes
    at whose END mbedtls_pk_write_pubkey_der left the [len] bytes of the
    key. *)
Fixpoint key_loop (fuel : nat) (bytes_to_write bytes_offset : Z)
    (tmp : list byte) (len : Z) (out_fp : stream)
  : option (bpak_errors * stream) :=
  if bytes_to_write =? 0 then Some (BPAK_OK, out_fp)
  else
    match fuel with
    | O => None
    | S fuel' =>
        let chunk_sz := if bytes_to_write >? CHUNK_BUFFER_SIZE
                        then CHUNK_BUFFER_SIZE else bytes_to_write in
        let chunk :=
          take (Z.to_nat chunk_sz)
            (drop (Z.to_nat (KEY_BUFFER_SIZE - len + bytes_offset)) tmp) in
        let '(written, out_fp') := fwrite out_fp chunk in
        if negb (written =? chunk_sz) then Some (BPAK_WRITE_ERROR, out_fp')
        else key_loop fuel' (wrap64 (bytes_to_write - chunk_sz))
               (wrap64 (bytes_offset + chunk_sz)) tmp len out_fp'
    end.

(** [tmp] and [len] are what mbedtls_pk_write_pubkey_der returned for the
    key file: a negative [len] is its error, otherwise [0 <= len <= 4096]
    and the copies of the loop stay inside [tmp].  The [flags] argument is
    not used: the part is stored with flags 0. *)
Definition bpak_pkg_add_key (fuel : nat) (pkg : bpak_package)
    (tmp : list byte) (len : Z) (part_name : string) (flags : Z)
  : option (bpak_errors * bpak_package) :=
  if len <? 0 then Some (BPAK_FAILED, pkg)
  else
    let h := header pkg in
    let new_offset := next_part_offset h in
    match bpak_add_part h (bpak_id part_name) with
    | (rc, None) => Some (rc, pkg)
    | (_, Some i) =>
        let h' :=
          set_parts
            (alter (fill_part (bpak_id part_name) new_offset 0 len)
               i (parts h)) h in
        let pkg1 := set_header h' pkg in
        let '(r, fp1) := fseek (io pkg1) new_offset SEEK_SET in
        if negb (r =? 0) then Some (BPAK_SEEK_ERROR, set_io fp1 pkg1)
        else
          match key_loop fuel (wrap64 len) 0 tmp len fp1 with
          | None => None
          | Some (rc, fp2) =>
              let pkg2 := set_io fp2 pkg1 in
              if negb (is_ok rc) then Some (rc, pkg2)
              else
                let pad := part_padding len in
                let '(n, fp3) := fwrite (io pkg2) (padding_bytes pad) in
                let pkg3 := set_io fp3 pkg2 in
                if negb (n =? pad) then Some (BPAK_WRITE_ERROR, pkg3)
                else
                  match bpak_pkg_update_payload_hash pkg3 with
                  | None => None
                  | Some (rc', pkg4) =>
                      if negb (is_ok rc') then Some (BPAK_FAILED, pkg4)
                      else Some (bpak_pkg_write_header_fp pkg4)
                  end
          end
    end.

(** * Properties *)

(** ** Streams *)

Lemma length_zeros n : length (zeros n) = n.
Proof. apply length_replicate. Qed.

Lemma memcpy_full (dst src : list byte) :
  (length dst <= length src)%nat -> memcpy dst src = src.
Proof.
  intros H. unfold memcpy. rewrite drop_ge by lia. apply app_nil_r.
Qed.

Lemma length_memcpy (dst src : list byte) :
  (length src <= length dst)%nat -> length (memcpy dst src) = length dst.
Proof.
  intros H. unfold memcpy. rewrite length_app, length_drop. lia.
Qed.

Lemma take_memcpy (dst src : list byte) :
  take (length src) (memcpy dst src) = src.
Proof. unfold memcpy. apply take_app_length. Qed.

(** ** The payload hash always returns *)

Lemma hash_chunks_total fuel : forall n s,
  (Z.to_nat (n / HASH_BUFFER_SIZE) < fuel)%nat ->
  exists s', hash_chunks fuel n s = Some s'.
Proof.
  unfold HASH_BUFFER_SIZE.
  induction fuel as [|fuel IH]; intros n s Hf; [lia|].
  cbn [hash_chunks]. unfold HASH_BUFFER_SIZE, bpak_io_read, stream_read.
  destruct (n >? 512) eqn:Hn.
  - apply Z.gtb_lt in Hn.
    destruct (n - 512 =? 0) eqn:Hz; [eauto|].
    apply IH.
    replace (n - 512) with (n + (-1) * 512) by lia.
    rewrite Z.div_add by lia.
    assert (1 <= n / 512) by (apply Z.div_le_lower_bound; lia).
    lia.
  - rewrite Z.sub_diag. cbn. eauto.
Qed.

Lemma hash_parts_total ps : forall s, exists s', hash_parts ps s = Some s'.
Proof.
  induction ps as [|p ps IH]; intros s; cbn [hash_parts]; [eauto|].
  destruct (p_id p =? 0); [apply IH|].
  destruct (negb _); [apply IH|].
  destruct (hash_chunks_total (hash_chunks_fuel (bpak_part_size p))
              (bpak_part_size p) s) as [s' Hs'].
  { unfold hash_chunks_fuel. lia. }
  rewrite Hs'. apply IH.
Qed.

Lemma hash_begin_error_cases kind size rc :
  hash_begin kind size = inl rc ->
  rc = BPAK_FAILED \/ rc = BPAK_NOT_SUPPORTED.
Proof.
  unfold hash_begin.
  repeat match goal with |- context [if ?b then _ else _] => destruct b end;
    intros [= <-]; auto.
Qed.

Lemma compute_payload_hash_ok pkg output size ctx size' :
  hash_begin (hash_kind (header pkg)) size = inr (ctx, size') ->
  exists s,
    hash_parts (parts (header pkg)) (hash_start pkg ctx) = Some s /\
    bpak_pkg_compute_payload_hash pkg output size =
      Some (mk_hash_result BPAK_OK (set_io (hs_io s) pkg)
              (md_finish (hs_ctx s) output) size').
Proof.
  intros Hb. unfold bpak_pkg_compute_payload_hash. rewrite Hb.
  destruct (hash_parts_total (parts (header pkg)) (hash_start pkg ctx))
    as [s Hs].
  exists s. split; [exact Hs|].
  rewrite Hs. reflexivity.
Qed.

Lemma compute_payload_hash_err pkg output size rc :
  hash_begin (hash_kind (header pkg)) size = inl rc ->
  bpak_pkg_compute_payload_hash pkg output size =
    Some (mk_hash_result rc pkg output size).
Proof.
  intros Hb. unfold bpak_pkg_compute_payload_hash. rewrite Hb. reflexivity.
Qed.

Lemma compute_payload_hash_total pkg output size :
  exists r, bpak_pkg_compute_payload_hash pkg output size = Some r.
Proof.
  destruct (hash_begin (hash_kind (header pkg)) size)
    as [rc|[ctx size']] eqn:Hb.
  - rewrite (compute_payload_hash_err _ _ _ _ Hb). eauto.
  - destruct (compute_payload_hash_ok pkg output size ctx size' Hb)
      as (s & _ & ->). eauto.
Qed.

(** ** The header hash and the signature slot *)

(** On success the signature slot is put back: the header is as the
    payload-hash refresh left it, and untouched without a refresh. *)
Lemma compute_header_hash_success_restores pkg output size b r :
  bpak_pkg_compute_header_hash pkg output size b = Some r ->
  hr_rc r = BPAK_OK ->
  signature (header (hr_pkg r)) = signature (header pkg) /\
  signature_sz (header (hr_pkg r)) = signature_sz (header pkg) /\
  (b = false -> hr_pkg r = pkg).
Proof.
  unfold bpak_pkg_compute_header_hash, bpak_pkg_update_payload_hash.
  destruct b.
  - destruct (bpak_pkg_compute_payload_hash pkg _ _) as [r0|] eqn:Hp;
      [|discriminate].
    assert (Hsig : signature (header (hr_pkg r0)) = signature (header pkg)
                   /\ signature_sz (header (hr_pkg r0))
                      = signature_sz (header pkg)).
    { unfold bpak_pkg_compute_payload_hash in Hp.
      destruct (hash_begin _ _) as [rc|[ctx size']];
        [injection Hp as <-; split; reflexivity|].
      destruct (hash_parts _ _); [|discriminate].
      injection Hp as <-. split; reflexivity. }
    destruct Hsig as [Hs Hz].
    destruct (negb (bpak_errors_eqb (hr_rc r0) BPAK_OK)) eqn:Hrc.
    { intros [= <-]. cbn. intros Hok. rewrite Hok in Hrc. discriminate. }
    destruct (hash_begin _ size) as [rc'|[ctx size']] eqn:Hb.
    { intros [= <-]. cbn. intros ->.
      apply hash_begin_error_cases in Hb. destruct Hb; discriminate. }
    intros [= <-] _. cbn. repeat split; [exact Hs|exact Hz|discriminate].
  - cbn. destruct (hash_begin _ size) as [rc'|[ctx size']] eqn:Hb.
    { intros [= <-]. cbn. intros ->.
      apply hash_begin_error_cases in Hb. destruct Hb; discriminate. }
    intros [= <-] _. cbn. repeat split. intros _.
    destruct pkg as [s [] l]. reflexivity.
Qed.

(** C1 (as the code behaves): when the digest cannot be set up -- the hash
    kind is not recognised, or the caller's buffer is shorter than the
    digest -- bpak_pkg_compute_header_hash returns the error after it has
    zeroed the signature slot and without putting the saved copy back: the
    header then holds 512 zero bytes as signature and [signature_sz = 0],
    whatever it held before the call. *)
Theorem compute_header_hash_error_clobbers_signature pkg output size rc :
  hash_begin (hash_kind (header pkg)) size = inl rc ->
  exists r,
    bpak_pkg_compute_header_hash pkg output size false = Some r /\
    hr_rc r = rc /\ rc <> BPAK_OK /\
    signature (header (hr_pkg r)) = zeros BPAK_SIGNATURE_MAX_BYTES /\
    signature_sz (header (hr_pkg r)) = 0.
Proof.
  intros Hb. unfold bpak_pkg_compute_header_hash. cbn.
  rewrite Hb. eexists. split; [reflexivity|]. cbn.
  repeat split.
  destruct (hash_begin_error_cases _ _ _ Hb) as [-> | ->]; discriminate.
Qed.

(** ** The hashes do not see the signature *)

Lemma compute_payload_hash_with_signature sig sz pkg output size :
  bpak_pkg_compute_payload_hash (with_signature sig sz pkg) output size =
  (fun r => mk_hash_result (hr_rc r) (with_signature sig sz (hr_pkg r))
              (hr_output r) (hr_size r))
    <$> bpak_pkg_compute_payload_hash pkg output size.
Proof.
  unfold bpak_pkg_compute_payload_hash, hash_start. cbn.
  destruct (hash_begin (hash_kind (header pkg)) size) as [rc|[ctx size']];
    [reflexivity|].
  destruct (hash_parts _ _); reflexivity.
Qed.

Lemma compute_header_hash_with_signature sig sz pkg output size b :
  hr_public <$>
    bpak_pkg_compute_header_hash (with_signature sig sz pkg) output size b =
  hr_public <$> bpak_pkg_compute_header_hash pkg output size b.
Proof.
  unfold bpak_pkg_compute_header_hash, bpak_pkg_update_payload_hash.
  destruct b.
  - change (payload_hash (header (with_signature sig sz pkg)))
      with (payload_hash (header pkg)).
    rewrite compute_payload_hash_with_signature.
    destruct (bpak_pkg_compute_payload_hash pkg _ _) as [r|]; [|reflexivity].
    cbn. destruct (bpak_errors_eqb (hr_rc r) BPAK_OK); cbn; [|reflexivity].
    destruct (hash_begin _ size) as [rc|[ctx size']]; reflexivity.
  - cbn. destruct (hash_begin _ size) as [rc|[ctx size']]; reflexivity.
Qed.

Lemma compute_header_hash_total pkg output size b :
  exists r, bpak_pkg_compute_header_hash pkg output size b = Some r.
Proof.
  unfold bpak_pkg_compute_header_hash, bpak_pkg_update_payload_hash.
  destruct b.
  - destruct (compute_payload_hash_total pkg (payload_hash (header pkg))
                BPAK_PAYLOAD_HASH_BYTES) as [r ->].
    destruct (negb _); [eauto|].
    destruct (hash_begin _ size) as [rc|[ctx size']]; eauto.
  - cbn. destruct (hash_begin _ size) as [rc|[ctx size']]; eauto.
Qed.

(** The message of the header hash is the image of a header whose
    signature slot is zero. *)
Lemma compute_header_hash_message pkg output size b r :
  bpak_pkg_compute_header_hash pkg output size b = Some r ->
  hr_rc r = BPAK_OK ->
  exists h a,
    signature h = zeros BPAK_SIGNATURE_MAX_BYTES /\ signature_sz h = 0 /\
    hr_output r =
      memcpy output (resize (md_len a) x00 (digest a (header_image h))).
Proof.
  unfold bpak_pkg_compute_header_hash.
  destruct (if b then _ else _) as [[rc pkg1]|]; [|discriminate].
  destruct (negb (bpak_errors_eqb rc BPAK_OK)) eqn:Hrc.
  { intros [= <-]. cbn. intros ->. discriminate. }
  destruct (hash_begin _ size) as [rc'|[ctx size']] eqn:Hb.
  { intros [= <-]. cbn. intros ->.
    apply hash_begin_error_cases in Hb. destruct Hb; discriminate. }
  intros [= <-] _. cbn.
  exists (set_signature_sz 0
            (set_signature (zeros BPAK_SIGNATURE_MAX_BYTES) (header pkg1))),
    (md_kind ctx).
  split; [reflexivity|]. split; [reflexivity|].
  unfold md_finish, md_message, md_update. cbn.
  assert (md_fed ctx = []) as ->.
  { unfold hash_begin in Hb.
    repeat match type of Hb with
           | context [if ?c then _ else _] => destruct c
           end; inversion Hb; reflexivity. }
  cbn. rewrite app_nil_r. reflexivity.
Qed.

(** C5: for a package [pkg] and any two contents [(sig1, sz1)] and
    [(sig2, sz2)] of the signature and signature_sz header fields,
    bpak_pkg_compute_payload_hash returns the same code, digest and size on
    both variants, and so does bpak_pkg_compute_header_hash; a successful
    header hash is the digest of a header image whose signature is 512 zero
    bytes and whose signature_sz is 0. *)
Theorem signature_does_not_affect_hashes pkg sig1 sz1 sig2 sz2 output size b :
  let a1 := with_signature sig1 sz1 pkg in
  let a2 := with_signature sig2 sz2 pkg in
  (exists r1 r2,
      bpak_pkg_compute_payload_hash a1 output size = Some r1 /\
      bpak_pkg_compute_payload_hash a2 output size = Some r2 /\
      hr_public r1 = hr_public r2) /\
  (exists r1 r2,
      bpak_pkg_compute_header_hash a1 output size b = Some r1 /\
      bpak_pkg_compute_header_hash a2 output size b = Some r2 /\
      hr_public r1 = hr_public r2 /\
      (hr_rc r1 = BPAK_OK ->
       exists h a,
         signature h = zeros BPAK_SIGNATURE_MAX_BYTES /\ signature_sz h = 0 /\
         hr_output r1 =
           memcpy output (resize (md_len a) x00 (digest a (header_image h))))).
Proof.
  intros a1 a2. split.
  - subst a1 a2. rewrite !compute_payload_hash_with_signature.
    destruct (compute_payload_hash_total pkg output size) as [r ->].
    cbn. eauto.
  - pose proof (compute_header_hash_with_signature sig1 sz1 pkg output size b)
      as E1.
    pose proof (compute_header_hash_with_signature sig2 sz2 pkg output size b)
      as E2.
    fold a1 in E1. fold a2 in E2.
    destruct (compute_header_hash_total a1 output size b) as [r1 H1].
    destruct (compute_header_hash_total a2 output size b) as [r2 H2].
    exists r1, r2. rewrite H1 in E1. rewrite H2 in E2.
    split; [exact H1|]. split; [exact H2|].
    split; [rewrite <- E2 in E1; cbn in E1; congruence|].
    intros Hok. eapply compute_header_hash_message; eauto.
Qed.

(** ** What the payload hash feeds the digest *)

Lemma hash_chunks_in_bounds fuel : forall n s,
  0 <= n -> 0 <= s_pos (hs_io s) ->
  s_pos (hs_io s) + n <= stream_end (hs_io s) ->
  length (hs_buffer s) = Z.to_nat HASH_BUFFER_SIZE ->
  (Z.to_nat (n / HASH_BUFFER_SIZE) < fuel)%nat ->
  exists s' fed,
    hash_chunks fuel n s = Some s' /\
    hs_io s' = mk_stream (s_data (hs_io s)) (s_pos (hs_io s) + n) /\
    length (hs_buffer s') = Z.to_nat HASH_BUFFER_SIZE /\
    feeds s s' fed /\
    concat fed =
      take (Z.to_nat n)
        (drop (Z.to_nat (s_pos (hs_io s))) (s_data (hs_io s))) /\
    Forall (fun c => (length c <= 512)%nat) fed.
Proof.
  unfold HASH_BUFFER_SIZE, stream_end, feeds.
  induction fuel as [|fuel IH]; intros n [[data pos] buf ctx];
    cbn [hs_io hs_buffer hs_ctx s_data s_pos];
    intros Hn Hpos Hend Hbuf Hf; [lia|].
  cbn [hash_chunks]. unfold HASH_BUFFER_SIZE, bpak_io_read, stream_read.
  cbn [hs_io hs_buffer hs_ctx s_data s_pos].
  destruct (n >? 512) eqn:Hgt.
  - apply Z.gtb_lt in Hgt.
    set (got := take (Z.to_nat 512) (drop (Z.to_nat pos) data)).
    assert (Hgot : length got = Z.to_nat 512).
    { subst got. rewrite length_take, length_drop. lia. }
    replace (take (Z.to_nat 512) (memcpy buf got)) with got
      by (rewrite <- Hgot; symmetry; apply take_memcpy).
    destruct (n - 512 =? 0) eqn:Hz; [apply Z.eqb_eq in Hz; lia|].
    edestruct (IH (n - 512)
                 (mk_hash_state (mk_stream data (pos + Z.of_nat (length got)))
                    (memcpy buf got) (md_update ctx got)))
      as (s' & fed & Hrun & Hio & Hb' & Hfed & Hcat & Hall);
      cbn [hs_io hs_buffer hs_ctx s_data s_pos]; try lia.
    + rewrite length_memcpy; lia.
    + replace (n - 512) with (n + (-1) * 512) by lia.
      rewrite Z.div_add by lia.
      assert (1 <= n / 512) by (apply Z.div_le_lower_bound; lia).
      lia.
    + exists s', (got :: fed). rewrite Hrun. split; [reflexivity|].
      cbn [hs_io hs_buffer hs_ctx s_data s_pos md_update md_kind md_fed] in *.
      split; [rewrite Hio; f_equal; lia|].
      split; [exact Hb'|].
      split; [rewrite Hfed, <- app_assoc; reflexivity|].
      split.
      * cbn [concat]. rewrite Hcat. subst got.
        replace (Z.to_nat
                   (pos + Z.of_nat
                            (length (take (Z.to_nat 512)
                                       (drop (Z.to_nat pos) data)))))
          with (Z.to_nat pos + Z.to_nat 512)%nat by lia.
        rewrite <- drop_drop, take_take_drop. f_equal. lia.
      * constructor; [lia|exact Hall].
  - rewrite Z.gtb_ltb in Hgt. apply Z.ltb_ge in Hgt.
    set (got := take (Z.to_nat n) (drop (Z.to_nat pos) data)).
    assert (Hgot : length got = Z.to_nat n).
    { subst got. rewrite length_take, length_drop. lia. }
    replace (take (Z.to_nat n) (memcpy buf got)) with got
      by (rewrite <- Hgot; symmetry; apply take_memcpy).
    rewrite Z.sub_diag. cbn [Z.eqb].
    eexists _, [got]. split; [reflexivity|].
    cbn [hs_io hs_buffer hs_ctx s_data s_pos md_update md_kind md_fed].
    split; [f_equal; lia|].
    split; [rewrite length_memcpy; lia|].
    split; [reflexivity|].
    split; [cbn; apply app_nil_r|].
    constructor; [lia|constructor].
Qed.

Lemma payload_span_nonneg ps :
  Forall (fun p => 0 <= bpak_part_size p) ps -> 0 <= payload_span ps.
Proof.
  unfold payload_span.
  induction 1 as [|p ps Hp _ IH]; cbn [foldr]; [lia|].
  destruct (part_live p); lia.
Qed.

Lemma feeds_trans s1 s2 s3 fed1 fed2 :
  feeds s1 s2 fed1 -> feeds s2 s3 fed2 -> feeds s1 s3 (fed1 ++ fed2).
Proof.
  unfold feeds. intros H1 H2. rewrite H2, H1. cbn. now rewrite app_assoc.
Qed.

Lemma hash_parts_in_bounds ps : forall s,
  Forall (fun p => 0 <= bpak_part_size p) ps ->
  0 <= s_pos (hs_io s) ->
  s_pos (hs_io s) + payload_span ps <= stream_end (hs_io s) ->
  length (hs_buffer s) = Z.to_nat HASH_BUFFER_SIZE ->
  exists s' fed,
    hash_parts ps s = Some s' /\ feeds s s' fed /\
    concat fed =
      spec_payload_message (s_data (hs_io s)) (s_pos (hs_io s)) ps /\
    Forall (fun c => (length c <= 512)%nat) fed /\
    Z.of_nat (length (concat fed)) = hashed_span ps.
Proof.
  induction ps as [|p ps IH]; intros s Hnn Hpos Hend Hbuf.
  { exists s, []. cbn. repeat split; [|constructor].
    unfold feeds. rewrite app_nil_r. now destruct s as [? ? []]. }
  inversion Hnn as [|? ? Hp Hps]; subst.
  pose proof (payload_span_nonneg ps Hps) as Hspan.
  cbn [hash_parts spec_payload_message payload_span hashed_span foldr] in *.
  fold (payload_span ps) in *. fold (hashed_span ps).
  unfold part_live in *.
  destruct (p_id p =? 0) eqn:Hid; cbn [negb andb] in *.
  { apply IH; assumption. }
  fold (part_excluded p).
  destruct (part_excluded p) eqn:Hex; cbn [negb andb].
  - unfold bpak_io_seek.
    destruct (s_pos (hs_io s) + bpak_part_size p <? 0) eqn:Hlt;
      [apply Z.ltb_lt in Hlt; lia|].
    cbn [snd].
    edestruct (IH (mk_hash_state
                     (mk_stream (s_data (hs_io s))
                        (s_pos (hs_io s) + bpak_part_size p))
                     (hs_buffer s) (hs_ctx s)))
      as (s' & fed & Hrun & Hfed & Hcat & Hall & Hlen);
      cbn [hs_io hs_buffer hs_ctx s_data s_pos]; try eassumption; try lia.
    { unfold stream_end in *. cbn. lia. }
    exists s', fed. repeat split; assumption.
  - destruct (hash_chunks_in_bounds (hash_chunks_fuel (bpak_part_size p))
                (bpak_part_size p) s)
      as (s1 & fed1 & Hrun1 & Hio1 & Hb1 & Hfed1 & Hcat1 & Hall1);
      try assumption; try lia.
    { unfold hash_chunks_fuel. lia. }
    rewrite Hrun1.
    edestruct (IH s1) as (s' & fed & Hrun & Hfed & Hcat & Hall & Hlen);
      try eassumption; rewrite ?Hio1; cbn [s_pos s_data]; try lia.
    { unfold stream_end in *. cbn. lia. }
    exists s', (fed1 ++ fed). split; [exact Hrun|].
    split; [eapply feeds_trans; eassumption|].
    rewrite concat_app, Hcat1.
    rewrite Hio1 in Hcat. cbn [s_pos s_data] in Hcat.
    split; [now rewrite Hcat|].
    split; [apply Forall_app; auto|].
    rewrite length_app, Nat2Z.inj_add, Hlen, length_take, length_drop.
    unfold stream_end in Hend. lia.
Qed.

Lemma hash_begin_fresh kind size ctx size' :
  hash_begin kind size = inr (ctx, size') -> md_fed ctx = [].
Proof.
  unfold hash_begin.
  repeat match goal with |- context [if ?c then _ else _] => destruct c end;
    intros [= <- _]; reflexivity.
Qed.

Lemma hash_parts_ignores_pad_bytes (f : bpak_part_header -> Z) ps : forall s,
  hash_parts (map (fun p => set_pad_bytes (f p) p) ps) s = hash_parts ps s.
Proof.
  induction ps as [|p ps IH]; intros s; [reflexivity|].
  cbn [map hash_parts].
  change (p_id (set_pad_bytes (f p) p)) with (p_id p).
  change (p_flags (set_pad_bytes (f p) p)) with (p_flags p).
  change (bpak_part_size (set_pad_bytes (f p) p)) with (bpak_part_size p).
  destruct (p_id p =? 0); [apply IH|].
  destruct (negb _); [apply IH|].
  destruct (hash_chunks _ _ _); [apply IH|reflexivity].
Qed.

(** Without excluded parts the walk reads one contiguous range. *)
Lemma spec_payload_message_contiguous data ps : forall cursor,
  0 <= cursor ->
  Forall (fun p => 0 <= bpak_part_size p) ps ->
  Forall (fun p => part_live p = true -> part_excluded p = false) ps ->
  spec_payload_message data cursor ps
  = take (Z.to_nat (payload_span ps)) (drop (Z.to_nat cursor) data).
Proof.
  induction ps as [|p ps IH]; intros cursor Hc Hnn Hex; [reflexivity|].
  inversion Hnn as [|? ? Hp Hps]; subst.
  inversion Hex as [|? ? Hpe Hpse]; subst.
  pose proof (payload_span_nonneg ps Hps) as Hspan.
  cbn [spec_payload_message payload_span foldr]. fold (payload_span ps).
  destruct (part_live p) eqn:Hlive; cbn [negb].
  - rewrite (Hpe eq_refl). rewrite IH by (try assumption; lia).
    replace (Z.to_nat (cursor + bpak_part_size p))
      with (Z.to_nat cursor + Z.to_nat (bpak_part_size p))%nat by lia.
    rewrite <- drop_drop, take_take_drop. f_equal. lia.
  - now apply IH.
Qed.

(** C4 (amended): when the digest is set up and the stream holds the bytes
    the live parts span, bpak_pkg_compute_payload_hash returns OK and the
    digest has been fed, with a cursor that starts at offset 4096 (header
    first) or 0 (header last) and walks the table in order: the
    [bpak_part_size] bytes AT THE CURSOR for every live part without
    EXCLUDE_FROM_HASH, the cursor moving by [bpak_part_size] for every live
    part, excluded or not.  The chunks are at most 4096 bytes each and
    their total length is the sum of [bpak_part_size] over the hashed
    parts.  The [pad_bytes] (and [offset]) members are never read, so the
    padding that follows a part on the stream is not skipped: when no live
    part is excluded, the message is the one contiguous range of the stream
    behind the start, as long as the sizes add up to, and whatever padding
    lies in that range has been fed. *)
Theorem payload_hash_feeds_part_bytes pkg output size ctx size' :
  hash_begin (hash_kind (header pkg)) size = inr (ctx, size') ->
  Forall (fun p => 0 <= bpak_part_size p) (parts (header pkg)) ->
  payload_start (header_location pkg) + payload_span (parts (header pkg))
    <= stream_end (io pkg) ->
  exists s,
    hash_parts (parts (header pkg)) (hash_start pkg ctx) = Some s /\
    bpak_pkg_compute_payload_hash pkg output size =
      Some (mk_hash_result BPAK_OK (set_io (hs_io s) pkg)
              (md_finish (hs_ctx s) output) size') /\
    md_message (hs_ctx s) =
      spec_payload_message (s_data (io pkg))
        (payload_start (header_location pkg)) (parts (header pkg)) /\
    Forall (fun c => (length c <= 4096)%nat) (md_fed (hs_ctx s)) /\
    Z.of_nat (length (md_message (hs_ctx s)))
      = hashed_span (parts (header pkg)) /\
    (forall f : bpak_part_header -> Z,
        hash_parts (map (fun p => set_pad_bytes (f p) p) (parts (header pkg)))
          (hash_start pkg ctx) = Some s) /\
    (Forall (fun p => part_live p = true -> part_excluded p = false)
       (parts (header pkg)) ->
     md_message (hs_ctx s)
     = take (Z.to_nat (payload_span (parts (header pkg))))
         (drop (Z.to_nat (payload_start (header_location pkg)))
            (s_data (io pkg)))) /\
    payload_start BPAK_HEADER_POS_FIRST = 4096 /\
    payload_start BPAK_HEADER_POS_LAST = 0.
Proof.
  intros Hb Hnn Hend.
  assert (Hstart : 0 <= payload_start (header_location pkg))
    by (unfold payload_start, BPAK_HEADER_SIZE;
        destruct (header_location pkg); lia).
  assert (Hio : hs_io (hash_start pkg ctx)
                = mk_stream (s_data (io pkg))
                    (payload_start (header_location pkg))).
  { unfold hash_start, bpak_io_seek. cbn [hs_io].
    destruct (_ <? 0) eqn:Hlt; [apply Z.ltb_lt in Hlt; lia|reflexivity]. }
  destruct (hash_parts_in_bounds (parts (header pkg)) (hash_start pkg ctx))
    as (s & fed & Hrun & Hfed & Hcat & Hall & Hlen);
    rewrite ?Hio; cbn [s_pos s_data]; try assumption.
  { unfold hash_start. cbn [hs_buffer]. apply length_resize. }
  rewrite Hio in Hcat. cbn [s_pos s_data] in Hcat.
  assert (Hmsg : md_fed (hs_ctx s) = fed).
  { rewrite Hfed. unfold hash_start. cbn.
    now rewrite (hash_begin_fresh _ _ _ _ Hb). }
  exists s. split; [exact Hrun|].
  split.
  { unfold bpak_pkg_compute_payload_hash. now rewrite Hb, Hrun. }
  unfold md_message. rewrite Hmsg.
  split; [exact Hcat|].
  split; [eapply Forall_impl; [exact Hall|]; cbn; intros; lia|].
  split; [exact Hlen|].
  split; [intros f; now rewrite hash_parts_ignores_pad_bytes|].
  split.
  { intros Hex. rewrite Hcat.
    now apply spec_payload_message_contiguous. }
  split; reflexivity.
Qed.

(** ** Short reads in the payload hash *)

Lemma hash_chunks_at_eof fuel n s :
  0 <= n <= HASH_BUFFER_SIZE ->
  stream_end (hs_io s) <= s_pos (hs_io s) ->
  hash_chunks (S fuel) n s =
    Some (mk_hash_state (hs_io s) (hs_buffer s)
            (md_update (hs_ctx s) (take (Z.to_nat n) (hs_buffer s)))).
Proof.
  unfold HASH_BUFFER_SIZE, stream_end.
  destruct s as [[data pos] buf ctx]. cbn [hs_io hs_buffer hs_ctx s_data s_pos].
  intros Hn Hend. cbn [hash_chunks].
  unfold HASH_BUFFER_SIZE, bpak_io_read, stream_read.
  cbn [hs_io hs_buffer hs_ctx s_data s_pos].
  destruct (n >? 512) eqn:Hgt; [apply Z.gtb_lt in Hgt; lia|].
  rewrite (drop_ge data) by lia. rewrite take_nil.
  rewrite Z.sub_diag. cbn [Z.eqb length memcpy Z.of_nat].
  unfold memcpy. cbn [length app drop]. rewrite Z.add_0_r. reflexivity.
Qed.

(** C9: bpak_pkg_compute_payload_hash always returns, and never with
    READ_ERROR: once the digest is set up (hash kind recognised, buffer
    large enough) the result is OK whatever the stream delivers.  A read that
    delivers nothing leaves the chunk buffer as it was, and the digest is fed
    the requested number of bytes from that buffer. *)
Theorem payload_hash_never_reports_read_failure pkg output size :
  (exists r,
      bpak_pkg_compute_payload_hash pkg output size = Some r /\
      hr_rc r <> BPAK_READ_ERROR /\
      (forall ctx size',
          hash_begin (hash_kind (header pkg)) size = inr (ctx, size') ->
          hr_rc r = BPAK_OK)) /\
  (forall fuel n s,
      0 <= n <= HASH_BUFFER_SIZE ->
      stream_end (hs_io s) <= s_pos (hs_io s) ->
      hash_chunks (S fuel) n s =
        Some (mk_hash_state (hs_io s) (hs_buffer s)
                (md_update (hs_ctx s) (take (Z.to_nat n) (hs_buffer s))))).
Proof.
  split; [|intros; now apply hash_chunks_at_eof].
  destruct (hash_begin (hash_kind (header pkg)) size)
    as [rc|[ctx size']] eqn:Hb.
  - rewrite (compute_payload_hash_err _ _ _ _ Hb). eexists.
    split; [reflexivity|]. cbn. split; [|discriminate].
    destruct (hash_begin_error_cases _ _ _ Hb) as [-> | ->]; discriminate.
  - destruct (compute_payload_hash_ok pkg output size ctx size' Hb)
      as (s & _ & ->).
    eexists. split; [reflexivity|]. cbn. split; [discriminate|reflexivity].
Qed.

(** ** Writing the header back *)

Lemma stream_write_inside data pos bytes :
  0 <= pos -> pos + Z.of_nat (length bytes) <= Z.of_nat (length data) ->
  stream_write (mk_stream data pos) bytes =
    (Z.of_nat (length bytes),
     mk_stream (take (Z.to_nat pos) data ++ bytes
                ++ drop (Z.to_nat pos + length bytes) data)
       (pos + Z.of_nat (length bytes))).
Proof.
  intros Hpos Hend. destruct bytes as [|b bytes].
  - cbn. rewrite Nat.add_0_r, take_drop, Z.add_0_r. reflexivity.
  - unfold stream_write, stream_put. cbn [s_data s_pos].
    replace (Z.to_nat pos - length data)%nat with 0%nat by lia.
    unfold zeros. cbn [replicate]. now rewrite app_nil_r.
Qed.

Lemma stream_write_put s bytes :
  (0 < length bytes)%nat -> stream_write s bytes = stream_put s bytes.
Proof. destruct bytes; cbn [length]; [lia|reflexivity]. Qed.

Lemma stream_write_count s bytes :
  fst (stream_write s bytes) = Z.of_nat (length bytes).
Proof. destruct bytes; reflexivity. Qed.

Lemma header_image_size h :
  Z.of_nat (length (header_image h)) = BPAK_HEADER_SIZE.
Proof. rewrite header_image_length. unfold BPAK_HEADER_SIZE. lia. Qed.

Lemma header_image_nonempty h : (0 < length (header_image h))%nat.
Proof. rewrite header_image_length. unfold BPAK_HEADER_SIZE. lia. Qed.

Lemma write_header_first pkg :
  header_location pkg = BPAK_HEADER_POS_FIRST ->
  bpak_pkg_write_header pkg =
    (BPAK_OK,
     set_io (mk_stream (header_image (header pkg)
                        ++ drop (Z.to_nat BPAK_HEADER_SIZE) (s_data (io pkg)))
               BPAK_HEADER_SIZE) pkg).
Proof.
  intros Hloc. unfold bpak_pkg_write_header, bpak_io_write.
  rewrite Hloc. cbn [bpak_io_seek Z.ltb Z.compare negb is_ok bpak_errors_eqb].
  rewrite stream_write_put by apply header_image_nonempty.
  unfold stream_put. cbn [s_data s_pos].
  rewrite header_image_size, Z.eqb_refl. cbn [negb].
  rewrite header_image_length. reflexivity.
Qed.

Lemma write_header_fp_first pkg :
  header_location pkg = BPAK_HEADER_POS_FIRST ->
  bpak_pkg_write_header_fp pkg =
    (BPAK_OK,
     set_io (mk_stream (header_image (header pkg)
                        ++ drop (Z.to_nat BPAK_HEADER_SIZE) (s_data (io pkg)))
               BPAK_HEADER_SIZE) pkg).
Proof.
  intros Hloc. unfold bpak_pkg_write_header_fp, fwrite.
  rewrite Hloc. cbn [fseek Z.ltb Z.compare negb Z.eqb].
  rewrite stream_write_put by apply header_image_nonempty.
  unfold stream_put. cbn [s_data s_pos].
  rewrite header_image_size, Z.eqb_refl. cbn [negb].
  rewrite header_image_length. reflexivity.
Qed.

(** On bpak_io the tail header is written over the last 4096 bytes. *)
Lemma write_header_last pkg :
  header_location pkg = BPAK_HEADER_POS_LAST ->
  BPAK_HEADER_SIZE <= stream_end (io pkg) ->
  bpak_pkg_write_header pkg =
    (BPAK_OK,
     set_io (mk_stream
               (take (Z.to_nat (stream_end (io pkg) - BPAK_HEADER_SIZE))
                  (s_data (io pkg))
                ++ header_image (header pkg))
               (stream_end (io pkg))) pkg).
Proof.
  unfold BPAK_HEADER_SIZE, stream_end. intros Hloc Hlen.
  unfold bpak_pkg_write_header, bpak_io_write. rewrite Hloc.
  unfold bpak_io_seek, stream_end.
  destruct (_ <? 0) eqn:Hlt; [apply Z.ltb_lt in Hlt; lia|].
  cbn [is_ok bpak_errors_eqb negb].
  pose proof (header_image_size (header pkg)) as Hsz.
  unfold BPAK_HEADER_SIZE in Hsz.
  rewrite stream_write_inside by (cbn [s_data]; lia).
  rewrite Hsz. cbn [Z.eqb Pos.eqb negb s_data].
  rewrite (drop_ge (s_data (io pkg))) by lia.
  rewrite app_nil_r. do 3 f_equal. lia.
Qed.

(** On FILE streams [fseek(fp, sizeof(header), SEEK_END)] puts the cursor
    4096 bytes past the end: the image is appended after a gap. *)
Lemma write_header_fp_last pkg :
  header_location pkg = BPAK_HEADER_POS_LAST ->
  bpak_pkg_write_header_fp pkg =
    (BPAK_OK,
     set_io (mk_stream
               (s_data (io pkg) ++ zeros (Z.to_nat BPAK_HEADER_SIZE)
                ++ header_image (header pkg))
               (stream_end (io pkg) + 2 * BPAK_HEADER_SIZE)) pkg).
Proof.
  unfold BPAK_HEADER_SIZE, stream_end. intros Hloc.
  unfold bpak_pkg_write_header_fp, fwrite. rewrite Hloc.
  unfold fseek, stream_end, BPAK_HEADER_SIZE.
  destruct (_ <? 0) eqn:Hlt; [apply Z.ltb_lt in Hlt; lia|].
  cbn [Z.eqb negb].
  rewrite stream_write_put by apply header_image_nonempty.
  unfold stream_put. cbn [s_data s_pos].
  pose proof (header_image_size (header pkg)) as Hsz.
  unfold BPAK_HEADER_SIZE in Hsz. rewrite Hsz. cbn [Z.eqb Pos.eqb negb].
  rewrite take_ge by lia. rewrite (drop_ge (s_data (io pkg))) by lia.
  rewrite app_nil_r, <- app_assoc.
  replace (Z.to_nat (Z.of_nat (length (s_data (io pkg))) + 4096)
           - length (s_data (io pkg)))%nat with (Z.to_nat 4096) by lia.
  do 3 f_equal. lia.
Qed.

(** ** Opening a package *)

Lemma bpak_io_seek_set_0 s :
  bpak_io_seek s 0 BPAK_IO_SEEK_SET = (BPAK_OK, mk_stream (s_data s) 0).
Proof. reflexivity. Qed.

Lemma fseek_set_0 s : fseek s 0 SEEK_SET = (0, mk_stream (s_data s) 0).
Proof. reflexivity. Qed.

Lemma is_ok_true rc : is_ok rc = true -> rc = BPAK_OK.
Proof. destruct rc; cbn; congruence. Qed.

Lemma is_ok_false rc : rc <> BPAK_OK -> is_ok rc = false.
Proof. destruct rc; cbn; congruence. Qed.

Lemma memcpy_zero_image img :
  length img = Z.to_nat BPAK_HEADER_SIZE -> memcpy zero_image img = img.
Proof.
  intros H. apply memcpy_full. unfold zero_image. rewrite length_zeros. lia.
Qed.

Lemma memcpy_nil (dst : list byte) : memcpy dst [] = dst.
Proof. reflexivity. Qed.

Lemma memcpy_zero_image_short (data : list byte) :
  (length data <= Z.to_nat BPAK_HEADER_SIZE)%nat ->
  memcpy zero_image data
    = data ++ zeros (Z.to_nat BPAK_HEADER_SIZE - length data).
Proof.
  intros _. unfold memcpy, zero_image, zeros. now rewrite drop_replicate.
Qed.

Lemma full_header_read_iff got :
  full_header_read got = true <-> length got = Z.to_nat BPAK_HEADER_SIZE.
Proof.
  unfold full_header_read, BPAK_HEADER_SIZE. rewrite Z.eqb_eq. lia.
Qed.

(** The FILE variant, for every file and mode: the second candidate is
    looked for 4096 bytes past the end, where there is nothing to read. *)
Lemma open_fp_result fs filename m f :
  fopen fs filename m = Some f ->
  bpak_pkg_open_fp fs filename (Some m) =
    (BPAK_OK,
     Some (mk_package (mk_stream (s_data (fp_stream f)) 0)
             (image_header
                (memcpy zero_image
                   (if fp_reads f
                    then take (Z.to_nat BPAK_HEADER_SIZE)
                           (s_data (fp_stream f))
                    else [])))
             BPAK_HEADER_POS_FIRST)).
Proof.
  intros Hopen. unfold bpak_pkg_open_fp. rewrite Hopen. cbv zeta.
  rewrite fseek_set_0. cbn [Z.eqb negb].
  destruct (fp_reads f); unfold fread_as.
  - unfold fread at 1, stream_read.
    cbn [s_data s_pos]. change (Z.to_nat 0) with 0%nat. rewrite drop_0.
    set (got := take (Z.to_nat BPAK_HEADER_SIZE) (s_data (fp_stream f))).
    destruct (negb (full_header_read got)) eqn:Hfull.
    { rewrite fseek_set_0. reflexivity. }
    destruct (is_ok (bpak_valid_header _)).
    { rewrite fseek_set_0. reflexivity. }
    unfold fseek at 1, stream_end. cbn [s_data s_pos].
    destruct (_ <? 0) eqn:Hlt; [apply Z.ltb_lt in Hlt; lia|].
    cbn [Z.eqb negb]. unfold fread, stream_read. cbn [s_data s_pos].
    rewrite (drop_ge (s_data (fp_stream f))) by lia. rewrite take_nil.
    change (full_header_read []) with false. cbn [negb].
    rewrite fseek_set_0, memcpy_nil. reflexivity.
  - change (full_header_read []) with false. cbn [negb].
    rewrite fseek_set_0. reflexivity.
Qed.

(** The bpak_io variant on a readable file that holds a whole front
    candidate. *)
Lemma open_io_result fs filename m f :
  fopen fs filename m = Some f -> fp_reads f = true ->
  BPAK_HEADER_SIZE <= Z.of_nat (length (s_data (fp_stream f))) ->
  let data := s_data (fp_stream f) in
  let front := take (Z.to_nat BPAK_HEADER_SIZE) data in
  let tail := drop (length data - Z.to_nat BPAK_HEADER_SIZE) data in
  bpak_pkg_open fs filename (Some m) =
    (BPAK_OK,
     Some (if is_ok (bpak_valid_header (image_header front)) then
             mk_package (mk_stream data 0) (image_header front)
               BPAK_HEADER_POS_FIRST
           else
             mk_package (mk_stream data 0) (image_header tail)
               (if is_ok (bpak_valid_header (image_header tail))
                then BPAK_HEADER_POS_LAST else BPAK_HEADER_POS_FIRST))).
Proof.
  intros Hopen Hreads Hlen data front tail. subst data.
  unfold BPAK_HEADER_SIZE in Hlen, front, tail.
  unfold bpak_pkg_open, bpak_io_init_file. rewrite Hopen. cbv zeta.
  rewrite Hreads. unfold bpak_io_read_as.
  rewrite bpak_io_seek_set_0. cbn [is_ok bpak_errors_eqb negb].
  unfold bpak_io_read at 1, stream_read, BPAK_HEADER_SIZE.
  cbn [s_data s_pos]. change (Z.to_nat 0) with 0%nat. rewrite drop_0.
  fold front.
  assert (Hfl : length front = Z.to_nat 4096)
    by (subst front; rewrite length_take; lia).
  assert (Hfull : full_header_read front = true)
    by (apply full_header_read_iff; exact Hfl).
  rewrite Hfull. cbn [negb].
  rewrite memcpy_zero_image by exact Hfl.
  destruct (is_ok (bpak_valid_header (image_header front))).
  { rewrite bpak_io_seek_set_0. reflexivity. }
  unfold bpak_io_seek at 1, stream_end. cbn [s_data s_pos].
  destruct (_ <? 0) eqn:Hlt; [apply Z.ltb_lt in Hlt; lia|].
  cbn [is_ok bpak_errors_eqb negb].
  unfold bpak_io_read, stream_read. cbn [s_data s_pos].
  replace (Z.to_nat (Z.of_nat (length (s_data (fp_stream f))) - 4096))
    with (length (s_data (fp_stream f)) - Z.to_nat 4096)%nat by lia.
  fold tail.
  assert (Htl : length tail = Z.to_nat 4096)
    by (subst tail; rewrite length_drop; lia).
  rewrite (take_ge tail) by (unfold BPAK_HEADER_SIZE; lia).
  rewrite (memcpy_full front tail) by lia.
  assert (Hfull2 : full_header_read tail = true)
    by (apply full_header_read_iff; exact Htl).
  rewrite Hfull2. cbn [negb].
  destruct (is_ok (bpak_valid_header (image_header tail))); cbn [negb];
    rewrite bpak_io_seek_set_0; reflexivity.
Qed.

(** The bpak_io variant when the first read comes back short: the file is
    shorter than a header, or its mode does not allow reading. *)
Lemma open_io_short fs filename m f :
  fopen fs filename m = Some f ->
  fp_reads f = false
  \/ Z.of_nat (length (s_data (fp_stream f))) < BPAK_HEADER_SIZE ->
  bpak_pkg_open fs filename (Some m) =
    (BPAK_OK,
     Some (mk_package (mk_stream (s_data (fp_stream f)) 0)
             (image_header
                (memcpy zero_image
                   (if fp_reads f
                    then take (Z.to_nat BPAK_HEADER_SIZE)
                           (s_data (fp_stream f))
                    else [])))
             BPAK_HEADER_POS_FIRST)).
Proof.
  intros Hopen Hshort. unfold BPAK_HEADER_SIZE in Hshort.
  unfold bpak_pkg_open, bpak_io_init_file. rewrite Hopen. cbv zeta.
  rewrite bpak_io_seek_set_0. cbn [is_ok bpak_errors_eqb negb].
  unfold bpak_io_read_as.
  destruct (fp_reads f).
  - destruct Hshort as [|Hlen]; [discriminate|].
    unfold bpak_io_read at 1, stream_read, BPAK_HEADER_SIZE.
    cbn [s_data s_pos]. change (Z.to_nat 0) with 0%nat. rewrite drop_0.
    assert (Hfull : full_header_read
                      (take (Z.to_nat 4096) (s_data (fp_stream f))) = false).
    { unfold full_header_read, BPAK_HEADER_SIZE. apply Z.eqb_neq.
      rewrite length_take. lia. }
    rewrite Hfull. cbn [negb]. rewrite bpak_io_seek_set_0. reflexivity.
  - change (full_header_read []) with false. cbn [negb].
    rewrite bpak_io_seek_set_0. reflexivity.
Qed.

(** C2 (amended): bpak_pkg_open fails only for a NULL mode (FAILED) and for
    a file that cannot be opened (NOT_FOUND).  For every file that can be
    opened, in whatever mode, it returns BPAK_OK, on bpak_io and on FILE
    streams alike, with the cursor at 0: every failed read or validation
    jumps to skip_header, which seeks to 0 and returns OK.  [pkg->header]
    holds the last image read, valid or not: the first 4096 bytes (over the
    zeros of the memset when the read came back short), or, on bpak_io, the
    last 4096 bytes when the first were read in full and did not validate.
    The package says LAST only if that tail candidate validated, otherwise
    FIRST; on FILE streams it always says FIRST. *)
Theorem open_succeeds_whatever_the_header fs filename m :
  bpak_pkg_open fs filename None = (BPAK_FAILED, None) /\
  bpak_pkg_open_fp fs filename None = (BPAK_FAILED, None) /\
  (fopen fs filename m = None ->
   bpak_pkg_open fs filename (Some m) = (BPAK_NOT_FOUND, None) /\
   bpak_pkg_open_fp fs filename (Some m) = (BPAK_NOT_FOUND, None)) /\
  (forall f,
      fopen fs filename m = Some f ->
      let data := s_data (fp_stream f) in
      let got :=
        if fp_reads f then take (Z.to_nat BPAK_HEADER_SIZE) data else [] in
      let front := memcpy zero_image got in
      let tail := drop (length data - Z.to_nat BPAK_HEADER_SIZE) data in
      let tail_read :=
        full_header_read got
        && negb (is_ok (bpak_valid_header (image_header front))) in
      let tail_ok := is_ok (bpak_valid_header (image_header tail)) in
      bpak_pkg_open fs filename (Some m) =
        (BPAK_OK,
         Some (mk_package (mk_stream data 0)
                 (image_header (if tail_read then tail else front))
                 (if tail_read && tail_ok then BPAK_HEADER_POS_LAST
                  else BPAK_HEADER_POS_FIRST))) /\
      bpak_pkg_open_fp fs filename (Some m) =
        (BPAK_OK,
         Some (mk_package (mk_stream data 0) (image_header front)
                 BPAK_HEADER_POS_FIRST)) /\
      (forall rc pkg,
          bpak_pkg_open fs filename (Some m) = (rc, Some pkg)
          \/ bpak_pkg_open_fp fs filename (Some m) = (rc, Some pkg) ->
          rc = BPAK_OK /\ s_pos (io pkg) = 0 /\
          (header_location pkg = BPAK_HEADER_POS_LAST ->
           bpak_valid_header (header pkg) = BPAK_OK))).
Proof.
  split; [reflexivity|]. split; [reflexivity|]. split.
  { intros Hnone. unfold bpak_pkg_open, bpak_pkg_open_fp, bpak_io_init_file.
    rewrite Hnone. split; reflexivity. }
  intros f Hopen data got front tail tail_read tail_ok.
  assert (Hgot : got = if fp_reads f
                       then take (Z.to_nat BPAK_HEADER_SIZE) data else [])
    by reflexivity.
  clearbody got.
  assert (Hfp : bpak_pkg_open_fp fs filename (Some m) =
                (BPAK_OK,
                 Some (mk_package (mk_stream data 0) (image_header front)
                         BPAK_HEADER_POS_FIRST))).
  { rewrite (open_fp_result fs filename m f Hopen). fold data.
    now rewrite <- Hgot. }
  assert (Hio : bpak_pkg_open fs filename (Some m) =
                (BPAK_OK,
                 Some (mk_package (mk_stream data 0)
                         (image_header (if tail_read then tail else front))
                         (if tail_read && tail_ok then BPAK_HEADER_POS_LAST
                          else BPAK_HEADER_POS_FIRST)))).
  { subst tail_read. destruct (full_header_read got) eqn:Hfull.
    - assert (Hlen : length got = Z.to_nat BPAK_HEADER_SIZE)
        by now apply full_header_read_iff.
      assert (Hreads : fp_reads f = true).
      { destruct (fp_reads f); [reflexivity|]. subst got.
        unfold BPAK_HEADER_SIZE in Hlen. cbn in Hlen. lia. }
      rewrite Hreads in Hgot.
      assert (Hdata : BPAK_HEADER_SIZE <= Z.of_nat (length data)).
      { rewrite Hgot, length_take in Hlen. unfold BPAK_HEADER_SIZE in *.
        lia. }
      rewrite (open_io_result fs filename m f Hopen Hreads Hdata). cbv zeta.
      fold data. fold tail. fold tail_ok. rewrite <- Hgot.
      subst front. rewrite memcpy_zero_image by exact Hlen.
      destruct (is_ok (bpak_valid_header (image_header got)));
        cbn [negb andb]; [reflexivity|].
      destruct tail_ok; reflexivity.
    - rewrite (open_io_short fs filename m f Hopen).
      + fold data. rewrite <- Hgot. reflexivity.
      + destruct (fp_reads f); [right|left; reflexivity].
        apply Z.eqb_neq in Hfull. rewrite Hgot, length_take in Hfull.
        unfold BPAK_HEADER_SIZE in *. fold data. lia. }
  split; [exact Hio|]. split; [exact Hfp|].
  intros rc pkg [Hrun|Hrun].
  - rewrite Hio in Hrun. injection Hrun as <- <-. cbn [io s_pos header
      header_location].
    split; [reflexivity|]. split; [reflexivity|].
    destruct tail_read; cbn [andb]; [|discriminate].
    destruct tail_ok eqn:Hok; [|discriminate].
    intros _. now apply is_ok_true.
  - rewrite Hfp in Hrun. injection Hrun as <- <-. cbn [io s_pos header
      header_location].
    split; [reflexivity|]. split; [reflexivity|]. discriminate.
Qed.


(** The locator on bpak_io: when the first 4096 bytes do not validate, the
    candidate is read from [end - 4096]. *)
Lemma open_reads_tail_candidate fs filename st data :
  fs filename = Some (mk_file st data) ->
  BPAK_HEADER_SIZE <= Z.of_nat (length data) ->
  bpak_valid_header (image_header (take (Z.to_nat BPAK_HEADER_SIZE) data))
    <> BPAK_OK ->
  let tail := drop (length data - Z.to_nat BPAK_HEADER_SIZE) data in
  bpak_valid_header (image_header tail) = BPAK_OK ->
  bpak_pkg_open fs filename (Some "r"%string) =
    (BPAK_OK,
     Some (mk_package (mk_stream data 0) (image_header tail)
             BPAK_HEADER_POS_LAST)).
Proof.
  intros Hfs Hlen Hfront tail Htail.
  assert (Hopen : fopen fs filename "r"
                  = Some (mk_FILE (mk_stream data 0) true false)).
  { unfold fopen. rewrite Hfs. reflexivity. }
  rewrite (open_io_result fs filename "r" _ Hopen eq_refl Hlen). cbv zeta.
  cbn [fp_stream s_data]. fold tail.
  rewrite (is_ok_false _ Hfront), Htail. reflexivity.
Qed.

(** C3: for a package whose header is at the tail of a stream of at least
    4096 bytes, bpak_pkg_write_header (on bpak_io) rewrites exactly the last
    4096 bytes, [end - 4096 .. end), with the header image; on the resulting
    file bpak_pkg_open, after the first 4096 bytes fail validation, reads its
    candidate from [end - 4096], accepts it and reports the same header at
    the tail. *)
Theorem tail_header_write_back_is_located pkg fs filename st :
  header_location pkg = BPAK_HEADER_POS_LAST ->
  BPAK_HEADER_SIZE <= stream_end (io pkg) ->
  let data' :=
    take (Z.to_nat (stream_end (io pkg) - BPAK_HEADER_SIZE)) (s_data (io pkg))
    ++ header_image (header pkg) in
  bpak_valid_header (header pkg) = BPAK_OK ->
  image_header (header_image (header pkg)) = header pkg ->
  bpak_valid_header (image_header (take (Z.to_nat BPAK_HEADER_SIZE) data'))
    <> BPAK_OK ->
  fs filename = Some (mk_file st data') ->
  bpak_pkg_write_header pkg =
    (BPAK_OK, set_io (mk_stream data' (stream_end (io pkg))) pkg) /\
  length data' = length (s_data (io pkg)) /\
  drop (length data' - Z.to_nat BPAK_HEADER_SIZE) data'
    = header_image (header pkg) /\
  bpak_pkg_open fs filename (Some "r"%string) =
    (BPAK_OK,
     Some (mk_package (mk_stream data' 0) (header pkg) BPAK_HEADER_POS_LAST)).
Proof.
  intros Hloc Hlen data' Hvalid Hround Hfront Hfs.
  pose proof (header_image_length (header pkg)) as Himg.
  unfold BPAK_HEADER_SIZE, stream_end in *.
  assert (Hlen' : length data' = length (s_data (io pkg))).
  { subst data'. rewrite length_app, length_take, Himg. lia. }
  assert (Htail : drop (length data' - Z.to_nat 4096) data'
                  = header_image (header pkg)).
  { subst data'. rewrite drop_app_length'; [reflexivity|].
    rewrite length_app, length_take, Himg. lia. }
  split; [now apply write_header_last|].
  split; [exact Hlen'|]. split; [exact Htail|].
  pose proof (open_reads_tail_candidate fs filename st data' Hfs) as Hopen.
  unfold BPAK_HEADER_SIZE in Hopen. cbv zeta in Hopen.
  rewrite Htail, Hround in Hopen.
  apply Hopen; [lia|exact Hfront|exact Hvalid].
Qed.

(** ** Storing a signature *)

Lemma store_signature_spec sig h :
  (length sig <= BPAK_SIGNATURE_MAX_BYTES)%nat ->
  store_signature sig h = spec_write_signature sig h.
Proof.
  unfold BPAK_SIGNATURE_MAX_BYTES. intros Hlen.
  unfold store_signature, BPAK_SIGNATURE_MAX_BYTES.
  rewrite (proj2 (Nat.leb_le (length sig) 512) Hlen).
  unfold spec_write_signature, set_signature_sz,
    set_signature, memcpy, BPAK_SIGNATURE_MAX_BYTES.
  cbn [signature magic version hash_kind signature_kind payload_hash
         signature_sz keystore_id key_id alignment meta metadata parts].
  unfold zeros. rewrite drop_replicate.
  rewrite Z.mod_small by lia. reflexivity.
Qed.

Lemma write_header_keeps_header pkg :
  header (snd (bpak_pkg_write_header pkg)) = header pkg.
Proof.
  unfold bpak_pkg_write_header.
  destruct (header_location pkg);
    (destruct (bpak_io_seek _ _ _) as [rc io1];
     destruct (negb (is_ok rc)); [reflexivity|];
     destruct (bpak_io_write _ _) as [n io2];
     destruct (negb _); reflexivity).
Qed.

Lemma write_header_fp_keeps_header pkg :
  header (snd (bpak_pkg_write_header_fp pkg)) = header pkg.
Proof.
  unfold bpak_pkg_write_header_fp.
  destruct (header_location pkg);
    (destruct (fseek _ _ _) as [r fp1];
     destruct (negb (r =? 0)); [reflexivity|];
     destruct (fwrite _ _) as [n fp2];
     destruct (negb _); reflexivity).
Qed.

(** C6: for a signature of [len <= 512] bytes, bpak_pkg_sign (and
    bpak_pkg_write_raw_signature) leave a header whose signature slot starts
    with the given bytes and continues with [512 - len] zero bytes, whose
    [signature_sz] is [len], and whose other members are untouched; with
    that header they call bpak_pkg_write_header.  With the header in front
    the 4096-byte image lands at offset 0 and the call returns OK; with the
    header at the tail of a bpak_io stream it lands on the last 4096
    bytes. *)
Theorem sign_stores_signature_then_writes_header pkg sig :
  (length sig <= BPAK_SIGNATURE_MAX_BYTES)%nat ->
  let h := header pkg in
  let h' := spec_write_signature sig h in
  (take (length sig) (signature h') = sig /\
   drop (length sig) (signature h')
     = zeros (BPAK_SIGNATURE_MAX_BYTES - length sig) /\
   length (signature h') = BPAK_SIGNATURE_MAX_BYTES /\
   signature_sz h' = Z.of_nat (length sig)) /\
  h' = set_signature_sz (signature_sz h') (set_signature (signature h') h) /\
  bpak_pkg_sign pkg sig = bpak_pkg_write_header (set_header h' pkg) /\
  bpak_pkg_write_raw_signature pkg sig
    = bpak_pkg_write_header_fp (set_header h' pkg) /\
  header (snd (bpak_pkg_sign pkg sig)) = h' /\
  header (snd (bpak_pkg_write_raw_signature pkg sig)) = h' /\
  (header_location pkg = BPAK_HEADER_POS_FIRST ->
   let io' :=
     mk_stream (header_image h'
                ++ drop (Z.to_nat BPAK_HEADER_SIZE) (s_data (io pkg)))
       BPAK_HEADER_SIZE in
   bpak_pkg_sign pkg sig
     = (BPAK_OK, mk_package io' h' BPAK_HEADER_POS_FIRST) /\
   bpak_pkg_write_raw_signature pkg sig
     = (BPAK_OK, mk_package io' h' BPAK_HEADER_POS_FIRST)) /\
  (header_location pkg = BPAK_HEADER_POS_LAST ->
   BPAK_HEADER_SIZE <= stream_end (io pkg) ->
   bpak_pkg_sign pkg sig
     = (BPAK_OK,
        mk_package
          (mk_stream
             (take (Z.to_nat (stream_end (io pkg) - BPAK_HEADER_SIZE))
                (s_data (io pkg)) ++ header_image h')
             (stream_end (io pkg)))
          h' BPAK_HEADER_POS_LAST)).
Proof.
  intros Hlen h h'.
  assert (Hst : store_signature sig h = h') by now apply store_signature_spec.
  unfold bpak_pkg_sign, bpak_pkg_write_raw_signature. fold h. rewrite Hst.
  split.
  { subst h'. cbn [spec_write_signature signature signature_sz].
    rewrite take_app_length, drop_app_length, length_app, length_zeros.
    repeat split. lia. }
  split; [reflexivity|].
  split; [reflexivity|]. split; [reflexivity|].
  split; [apply write_header_keeps_header|].
  split; [apply write_header_fp_keeps_header|].
  split.
  - intros Hloc.
    rewrite write_header_first, write_header_fp_first by exact Hloc.
    unfold set_io, set_header. cbn [io header header_location].
    rewrite Hloc. split; reflexivity.
  - intros Hloc Hend.
    rewrite write_header_last by assumption.
    unfold set_io, set_header. cbn [io header header_location].
    rewrite Hloc. reflexivity.
Qed.

(** ** The copy loop of bpak_pkg_add_file *)

Lemma fread_chunk fp n :
  0 <= s_pos fp -> 0 <= n ->
  fread fp n =
    (take (Z.to_nat n) (drop (Z.to_nat (s_pos fp)) (s_data fp)),
     mk_stream (s_data fp) (s_pos fp + Z.min n (available fp))) /\
  available (mk_stream (s_data fp) (s_pos fp + Z.min n (available fp)))
    = available fp - Z.min n (available fp).
Proof.
  intros Hpos Hn. unfold fread, stream_read, available. cbn [s_data s_pos].
  rewrite length_take, !length_drop. split.
  - do 2 f_equal. lia.
  - lia.
Qed.

(** One turn of the loop: the count goes down by what fread returned. *)
Lemma copy_loop_step fuel bytes_to_write in_fp out_fp :
  bytes_to_write <> 0 ->
  copy_loop (S fuel) bytes_to_write in_fp out_fp =
    copy_loop fuel
      (wrap64 (bytes_to_write
               - Z.of_nat (length (fst (fread in_fp CHUNK_BUFFER_SIZE)))))
      (snd (fread in_fp CHUNK_BUFFER_SIZE))
      (snd (fwrite out_fp (fst (fread in_fp CHUNK_BUFFER_SIZE)))).
Proof.
  intros Hnz. cbn [copy_loop].
  destruct (bytes_to_write =? 0) eqn:Hz; [apply Z.eqb_eq in Hz; lia|].
  destruct (fread in_fp CHUNK_BUFFER_SIZE) as [chunk in_fp'].
  cbn [fst snd]. unfold fwrite.
  pose proof (stream_write_count out_fp chunk) as Hcount.
  destruct (stream_write out_fp chunk) as [written out_fp'].
  cbn [fst snd] in *. rewrite Hcount, Z.eqb_refl. reflexivity.
Qed.

Lemma copy_loop_starved fuel : forall bytes_to_write in_fp out_fp,
  0 <= s_pos in_fp ->
  available in_fp < bytes_to_write < 2 ^ 64 ->
  copy_loop fuel bytes_to_write in_fp out_fp = None.
Proof.
  induction fuel as [|fuel IH]; intros btw in_fp out_fp Hpos Hav.
  { assert (0 <= available in_fp) by (unfold available; lia).
    cbn [copy_loop].
    destruct (btw =? 0) eqn:Hz; [apply Z.eqb_eq in Hz; lia|reflexivity]. }
  assert (0 <= available in_fp) by (unfold available; lia).
  rewrite copy_loop_step by lia.
  destruct (fread_chunk in_fp CHUNK_BUFFER_SIZE Hpos) as [Hrd Hav'];
    [unfold CHUNK_BUFFER_SIZE; lia|].
  rewrite Hrd. cbn [fst snd].
  rewrite length_take, length_drop. fold (available in_fp).
  unfold CHUNK_BUFFER_SIZE in *.
  assert (Hk : Z.of_nat (Z.to_nat 512 `min` (length (s_data in_fp)
                          - Z.to_nat (s_pos in_fp)))
               = Z.min 512 (available in_fp)).
  { unfold available. rewrite length_drop. lia. }
  rewrite Hk. unfold wrap64. rewrite Z.mod_small by lia.
  apply IH; cbn [s_pos]; [lia|].
  rewrite Hav'. lia.
Qed.

Lemma copy_loop_exact fuel : forall bytes_to_write in_fp out_fp,
  0 <= s_pos in_fp ->
  available in_fp = bytes_to_write -> bytes_to_write < 2 ^ 64 ->
  (Z.to_nat ((bytes_to_write + 511) / 512) <= fuel)%nat ->
  exists in_fp' out_fp',
    copy_loop fuel bytes_to_write in_fp out_fp
      = Some (BPAK_OK, in_fp', out_fp').
Proof.
  induction fuel as [|fuel IH]; intros btw in_fp out_fp Hpos Hav Hlt Hfuel.
  { assert (0 <= available in_fp) by (unfold available; lia).
    assert (btw = 0).
    { destruct (Z.eq_dec btw 0) as [|Hne]; [assumption|].
      assert (1 <= (btw + 511) / 512)
        by (apply Z.div_le_lower_bound; lia). lia. }
    subst btw. rewrite H0. cbn. eauto. }
  assert (0 <= available in_fp) by (unfold available; lia).
  destruct (Z.eq_dec btw 0) as [->|Hne]; [cbn; eauto|].
  rewrite copy_loop_step by exact Hne.
  destruct (fread_chunk in_fp CHUNK_BUFFER_SIZE Hpos) as [Hrd Hav'];
    [unfold CHUNK_BUFFER_SIZE; lia|].
  rewrite Hrd. cbn [fst snd].
  rewrite length_take, length_drop. fold (available in_fp).
  unfold CHUNK_BUFFER_SIZE in *.
  assert (Hk : Z.of_nat (Z.to_nat 512 `min` (length (s_data in_fp)
                          - Z.to_nat (s_pos in_fp)))
               = Z.min 512 (available in_fp)).
  { unfold available. rewrite length_drop. lia. }
  rewrite Hk. unfold wrap64. rewrite Z.mod_small by lia.
  apply IH; cbn [s_pos]; [lia|rewrite Hav'; lia|lia|].
  destruct (Z.le_gt_cases btw 512) as [Hle|Hgt].
  - rewrite Z.min_r by lia. replace (btw - available in_fp) with 0 by lia.
    rewrite Z.div_small by lia. lia.
  - rewrite Z.min_l by lia.
    replace (btw - 512 + 511) with (btw + 511 + (-1) * 512) by lia.
    rewrite Z.div_add by lia.
    assert (1 <= (btw + 511) / 512) by (apply Z.div_le_lower_bound; lia).
    lia.
Qed.

(** C10: in the copy loop of bpak_pkg_add_file every turn lowers
    [bytes_to_write] by the number of bytes fread returned.  If the input
    holds fewer bytes than [bytes_to_write] the loop is still running after
    any number of turns (fread returns 0 at the end of the file and the count
    stops moving); it ends only if the input holds at least [bytes_to_write]
    bytes, and it does end, with OK, when the input holds exactly that
    many. *)
Theorem copy_loop_needs_the_promised_bytes bytes_to_write in_fp out_fp :
  0 <= s_pos in_fp ->
  0 < bytes_to_write < 2 ^ 64 ->
  (forall fuel,
      copy_loop (S fuel) bytes_to_write in_fp out_fp =
        copy_loop fuel
          (wrap64 (bytes_to_write
                   - Z.of_nat (length (fst (fread in_fp CHUNK_BUFFER_SIZE)))))
          (snd (fread in_fp CHUNK_BUFFER_SIZE))
          (snd (fwrite out_fp (fst (fread in_fp CHUNK_BUFFER_SIZE))))) /\
  (available in_fp < bytes_to_write ->
   forall fuel, copy_loop fuel bytes_to_write in_fp out_fp = None) /\
  (forall fuel r,
      copy_loop fuel bytes_to_write in_fp out_fp = Some r ->
      bytes_to_write <= available in_fp) /\
  (available in_fp = bytes_to_write ->
   exists fuel in_fp' out_fp',
     copy_loop fuel bytes_to_write in_fp out_fp
       = Some (BPAK_OK, in_fp', out_fp')).
Proof.
  intros Hpos Hbtw. split; [|split; [|split]].
  - intros fuel. apply copy_loop_step. lia.
  - intros Hshort fuel. apply copy_loop_starved; [assumption|lia].
  - intros fuel r Hrun.
    destruct (Z.le_gt_cases bytes_to_write (available in_fp)) as [|Hshort];
      [assumption|].
    rewrite copy_loop_starved in Hrun by (try assumption; lia).
    discriminate.
  - intros Hexact.
    exists (Z.to_nat ((bytes_to_write + 511) / 512)).
    apply copy_loop_exact; [assumption|assumption|lia|lia].
Qed.

(** ** Adding a file to a fresh archive *)

Lemma sum_unused_slots ps : forall acc,
  Forall slot_unused ps -> 0 <= acc < 2 ^ 64 ->
  fold_left (fun acc p => wrap64 (acc + wrap64 (p_size p + p_pad_bytes p)))
    ps acc = acc.
Proof.
  induction ps as [|p ps IH]; intros acc Hall Hacc; [reflexivity|].
  inversion Hall as [|? ? (_ & Hs & Hp) Hps]; subst. cbn [fold_left].
  rewrite Hs, Hp.
  assert (Hstep : wrap64 (acc + wrap64 (0 + 0)) = acc).
  { unfold wrap64. rewrite Z.add_0_l, Z.mod_0_l, Z.add_0_r by lia.
    apply Z.mod_small. lia. }
  rewrite Hstep. now apply IH.
Qed.

Lemma add_part_fresh h id p0 rest :
  parts h = p0 :: rest -> Forall slot_unused (p0 :: rest) ->
  bpak_add_part h id = (BPAK_OK, Some 0%nat).
Proof.
  intros Hparts Hall. unfold bpak_add_part. rewrite Hparts.
  assert (Hnone : existsb (fun p => part_live p && (p_id p =? id))
                    (p0 :: rest) = false).
  { clear Hparts. induction Hall as [|p ps (Hid & _) _ IH]; [reflexivity|].
    cbn [existsb]. unfold part_live at 1. rewrite Hid. cbn. exact IH. }
  rewrite Hnone. inversion Hall as [|? ? (Hid & _) _]; subst.
  cbn [first_slot]. unfold part_live. rewrite Hid. reflexivity.
Qed.

Lemma length_padding_bytes pad :
  0 <= pad -> Z.of_nat (length (padding_bytes pad)) = pad.
Proof.
  intros Hpad. unfold padding_bytes, CHUNK_BUFFER_SIZE.
  rewrite length_app, length_take, length_zeros, length_map, length_seq. lia.
Qed.

Lemma add_file_finish_ok pkg2 pad ctx size' :
  0 <= pad ->
  header_location pkg2 = BPAK_HEADER_POS_FIRST ->
  hash_begin (hash_kind (header pkg2)) BPAK_PAYLOAD_HASH_BYTES
    = inr (ctx, size') ->
  exists pkg',
    add_file_finish pkg2 pad = Some (BPAK_OK, pkg') /\
    parts (header pkg') = parts (header pkg2) /\
    header_location pkg' = BPAK_HEADER_POS_FIRST.
Proof.
  intros Hpad Hloc Hb. unfold add_file_finish.
  assert (Hpad3 : exists pkg3,
             (if negb (pad =? 0)
              then let '(n, fp3) := fwrite (io pkg2) (padding_bytes pad) in
                   (n =? pad, set_io fp3 pkg2)
              else (true, pkg2)) = (true, pkg3) /\
             header pkg3 = header pkg2 /\
             header_location pkg3 = header_location pkg2).
  { destruct (negb (pad =? 0)); [|eauto].
    unfold fwrite.
    pose proof (stream_write_count (io pkg2) (padding_bytes pad)) as Hc.
    destruct (stream_write _ _) as [n fp3]. cbn [fst] in Hc.
    rewrite Hc, length_padding_bytes, Z.eqb_refl by exact Hpad.
    eexists. split; [reflexivity|]. split; reflexivity. }
  destruct Hpad3 as (pkg3 & -> & Hh3 & Hl3). cbn [negb].
  unfold bpak_pkg_update_payload_hash.
  rewrite <- Hh3 in Hb.
  destruct (compute_payload_hash_ok pkg3 (payload_hash (header pkg3))
              BPAK_PAYLOAD_HASH_BYTES ctx size' Hb) as (s & _ & ->).
  cbn [hr_rc hr_pkg hr_output is_ok bpak_errors_eqb negb].
  rewrite write_header_fp_first
    by (cbn [set_header set_io header_location]; congruence).
  eexists. split; [reflexivity|].
  cbn [set_io set_header header header_location parts set_payload_hash].
  split; congruence.
Qed.

Lemma add_file_to_fresh_archive fuel fs pkg filename part_name flags data
    st_size p0 rest ctx size' :
  fs filename = Some (mk_file st_size data) ->
  Z.of_nat (length data) = st_size -> st_size < 2 ^ 64 ->
  0 <= part_padding st_size ->
  header_location pkg = BPAK_HEADER_POS_FIRST ->
  parts (header pkg) = p0 :: rest -> Forall slot_unused (p0 :: rest) ->
  hash_begin (hash_kind (header pkg)) BPAK_PAYLOAD_HASH_BYTES
    = inr (ctx, size') ->
  (Z.to_nat ((st_size + 511) / 512) <= fuel)%nat ->
  exists pkg',
    bpak_pkg_add_file fuel fs pkg filename part_name flags
      = Some (BPAK_OK, pkg') /\
    parts (header pkg')
      = mk_part (bpak_id part_name) st_size (p_transport_size p0)
          BPAK_HEADER_SIZE (part_padding st_size) flags :: rest.
Proof.
  intros Hfs Hlen Hlt Hpad Hloc Hparts Hall Hb Hfuel.
  unfold bpak_pkg_add_file, stat. rewrite Hfs.
  cbn [fmap option_fmap option_map f_st_size].
  rewrite (add_part_fresh _ _ _ _ Hparts Hall).
  assert (Hoff : next_part_offset (header pkg) = BPAK_HEADER_SIZE).
  { unfold next_part_offset. rewrite Hparts.
    apply sum_unused_slots; [exact Hall|]. unfold BPAK_HEADER_SIZE. lia. }
  rewrite Hoff, Hparts. cbn [alter list_alter].
  unfold fseek at 1. change (BPAK_HEADER_SIZE <? 0) with false.
  cbn [Z.eqb negb].
  unfold fopen. rewrite Hfs.
  cbn [fmap option_fmap option_map f_data fp_stream].
  assert (Hw : wrap64 st_size = st_size) by (apply Z.mod_small; lia).
  rewrite Hw.
  edestruct (copy_loop_exact fuel st_size (mk_stream data 0))
    as (in_fp' & out_fp' & ->); cbn [s_pos]; try eassumption; try lia.
  cbn [is_ok bpak_errors_eqb negb].
  edestruct (add_file_finish_ok
               (set_io out_fp'
                  (set_header
                     (set_parts
                        (fill_part (bpak_id part_name) BPAK_HEADER_SIZE flags
                           st_size p0 :: rest) (header pkg)) pkg))
               (part_padding st_size))
    as (pkg' & -> & Hp' & _); try eassumption.
  eexists. split; [reflexivity|]. rewrite Hp'.
  cbn [set_io set_header set_parts header parts]. unfold fill_part.
  now rewrite Hw.
Qed.

(** C7 (amended): with BPAK_PART_ALIGN = 4096, adding a file of 8193 bytes
    as the first part of a fresh archive (every slot unused, header in
    front, a supported hash kind) returns OK and leaves slot 0 with size
    8193, offset 4096 and, as [pad_bytes], 4095 reduced to the range of
    that member; bpak_pkg_installed_size, the sum of size + pad_bytes over
    the slots, is then 8193 plus that value.  With a [pad_bytes] of 8 bits,
    as the specification's data model declares it, these are 255 and 8448;
    they are 4095 and 12288 only for a member that can hold 4095. *)
Theorem add_file_8193_bytes fuel fs pkg filename part_name flags data
    p0 rest ctx size' :
  BPAK_PART_ALIGN = 4096 -> 0 < pad_bytes_modulus ->
  fs filename = Some (mk_file 8193 data) -> Z.of_nat (length data) = 8193 ->
  header_location pkg = BPAK_HEADER_POS_FIRST ->
  parts (header pkg) = p0 :: rest -> Forall slot_unused (p0 :: rest) ->
  hash_begin (hash_kind (header pkg)) BPAK_PAYLOAD_HASH_BYTES
    = inr (ctx, size') ->
  (17 <= fuel)%nat ->
  exists pkg' part,
    bpak_pkg_add_file fuel fs pkg filename part_name flags
      = Some (BPAK_OK, pkg') /\
    parts (header pkg') !! 0%nat = Some part /\
    p_id part = bpak_id part_name /\
    p_size part = 8193 /\
    p_pad_bytes part = 4095 mod pad_bytes_modulus /\
    p_offset part = 4096 /\
    p_flags part = flags /\
    bpak_pkg_installed_size pkg' = 8193 + 4095 mod pad_bytes_modulus /\
    (pad_bytes_modulus = 2 ^ 8 ->
     p_pad_bytes part = 255 /\ bpak_pkg_installed_size pkg' = 8448) /\
    (4095 < pad_bytes_modulus ->
     p_pad_bytes part = 4095 /\ bpak_pkg_installed_size pkg' = 12288).
Proof.
  intros Halign Hmod Hfs Hlen Hloc Hparts Hall Hb Hfuel.
  assert (Hpad : part_padding 8193 = 4095 mod pad_bytes_modulus).
  { unfold part_padding. rewrite Halign.
    change (Z.rem 8193 4096) with 1. reflexivity. }
  pose proof (Z.mod_pos_bound 4095 pad_bytes_modulus Hmod) as Hrange.
  assert (Hle : 4095 mod pad_bytes_modulus <= 4095)
    by (apply Z.mod_le; lia).
  destruct (add_file_to_fresh_archive fuel fs pkg filename part_name flags
              data 8193 p0 rest ctx size')
    as (pkg' & Hrun & Hp'); try assumption.
  { lia. }
  { rewrite Hpad. lia. }
  rewrite Hpad in Hp'.
  assert (Hinst : bpak_pkg_installed_size pkg'
                  = 8193 + 4095 mod pad_bytes_modulus).
  { unfold bpak_pkg_installed_size. rewrite Hp'.
    cbn [fold_left p_size p_pad_bytes].
    inversion Hall as [|? ? _ Hrest]; subst.
    assert (Hw : wrap64 (0 + wrap64 (8193 + 4095 mod pad_bytes_modulus))
                 = 8193 + 4095 mod pad_bytes_modulus).
    { unfold wrap64. rewrite Z.add_0_l, Z.mod_mod by lia.
      apply Z.mod_small. lia. }
    rewrite Hw. apply sum_unused_slots; [exact Hrest|lia]. }
  eexists pkg', _. split; [exact Hrun|]. rewrite Hp'.
  split; [reflexivity|]. cbn [p_id p_size p_pad_bytes p_offset p_flags].
  repeat (split; [reflexivity|]).
  split; [exact Hinst|]. rewrite Hinst. split.
  - intros ->. split; reflexivity.
  - intros Hbig. rewrite Z.mod_small by lia. split; reflexivity.
Qed.

(** ** Decoding without an origin *)

(** C8 (as the code behaves): called with [origin = NULL] on an input whose
    first part slot is in use, bpak_pkg_transport_decode gets through the
    set-up (which tests [origin != NULL]) and then, at the first part,
    evaluates [origin->io != NULL] -- [origin->fp] in part_001 -- through the
    null pointer.  No part is decoded. *)
Theorem transport_decode_null_origin_faults input output w0 part :
  bpak_transport_decode_init (header input)
    (mk_decode_private (io output) None 0 0) = (BPAK_OK, w0) ->
  parts (dw_patch_header w0) !! 0%nat = Some part ->
  p_id part <> 0 ->
  bpak_pkg_transport_decode input output None = Some Fault /\
  bpak_pkg_transport_decode_fp input output None = Some Fault.
Proof.
  intros Hinit Hpart Hid.
  assert (Hloop : forall input_io,
             decode_parts (length (parts (dw_patch_header w0))) 0 None
               input_io w0 = Some Fault).
  { intros input_io.
    destruct (parts (dw_patch_header w0)) as [|p ps] eqn:Hps;
      [discriminate|].
    cbn [length decode_parts]. rewrite Hps. cbn [lookup list_lookup].
    cbn in Hpart. injection Hpart as ->.
    destruct (p_id part =? 0) eqn:Hz; [apply Z.eqb_eq in Hz; lia|].
    reflexivity. }
  unfold bpak_pkg_transport_decode, bpak_pkg_transport_decode_fp,
    transport_decode_with.
  cbn [fmap option_fmap option_map]. rewrite Hinit.
  cbn [is_ok bpak_errors_eqb negb].
  unfold bpak_io_seek, fseek. change (BPAK_HEADER_SIZE <? 0) with false.
  cbn [Z.eqb is_ok bpak_errors_eqb negb]. rewrite !Hloop. split; reflexivity.
Qed.

(** * Further properties of the facade *)

(** ** Locating the header *)

(** X1: for a file opened in a mode that allows reading ("r", or any mode
    with "+"), when the first 4096 bytes of the file validate,
    bpak_pkg_open (on bpak_io and on FILE streams) returns OK with that
    header, location FIRST and the cursor at 0, whatever the rest of the
    file holds -- a valid header image at the tail included. *)
Theorem open_prefers_front_header fs filename m f :
  fopen fs filename m = Some f -> fp_reads f = true ->
  BPAK_HEADER_SIZE <= Z.of_nat (length (s_data (fp_stream f))) ->
  let front := take (Z.to_nat BPAK_HEADER_SIZE) (s_data (fp_stream f)) in
  bpak_valid_header (image_header front) = BPAK_OK ->
  let opened :=
    (BPAK_OK,
     Some (mk_package (mk_stream (s_data (fp_stream f)) 0)
             (image_header front) BPAK_HEADER_POS_FIRST)) in
  bpak_pkg_open fs filename (Some m) = opened /\
  bpak_pkg_open_fp fs filename (Some m) = opened.
Proof.
  intros Hopen Hreads Hlen front Hvalid opened. split.
  - rewrite (open_io_result fs filename m f Hopen Hreads Hlen).
    cbv zeta. fold front. rewrite Hvalid. reflexivity.
  - rewrite (open_fp_result fs filename m f Hopen), Hreads. fold front.
    rewrite memcpy_zero_image; [reflexivity|].
    subst front. unfold BPAK_HEADER_SIZE in *. rewrite length_take. lia.
Qed.

(** X2: on FILE streams bpak_pkg_open never finds a header at the tail.
    For every file that can be opened, in whatever mode, it returns OK with
    location FIRST and the cursor at 0, and [pkg->header] is the image of
    what the first read delivered over the zeros of the memset: the first
    4096 bytes of the file (fewer when the file is shorter) in a mode that
    allows reading, nothing at all in a mode that does not ("w", "a").  The
    second candidate is read after [fseek(fp, 4096, SEEK_END)], that is
    from 4096 bytes past the end, and nothing is there. *)
Theorem open_fp_never_finds_tail_header fs filename m f pkg rc :
  fopen fs filename m = Some f ->
  bpak_pkg_open_fp fs filename (Some m) = (rc, Some pkg) ->
  rc = BPAK_OK /\
  header_location pkg = BPAK_HEADER_POS_FIRST /\
  header pkg
    = image_header
        (memcpy zero_image
           (if fp_reads f
            then take (Z.to_nat BPAK_HEADER_SIZE) (s_data (fp_stream f))
            else [])) /\
  io pkg = mk_stream (s_data (fp_stream f)) 0.
Proof.
  intros Hopen Hrun.
  rewrite (open_fp_result fs filename m f Hopen) in Hrun.
  injection Hrun as <- <-. repeat split.
Qed.

(** X3: a file from which the first read delivers fewer than 4096 bytes --
    a file shorter than that (an empty one included) in a mode that allows
    reading, or any file in a mode that does not -- is opened with OK and
    location FIRST by both variants; [pkg->header] is the image of the
    bytes read followed by the zeros of the memset, and neither the
    validator nor the tail is consulted. *)
Theorem open_short_file_zero_fills_header fs filename m f :
  fopen fs filename m = Some f ->
  fp_reads f = false
  \/ Z.of_nat (length (s_data (fp_stream f))) < BPAK_HEADER_SIZE ->
  let got := if fp_reads f then s_data (fp_stream f) else [] in
  let opened :=
    (BPAK_OK,
     Some (mk_package (mk_stream (s_data (fp_stream f)) 0)
             (image_header
                (got ++ zeros (Z.to_nat BPAK_HEADER_SIZE - length got)))
             BPAK_HEADER_POS_FIRST)) in
  bpak_pkg_open fs filename (Some m) = opened /\
  bpak_pkg_open_fp fs filename (Some m) = opened.
Proof.
  intros Hopen Hshort got opened. subst opened.
  assert (Hgot : (if fp_reads f
                  then take (Z.to_nat BPAK_HEADER_SIZE) (s_data (fp_stream f))
                  else []) = got).
  { subst got. destruct (fp_reads f); [|reflexivity].
    destruct Hshort as [|Hlen]; [discriminate|].
    apply take_ge. unfold BPAK_HEADER_SIZE in *. lia. }
  assert (Hlen : (length got <= Z.to_nat BPAK_HEADER_SIZE)%nat).
  { subst got. destruct (fp_reads f); [|cbn; lia].
    destruct Hshort as [|Hlen]; [discriminate|].
    unfold BPAK_HEADER_SIZE in *. lia. }
  rewrite <- (memcpy_zero_image_short got Hlen), <- Hgot.
  split.
  - apply open_io_short; assumption.
  - apply open_fp_result; assumption.
Qed.

(** X4: on bpak_io, for a file opened in a mode that allows reading, when
    the first 4096 bytes do not validate the tail candidate is read over
    them (from [end - 4096], as the specification has BPAK_IO_SEEK_END
    count): if it does not validate either, bpak_pkg_open still returns OK,
    with location FIRST, and [pkg->header] holds the image of the last 4096
    bytes of the file, not of the first. *)
Theorem open_keeps_rejected_tail_candidate fs filename m f :
  fopen fs filename m = Some f -> fp_reads f = true ->
  BPAK_HEADER_SIZE <= Z.of_nat (length (s_data (fp_stream f))) ->
  let data := s_data (fp_stream f) in
  let tail := drop (length data - Z.to_nat BPAK_HEADER_SIZE) data in
  bpak_valid_header
    (image_header (take (Z.to_nat BPAK_HEADER_SIZE) data)) <> BPAK_OK ->
  bpak_valid_header (image_header tail) <> BPAK_OK ->
  bpak_pkg_open fs filename (Some m) =
    (BPAK_OK,
     Some (mk_package (mk_stream data 0) (image_header tail)
             BPAK_HEADER_POS_FIRST)).
Proof.
  intros Hopen Hreads Hlen data tail Hfront Htail.
  rewrite (open_io_result fs filename m f Hopen Hreads Hlen). cbv zeta.
  fold data. fold tail.
  rewrite (is_ok_false _ Hfront), (is_ok_false _ Htail). reflexivity.
Qed.


(** ** Writing the header back and finding it again *)


(** X6: with the header at the tail, bpak_pkg_write_header on FILE streams
    does not overwrite it: [fseek(fp, sizeof(header), SEEK_END)] moves 4096
    bytes past the end, so every call returns OK, keeps the old bytes,
    and makes the stream 8192 bytes longer -- 4096 zero bytes and then the
    header image. *)
Theorem write_header_fp_tail_appends pkg :
  header_location pkg = BPAK_HEADER_POS_LAST ->
  let data := s_data (io pkg) in
  exists pkg',
    bpak_pkg_write_header_fp pkg = (BPAK_OK, pkg') /\
    header pkg' = header pkg /\
    header_location pkg' = BPAK_HEADER_POS_LAST /\
    s_data (io pkg')
      = data ++ zeros (Z.to_nat BPAK_HEADER_SIZE)
        ++ header_image (header pkg) /\
    stream_end (io pkg') = stream_end (io pkg) + 2 * BPAK_HEADER_SIZE /\
    exists pkg'',
      bpak_pkg_write_header_fp pkg' = (BPAK_OK, pkg'') /\
      stream_end (io pkg'') = stream_end (io pkg) + 4 * BPAK_HEADER_SIZE.
Proof.
  intros Hloc data.
  pose proof (header_image_length (header pkg)) as Himg.
  rewrite (write_header_fp_last pkg Hloc).
  eexists. split; [reflexivity|].
  cbn [set_io header header_location io s_data].
  split; [reflexivity|]. split; [exact Hloc|]. split; [reflexivity|].
  assert (Hend : stream_end
                   (mk_stream
                      (s_data (io pkg) ++ zeros (Z.to_nat BPAK_HEADER_SIZE)
                       ++ header_image (header pkg))
                      (stream_end (io pkg) + 2 * BPAK_HEADER_SIZE))
                 = stream_end (io pkg) + 2 * BPAK_HEADER_SIZE).
  { unfold stream_end. cbn [s_data].
    rewrite !length_app, length_zeros, Himg. unfold BPAK_HEADER_SIZE. lia. }
  split; [exact Hend|].
  rewrite write_header_fp_last by (cbn [set_io header_location]; exact Hloc).
  eexists. split; [reflexivity|].
  cbn [set_io io header]. unfold stream_end. cbn [s_data].
  rewrite !length_app, length_zeros, Himg. unfold BPAK_HEADER_SIZE. lia.
Qed.


(** ** What the hash functions leave alone *)

Lemma hash_chunks_keeps_data fuel : forall n s s',
  hash_chunks fuel n s = Some s' ->
  s_data (hs_io s') = s_data (hs_io s).
Proof.
  induction fuel as [|fuel IH]; intros n s s'; [discriminate|].
  cbn [hash_chunks]. unfold bpak_io_read, stream_read.
  destruct (_ - _ =? 0).
  - intros [= <-]. reflexivity.
  - intros Hrun. apply IH in Hrun. exact Hrun.
Qed.

Lemma hash_parts_keeps_data ps : forall s s',
  hash_parts ps s = Some s' -> s_data (hs_io s') = s_data (hs_io s).
Proof.
  induction ps as [|p ps IH]; intros s s'; cbn [hash_parts].
  { intros [= <-]. reflexivity. }
  destruct (p_id p =? 0); [apply IH|].
  destruct (negb _).
  - intros Hrun. apply IH in Hrun. rewrite Hrun. cbn [hs_io].
    unfold bpak_io_seek. destruct (_ <? 0); reflexivity.
  - destruct (hash_chunks _ _ s) as [s1|] eqn:Hc; [|discriminate].
    intros Hrun. apply IH in Hrun. rewrite Hrun.
    eapply hash_chunks_keeps_data. exact Hc.
Qed.

Lemma hash_start_data pkg ctx :
  s_data (hs_io (hash_start pkg ctx)) = s_data (io pkg).
Proof.
  unfold hash_start, bpak_io_seek. cbn [hs_io].
  destruct (_ <? 0); reflexivity.
Qed.

Lemma hash_begin_kinds kind size :
  (kind = BPAK_HASH_SHA256 \/ kind = BPAK_HASH_SHA384
   \/ kind = BPAK_HASH_SHA512 ->
   BPAK_PAYLOAD_HASH_BYTES <= size ->
   exists ctx size', hash_begin kind size = inr (ctx, size')) /\
  (kind <> BPAK_HASH_SHA256 -> kind <> BPAK_HASH_SHA384 ->
   kind <> BPAK_HASH_SHA512 ->
   hash_begin kind size = inl BPAK_NOT_SUPPORTED).
Proof.
  unfold hash_begin, BPAK_PAYLOAD_HASH_BYTES. split.
  - intros Hk Hs.
    destruct (size <? 32) eqn:H1; [apply Z.ltb_lt in H1; lia|].
    destruct (size <? 48) eqn:H2; [apply Z.ltb_lt in H2; lia|].
    destruct (size <? 64) eqn:H3; [apply Z.ltb_lt in H3; lia|].
    destruct Hk as [-> | [-> | ->]]; cbn; eauto.
  - intros N1 N2 N3.
    apply Z.eqb_neq in N1, N2, N3. now rewrite N1, N2, N3.
Qed.

Lemma set_payload_hash_same h : set_payload_hash (payload_hash h) h = h.
Proof. now destruct h. Qed.

Lemma set_header_same pkg : set_header (header pkg) pkg = pkg.
Proof. now destruct pkg. Qed.

(** X7: bpak_pkg_update_payload_hash has two outcomes.  With a known hash
    kind it returns OK whatever the stream holds, having changed nothing but
    [header.payload_hash] and the stream cursor: the stream data, the
    header location and every other header member are as before.  With any
    other hash kind it returns NOT_SUPPORTED and the package is exactly as
    it was. *)
Theorem update_payload_hash_outcomes pkg :
  let kind := hash_kind (header pkg) in
  (kind = BPAK_HASH_SHA256 \/ kind = BPAK_HASH_SHA384
   \/ kind = BPAK_HASH_SHA512 ->
   exists pkg',
     bpak_pkg_update_payload_hash pkg = Some (BPAK_OK, pkg') /\
     s_data (io pkg') = s_data (io pkg) /\
     header_location pkg' = header_location pkg /\
     header pkg'
       = set_payload_hash (payload_hash (header pkg')) (header pkg)) /\
  (kind <> BPAK_HASH_SHA256 -> kind <> BPAK_HASH_SHA384 ->
   kind <> BPAK_HASH_SHA512 ->
   bpak_pkg_update_payload_hash pkg = Some (BPAK_NOT_SUPPORTED, pkg)).
Proof.
  intros kind. subst kind. unfold bpak_pkg_update_payload_hash. split.
  - intros Hk.
    destruct (proj1 (hash_begin_kinds (hash_kind (header pkg))
                       BPAK_PAYLOAD_HASH_BYTES) Hk)
      as (ctx & size' & Hb); [lia|].
    destruct (compute_payload_hash_ok pkg (payload_hash (header pkg))
                BPAK_PAYLOAD_HASH_BYTES ctx size' Hb) as (s & Hrun & ->).
    eexists. split; [reflexivity|].
    cbn [hr_pkg hr_output set_header set_io io header header_location
           payload_hash set_payload_hash].
    split.
    { rewrite (hash_parts_keeps_data _ _ _ Hrun). apply hash_start_data. }
    split; reflexivity.
  - intros N1 N2 N3.
    rewrite (compute_payload_hash_err pkg _ _ BPAK_NOT_SUPPORTED)
      by (apply hash_begin_kinds; assumption).
    cbn [hr_rc hr_pkg hr_output].
    now rewrite set_payload_hash_same, set_header_same.
Qed.

Lemma hash_start_ignores_cursor pkg s' ctx :
  s_data s' = s_data (io pkg) ->
  hash_start (set_io s' pkg) ctx = hash_start pkg ctx.
Proof.
  intros Hdata. unfold hash_start, bpak_io_seek.
  cbn [set_io io header_location].
  rewrite Hdata. destruct (header_location pkg); reflexivity.
Qed.

Lemma compute_payload_hash_on_stream pkg s' output size :
  s_data s' = s_data (io pkg) ->
  hr_public <$> bpak_pkg_compute_payload_hash (set_io s' pkg) output size
  = hr_public <$> bpak_pkg_compute_payload_hash pkg output size.
Proof.
  intros Hdata. unfold bpak_pkg_compute_payload_hash. cbn [set_io header].
  destruct (hash_begin _ _) as [rc|[ctx size']]; [reflexivity|].
  change (mk_package s' (header pkg) (header_location pkg))
    with (set_io s' pkg).
  rewrite (hash_start_ignores_cursor pkg s' ctx Hdata).
  destruct (hash_parts _ _); reflexivity.
Qed.

Lemma compute_payload_hash_moves_cursor_only pkg output size r :
  bpak_pkg_compute_payload_hash pkg output size = Some r ->
  s_data (io (hr_pkg r)) = s_data (io pkg) /\
  hr_pkg r = set_io (io (hr_pkg r)) pkg.
Proof.
  unfold bpak_pkg_compute_payload_hash.
  destruct (hash_begin _ _) as [rc|[ctx size']].
  { intros [= <-]. cbn [hr_pkg]. split; [reflexivity|now destruct pkg]. }
  destruct (hash_parts _ _) as [s|] eqn:Hp; [|discriminate].
  intros [= <-]. cbn [hr_pkg set_io io]. split; [|reflexivity].
  rewrite (hash_parts_keeps_data _ _ _ Hp). apply hash_start_data.
Qed.

(** X8: the payload hash does not depend on where the stream cursor
    stands when bpak_pkg_compute_payload_hash is called, and the call
    changes nothing of the package but that cursor; so a second call on the
    package the first one returned yields the same return code, digest and
    size. *)
Theorem payload_hash_ignores_cursor pkg pos output size :
  hr_public <$>
    bpak_pkg_compute_payload_hash
      (set_io (mk_stream (s_data (io pkg)) pos) pkg) output size
  = hr_public <$> bpak_pkg_compute_payload_hash pkg output size /\
  forall r,
    bpak_pkg_compute_payload_hash pkg output size = Some r ->
    s_data (io (hr_pkg r)) = s_data (io pkg) /\
    header (hr_pkg r) = header pkg /\
    header_location (hr_pkg r) = header_location pkg /\
    hr_public <$> bpak_pkg_compute_payload_hash (hr_pkg r) output size
      = Some (hr_public r).
Proof.
  split; [now apply compute_payload_hash_on_stream|].
  intros r Hrun.
  destruct (compute_payload_hash_moves_cursor_only _ _ _ _ Hrun)
    as [Hdata Hpkg].
  split; [exact Hdata|].
  rewrite Hpkg at 1 2 3. cbn [set_io header header_location].
  split; [reflexivity|]. split; [reflexivity|].
  rewrite Hpkg, compute_payload_hash_on_stream by exact Hdata.
  now rewrite Hrun.
Qed.


(** ** The payload hash and the bytes in front of the payload *)

(** Two runs of the chunk loop that start behind offset [p0] with the same
    cursor, buffer and context, on streams that agree from [p0] on, end
    the same way. *)
Lemma hash_chunks_agree (p0 : nat) fuel : forall n s1 s2,
  s_pos (hs_io s1) = s_pos (hs_io s2) ->
  Z.of_nat p0 <= s_pos (hs_io s1) ->
  hs_buffer s1 = hs_buffer s2 -> hs_ctx s1 = hs_ctx s2 ->
  drop p0 (s_data (hs_io s1)) = drop p0 (s_data (hs_io s2)) ->
  match hash_chunks fuel n s1, hash_chunks fuel n s2 with
  | Some t1, Some t2 =>
      s_pos (hs_io t1) = s_pos (hs_io t2) /\
      Z.of_nat p0 <= s_pos (hs_io t1) /\
      hs_buffer t1 = hs_buffer t2 /\ hs_ctx t1 = hs_ctx t2
  | None, None => True
  | _, _ => False
  end.
Proof.
  induction fuel as [|fuel IH];
    intros n [[d1 pos1] buf1 ctx1] [[d2 pos2] buf2 ctx2];
    cbn [hs_io hs_buffer hs_ctx s_data s_pos];
    intros Hpos Hp0 Hbuf Hctx Hdata; [exact I|].
  subst pos2 buf2 ctx2. cbn [hash_chunks].
  unfold bpak_io_read, stream_read. cbn [hs_io hs_buffer hs_ctx s_data s_pos].
  set (chunk := if n >? HASH_BUFFER_SIZE then HASH_BUFFER_SIZE else n).
  assert (Hgot : take (Z.to_nat chunk) (drop (Z.to_nat pos1) d1)
                 = take (Z.to_nat chunk) (drop (Z.to_nat pos1) d2)).
  { replace (Z.to_nat pos1) with (p0 + (Z.to_nat pos1 - p0))%nat by lia.
    rewrite <- !drop_drop, Hdata. reflexivity. }
  rewrite Hgot.
  destruct (n - chunk =? 0).
  - cbn [hs_io hs_buffer hs_ctx s_pos]. repeat split. lia.
  - apply IH; cbn [hs_io hs_buffer hs_ctx s_data s_pos];
      try reflexivity; try assumption. lia.
Qed.

Lemma hash_parts_agree (p0 : nat) ps : forall s1 s2,
  Forall (fun p => 0 <= bpak_part_size p) ps ->
  s_pos (hs_io s1) = s_pos (hs_io s2) ->
  Z.of_nat p0 <= s_pos (hs_io s1) ->
  hs_buffer s1 = hs_buffer s2 -> hs_ctx s1 = hs_ctx s2 ->
  drop p0 (s_data (hs_io s1)) = drop p0 (s_data (hs_io s2)) ->
  match hash_parts ps s1, hash_parts ps s2 with
  | Some t1, Some t2 =>
      s_pos (hs_io t1) = s_pos (hs_io t2) /\ hs_ctx t1 = hs_ctx t2
  | None, None => True
  | _, _ => False
  end.
Proof.
  induction ps as [|p ps IH]; intros s1 s2 Hnn Hpos Hp0 Hbuf Hctx Hdata;
    cbn [hash_parts]; [split; assumption|].
  inversion Hnn as [|? ? Hp Hps]; subst.
  destruct (p_id p =? 0); [now apply IH|].
  destruct (negb _).
  - apply IH; try assumption; unfold bpak_io_seek; rewrite <- ?Hpos;
      (destruct (_ <? 0) eqn:Hlt; [apply Z.ltb_lt in Hlt; lia|]);
      cbn [snd hs_io hs_buffer hs_ctx s_pos s_data]; try assumption;
      try reflexivity; lia.
  - pose proof (hash_chunks_agree p0 (hash_chunks_fuel (bpak_part_size p))
                  (bpak_part_size p) s1 s2 Hpos Hp0 Hbuf Hctx Hdata) as Hc.
    pose proof (hash_chunks_keeps_data
                  (hash_chunks_fuel (bpak_part_size p)) (bpak_part_size p) s1)
      as Hk1.
    pose proof (hash_chunks_keeps_data
                  (hash_chunks_fuel (bpak_part_size p)) (bpak_part_size p) s2)
      as Hk2.
    destruct (hash_chunks _ _ s1) as [t1|], (hash_chunks _ _ s2) as [t2|];
      try contradiction; [|exact I].
    destruct Hc as (Hpos' & Hp0' & Hbuf' & Hctx').
    apply IH; try assumption.
    now rewrite (Hk1 t1 eq_refl), (Hk2 t2 eq_refl).
Qed.

Lemma hash_start_first pkg ctx :
  header_location pkg = BPAK_HEADER_POS_FIRST ->
  hash_start pkg ctx
    = mk_hash_state (mk_stream (s_data (io pkg)) BPAK_HEADER_SIZE)
        (resize (Z.to_nat HASH_BUFFER_SIZE) x00 hash_buffer_init) ctx.
Proof. intros Hloc. unfold hash_start. now rewrite Hloc. Qed.

(** X9: with the header in front, bpak_pkg_compute_payload_hash never
    reads the first 4096 bytes of the stream: on two streams that agree from
    offset 4096 on it returns the same code, digest and size.  What is
    stored in the header on disk, the payload hash and the signature
    included, has no part in it. *)
Theorem payload_hash_skips_front_header pkg data2 output size :
  header_location pkg = BPAK_HEADER_POS_FIRST ->
  Forall (fun p => 0 <= bpak_part_size p) (parts (header pkg)) ->
  drop (Z.to_nat BPAK_HEADER_SIZE) data2
    = drop (Z.to_nat BPAK_HEADER_SIZE) (s_data (io pkg)) ->
  hr_public <$>
    bpak_pkg_compute_payload_hash
      (set_io (mk_stream data2 (s_pos (io pkg))) pkg) output size
  = hr_public <$> bpak_pkg_compute_payload_hash pkg output size.
Proof.
  intros Hloc Hnn Hdata. unfold bpak_pkg_compute_payload_hash.
  cbn [set_io header].
  destruct (hash_begin _ _) as [rc|[ctx size']]; [reflexivity|].
  rewrite !hash_start_first by (cbn [header_location]; exact Hloc).
  cbn [io s_data set_io].
  set (buf := resize (Z.to_nat HASH_BUFFER_SIZE) x00 hash_buffer_init).
  set (s1 := mk_hash_state (mk_stream data2 BPAK_HEADER_SIZE) buf ctx).
  set (s2 := mk_hash_state (mk_stream (s_data (io pkg)) BPAK_HEADER_SIZE)
               buf ctx).
  assert (Hp0 : Z.of_nat (Z.to_nat BPAK_HEADER_SIZE) <= s_pos (hs_io s1))
    by (subst s1; cbn [hs_io s_pos]; unfold BPAK_HEADER_SIZE; lia).
  assert (Hsim := hash_parts_agree (Z.to_nat BPAK_HEADER_SIZE)
                    (parts (header pkg)) s1 s2 Hnn eq_refl Hp0 eq_refl
                    eq_refl Hdata).
  destruct (hash_parts (parts (header pkg)) s1) as [t1|],
      (hash_parts (parts (header pkg)) s2) as [t2|];
    cbn [fmap option_fmap option_map]; try contradiction; [|reflexivity].
  destruct Hsim as [_ Hctx].
  unfold hr_public. cbn [hr_rc hr_output hr_size]. now rewrite Hctx.
Qed.


(** ** What a successful hash call hands back *)

Lemma hash_begin_ok_cases kind size ctx size' :
  hash_begin kind size = inr (ctx, size') ->
  ctx = md_starts (md_kind ctx) /\
  size' = Z.of_nat (md_len (md_kind ctx)) /\ size' <= size /\
  (kind = BPAK_HASH_SHA256 /\ size' = 32 \/
   kind = BPAK_HASH_SHA384 /\ size' = 48 \/
   kind = BPAK_HASH_SHA512 /\ size' = 64).
Proof.
  unfold hash_begin.
  destruct (kind =? BPAK_HASH_SHA256) eqn:K1;
    [apply Z.eqb_eq in K1
    |destruct (kind =? BPAK_HASH_SHA384) eqn:K2;
     [apply Z.eqb_eq in K2
     |destruct (kind =? BPAK_HASH_SHA512) eqn:K3;
      [apply Z.eqb_eq in K3|discriminate]]];
    (destruct (size <? _) eqn:Hs; [discriminate|]);
    apply Z.ltb_ge in Hs; intros [= <- <-]; cbn; repeat split; auto; lia.
Qed.

Lemma hash_chunks_keeps_kind fuel : forall n s s',
  hash_chunks fuel n s = Some s' ->
  md_kind (hs_ctx s') = md_kind (hs_ctx s).
Proof.
  induction fuel as [|fuel IH]; intros n s s'; [discriminate|].
  cbn [hash_chunks]. unfold bpak_io_read, stream_read.
  destruct (_ - _ =? 0).
  - intros [= <-]. reflexivity.
  - intros Hrun. apply IH in Hrun. exact Hrun.
Qed.

Lemma hash_parts_keeps_kind ps : forall s s',
  hash_parts ps s = Some s' -> md_kind (hs_ctx s') = md_kind (hs_ctx s).
Proof.
  induction ps as [|p ps IH]; intros s s'; cbn [hash_parts].
  { intros [= <-]. reflexivity. }
  destruct (p_id p =? 0); [apply IH|].
  destruct (negb _).
  - intros Hrun. apply IH in Hrun. exact Hrun.
  - destruct (hash_chunks _ _ s) as [s1|] eqn:Hc; [|discriminate].
    intros Hrun. apply IH in Hrun. rewrite Hrun.
    eapply hash_chunks_keeps_kind. exact Hc.
Qed.

Lemma md_finish_frame c output :
  take (md_len (md_kind c)) (md_finish c output)
    = resize (md_len (md_kind c)) x00 (digest (md_kind c) (md_message c)) /\
  drop (md_len (md_kind c)) (md_finish c output)
    = drop (md_len (md_kind c)) output.
Proof.
  unfold md_finish, memcpy. split.
  - apply take_app_length'. now rewrite length_resize.
  - rewrite drop_app_length'; [|now rewrite length_resize].
    now rewrite length_resize.
Qed.

(** X10: when bpak_pkg_compute_payload_hash returns OK, [*size] has become
    the digest length of the header's hash kind -- 32, 48 or 64, never more
    than the size passed in -- the first [*size] bytes of the output buffer
    are the digest, by the algorithm of that kind, of the message that the
    part loop fed, and the bytes of the buffer behind them are untouched. *)
Theorem payload_hash_output_frame pkg output size r :
  bpak_pkg_compute_payload_hash pkg output size = Some r ->
  hr_rc r = BPAK_OK ->
  exists a s,
    (hash_kind (header pkg) = BPAK_HASH_SHA256 /\ a = MD_SHA256 \/
     hash_kind (header pkg) = BPAK_HASH_SHA384 /\ a = MD_SHA384 \/
     hash_kind (header pkg) = BPAK_HASH_SHA512 /\ a = MD_SHA512) /\
    hash_parts (parts (header pkg)) (hash_start pkg (md_starts a)) = Some s /\
    hr_size r = Z.of_nat (md_len a) /\ hr_size r <= size /\
    take (md_len a) (hr_output r)
      = resize (md_len a) x00 (digest a (md_message (hs_ctx s))) /\
    drop (md_len a) (hr_output r) = drop (md_len a) output.
Proof.
  unfold bpak_pkg_compute_payload_hash.
  destruct (hash_begin _ _) as [rc|[ctx size']] eqn:Hb.
  { intros [= <-]. cbn. intros ->.
    apply hash_begin_error_cases in Hb. destruct Hb; discriminate. }
  destruct (hash_parts _ _) as [s|] eqn:Hp; [|discriminate].
  intros [= <-] _. cbn [hr_size hr_output].
  destruct (hash_begin_ok_cases _ _ _ _ Hb) as (Hctx & Hsz & Hle & Hk).
  assert (Hkind : md_kind (hs_ctx s) = md_kind ctx).
  { rewrite (hash_parts_keeps_kind _ _ _ Hp). reflexivity. }
  exists (md_kind ctx), s.
  split.
  { rewrite Hctx in Hb. unfold hash_begin in Hb.
    destruct (md_kind ctx);
      repeat match type of Hb with
             | context [if ?c then _ else _] => destruct c eqn:?
             end; try discriminate;
      repeat match goal with
             | H : (_ =? _) = true |- _ => apply Z.eqb_eq in H
             end; auto. }
  split; [now rewrite <- Hctx|].
  split; [exact Hsz|]. split; [exact Hle|].
  rewrite <- Hkind. apply md_finish_frame.
Qed.

(** X11: when bpak_pkg_compute_header_hash is asked to refresh the payload
    hash and returns OK, the header it leaves carries the payload digest
    that bpak_pkg_compute_payload_hash computes into [header.payload_hash]
    and is otherwise as before, and the digest handed back is that of the
    image of this refreshed header with its signature slot zeroed. *)
Theorem header_hash_covers_refreshed_payload_hash pkg output size r :
  bpak_pkg_compute_header_hash pkg output size true = Some r ->
  hr_rc r = BPAK_OK ->
  exists rp a,
    bpak_pkg_compute_payload_hash pkg (payload_hash (header pkg))
      BPAK_PAYLOAD_HASH_BYTES = Some rp /\
    hr_rc rp = BPAK_OK /\
    header (hr_pkg r) = set_payload_hash (hr_output rp) (header pkg) /\
    io (hr_pkg r) = io (hr_pkg rp) /\
    hr_output r
      = memcpy output
          (resize (md_len a) x00
             (digest a
                (header_image
                   (set_signature_sz 0
                      (set_signature (zeros BPAK_SIGNATURE_MAX_BYTES)
                         (set_payload_hash (hr_output rp) (header pkg))))))).
Proof.
  unfold bpak_pkg_compute_header_hash, bpak_pkg_update_payload_hash.
  destruct (bpak_pkg_compute_payload_hash pkg _ _) as [rp|] eqn:Hp;
    [|discriminate].
  destruct (compute_payload_hash_moves_cursor_only _ _ _ _ Hp)
    as [_ Hpkg].
  destruct (negb (bpak_errors_eqb (hr_rc rp) BPAK_OK)) eqn:Hrc.
  { intros [= <-]. cbn. intros Hok. rewrite Hok in Hrc. discriminate. }
  destruct (hash_begin _ size) as [rc'|[ctx size']] eqn:Hb.
  { intros [= <-]. cbn. intros ->.
    apply hash_begin_error_cases in Hb. destruct Hb; discriminate. }
  intros [= <-] _.
  exists rp, (md_kind ctx).
  split; [reflexivity|].
  split; [destruct (hr_rc rp); try discriminate; reflexivity|].
  cbn [hr_pkg hr_output set_header header io].
  rewrite Hpkg. cbn [set_io header io].
  split; [now destruct (header pkg)|]. split; [reflexivity|].
  unfold md_finish, md_message, md_update.
  cbn [md_kind md_fed]. rewrite (hash_begin_fresh _ _ _ _ Hb).
  cbn [app concat]. rewrite app_nil_r. reflexivity.
Qed.


(** ** Signing twice *)

(** X12: for signatures of at most 512 bytes, the size of the slot, a
    signature written by bpak_pkg_sign (or bpak_pkg_write_raw_signature)
    replaces the one written before it completely, whatever the two header
    writes returned: after signing with [sig1] and then with [sig2] the
    header is the one that signing with [sig2] alone leaves, the slot holds
    [sig2] followed by zeros, and no byte of a longer [sig1] is left behind
    it. *)
Theorem sign_replaces_previous_signature pkg sig1 sig2 :
  (length sig1 <= BPAK_SIGNATURE_MAX_BYTES)%nat ->
  (length sig2 <= BPAK_SIGNATURE_MAX_BYTES)%nat ->
  header (snd (bpak_pkg_sign (snd (bpak_pkg_sign pkg sig1)) sig2))
    = header (snd (bpak_pkg_sign pkg sig2)) /\
  header (snd (bpak_pkg_write_raw_signature
                 (snd (bpak_pkg_write_raw_signature pkg sig1)) sig2))
    = header (snd (bpak_pkg_write_raw_signature pkg sig2)) /\
  signature (header (snd (bpak_pkg_sign (snd (bpak_pkg_sign pkg sig1)) sig2)))
    = sig2 ++ zeros (BPAK_SIGNATURE_MAX_BYTES - length sig2) /\
  signature_sz
    (header (snd (bpak_pkg_sign (snd (bpak_pkg_sign pkg sig1)) sig2)))
    = Z.of_nat (length sig2).
Proof.
  intros Hlen1 Hlen2.
  assert (Hstore : forall h,
             store_signature sig2 (store_signature sig1 h)
             = store_signature sig2 h).
  { intros h. rewrite !store_signature_spec by assumption.
    now destruct h. }
  unfold bpak_pkg_sign, bpak_pkg_write_raw_signature.
  rewrite !write_header_keeps_header, !write_header_fp_keeps_header.
  cbn [set_header header]. rewrite Hstore.
  split; [reflexivity|]. split; [reflexivity|].
  rewrite (store_signature_spec sig2 _ Hlen2).
  split; reflexivity.
Qed.

(** ** Padding and sizes *)

(** X13: for a file size [st_size >= 0] and an alignment that the
    [pad_bytes] member can hold, the padding bpak_pkg_add_file records is
    the least one that completes the part to a multiple of
    BPAK_PART_ALIGN: it is below the alignment, zero exactly when the size
    is already aligned, and size plus padding is a multiple of it. *)
Theorem part_padding_aligns st_size :
  0 < BPAK_PART_ALIGN <= pad_bytes_modulus -> 0 <= st_size ->
  0 <= part_padding st_size < BPAK_PART_ALIGN /\
  (st_size + part_padding st_size) mod BPAK_PART_ALIGN = 0 /\
  (part_padding st_size = 0 <-> st_size mod BPAK_PART_ALIGN = 0).
Proof.
  intros Halign Hsize. unfold part_padding.
  rewrite Z.rem_mod_nonneg by lia.
  pose proof (Z.mod_pos_bound st_size BPAK_PART_ALIGN ltac:(lia)) as Hm.
  destruct (st_size mod BPAK_PART_ALIGN =? 0) eqn:Hz; cbn [negb].
  - apply Z.eqb_eq in Hz. rewrite Z.add_0_r. repeat split; auto; lia.
  - apply Z.eqb_neq in Hz. rewrite Z.mod_small by lia.
    split; [lia|]. split; [|lia].
    rewrite (Z.div_mod st_size BPAK_PART_ALIGN) at 1 by lia.
    replace (BPAK_PART_ALIGN * (st_size / BPAK_PART_ALIGN)
             + st_size mod BPAK_PART_ALIGN
             + (BPAK_PART_ALIGN - st_size mod BPAK_PART_ALIGN))
      with ((st_size / BPAK_PART_ALIGN + 1) * BPAK_PART_ALIGN) by lia.
    apply Z.mod_mul. lia.
Qed.


(** ** What bpak_pkg_add_file puts on the stream *)

Lemma stream_put_app s a b :
  0 <= s_pos s ->
  snd (stream_put (snd (stream_put s a)) b) = snd (stream_put s (a ++ b)).
Proof.
  intros Hpos. unfold stream_put. cbn [snd s_data s_pos].
  set (p := Z.to_nat (s_pos s)). set (D := s_data s).
  set (before := take p D ++ zeros (p - length D)).
  assert (Hbefore : length before = p).
  { subst before. rewrite length_app, length_take, length_zeros. lia. }
  replace (Z.to_nat (s_pos s + Z.of_nat (length a))) with (p + length a)%nat
    by lia.
  f_equal; [|rewrite length_app; lia].
  rewrite (app_assoc before a).
  assert (Hba : length (before ++ a) = (p + length a)%nat)
    by (rewrite length_app; lia).
  rewrite <- Hba at 1. rewrite take_app_length.
  assert (Hdrop : drop (p + length a + length b)
                    ((before ++ a) ++ drop (p + length a) D)
                  = drop (p + length (a ++ b)) D).
  { rewrite <- Hba at 1. rewrite drop_app_add, drop_drop, length_app.
    f_equal. lia. }
  rewrite Hdrop.
  replace (p + length a - length ((before ++ a) ++ drop (p + length a) D))%nat
    with 0%nat by (rewrite length_app; lia).
  change (zeros 0) with (@nil byte). rewrite app_nil_r.
  now rewrite <- !app_assoc.
Qed.

(** Two writes in a row are one write of the two buffers. *)
Lemma stream_write_app s a b :
  0 <= s_pos s ->
  snd (stream_write (snd (stream_write s a)) b) = snd (stream_write s (a ++ b)).
Proof.
  intros Hpos. destruct a as [|x a]; [reflexivity|].
  destruct b as [|y b]; [now rewrite app_nil_r|].
  apply (stream_put_app s (x :: a) (y :: b) Hpos).
Qed.

Lemma stream_write_pos s a :
  s_pos (snd (stream_write s a)) = s_pos s + Z.of_nat (length a).
Proof. destruct a; cbn; [lia|reflexivity]. Qed.

(** A write at the end of the data appends. *)
Lemma stream_write_at_end d a :
  snd (stream_write (mk_stream d (Z.of_nat (length d))) a)
  = mk_stream (d ++ a) (Z.of_nat (length (d ++ a))).
Proof.
  destruct a as [|x a]; [cbn; now rewrite app_nil_r|].
  unfold stream_write, stream_put. cbn [snd s_data s_pos].
  rewrite Nat2Z.id, take_ge, drop_ge, Nat.sub_diag, app_nil_r by lia.
  change (zeros 0) with (@nil byte). rewrite app_nil_r.
  f_equal. rewrite length_app. lia.
Qed.

(** With an input that holds exactly [bytes_to_write] bytes the copy loop
    has the effect of one write of all of them. *)
Lemma copy_loop_writes_input fuel : forall bytes_to_write in_fp out_fp,
  0 <= s_pos in_fp -> 0 <= s_pos out_fp ->
  available in_fp = bytes_to_write -> bytes_to_write < 2 ^ 64 ->
  (Z.to_nat ((bytes_to_write + 511) / 512) <= fuel)%nat ->
  exists in_fp',
    copy_loop fuel bytes_to_write in_fp out_fp
      = Some (BPAK_OK, in_fp',
              snd (stream_write out_fp
                     (drop (Z.to_nat (s_pos in_fp)) (s_data in_fp)))).
Proof.
  induction fuel as [|fuel IH];
    intros btw in_fp out_fp Hpos Hout Hav Hlt Hfuel.
  { assert (0 <= available in_fp) by (unfold available; lia).
    assert (btw = 0).
    { destruct (Z.eq_dec btw 0) as [|Hne]; [assumption|].
      assert (1 <= (btw + 511) / 512)
        by (apply Z.div_le_lower_bound; lia). lia. }
    subst btw. rewrite H0. cbn [copy_loop Z.eqb].
    unfold available in H0.
    assert (Hnil : drop (Z.to_nat (s_pos in_fp)) (s_data in_fp) = [])
      by (apply length_zero_iff_nil; lia).
    rewrite Hnil. cbn. eauto. }
  assert (0 <= available in_fp) by (unfold available; lia).
  destruct (Z.eq_dec btw 0) as [->|Hne].
  { unfold available in Hav.
    assert (Hnil : drop (Z.to_nat (s_pos in_fp)) (s_data in_fp) = [])
      by (apply length_zero_iff_nil; lia).
    rewrite Hnil. cbn. eauto. }
  rewrite copy_loop_step by exact Hne.
  destruct (fread_chunk in_fp CHUNK_BUFFER_SIZE Hpos) as [Hrd Hav'];
    [unfold CHUNK_BUFFER_SIZE; lia|].
  rewrite Hrd. cbn [fst snd].
  rewrite length_take, length_drop. fold (available in_fp).
  unfold CHUNK_BUFFER_SIZE in *.
  assert (Hk : Z.of_nat (Z.to_nat 512 `min` (length (s_data in_fp)
                          - Z.to_nat (s_pos in_fp)))
               = Z.min 512 (available in_fp)).
  { unfold available. rewrite length_drop. lia. }
  rewrite Hk. unfold wrap64. rewrite Z.mod_small by lia.
  edestruct (IH (btw - Z.min 512 (available in_fp))
               (mk_stream (s_data in_fp)
                  (s_pos in_fp + Z.min 512 (available in_fp)))
               (snd (fwrite out_fp
                       (take (Z.to_nat 512)
                          (drop (Z.to_nat (s_pos in_fp)) (s_data in_fp))))))
    as (in_fp' & ->).
  - cbn [s_pos]. lia.
  - unfold fwrite. rewrite stream_write_pos. lia.
  - rewrite Hav'. lia.
  - lia.
  - destruct (Z.le_gt_cases btw 512) as [Hle|Hgt].
    + rewrite Z.min_r by lia. replace (btw - available in_fp) with 0 by lia.
      rewrite Z.div_small by lia. lia.
    + rewrite Z.min_l by lia.
      replace (btw - 512 + 511) with (btw + 511 + (-1) * 512) by lia.
      rewrite Z.div_add by lia.
      assert (1 <= (btw + 511) / 512) by (apply Z.div_le_lower_bound; lia).
      lia.
  - exists in_fp'. do 2 f_equal. unfold fwrite. cbn [s_data s_pos].
    rewrite stream_write_app by exact Hout. f_equal.
    replace (Z.to_nat (s_pos in_fp + Z.min 512 (available in_fp)))
      with (Z.to_nat (s_pos in_fp) + Z.to_nat (Z.min 512 (available in_fp)))%nat
      by lia.
    rewrite <- drop_drop.
    set (rest := drop (Z.to_nat (s_pos in_fp)) (s_data in_fp)).
    assert (Hrest : Z.of_nat (length rest) = available in_fp) by reflexivity.
    destruct (Z.le_gt_cases (available in_fp) 512) as [Hle|Hgt].
    + rewrite take_ge, drop_ge by lia. now rewrite app_nil_r.
    + rewrite Z.min_l by lia. now rewrite take_drop.
Qed.


Lemma fold_slots_span ps : forall acc,
  wrap64 acc = acc ->
  fold_left (fun acc p => wrap64 (acc + wrap64 (p_size p + p_pad_bytes p)))
    ps acc
  = wrap64 (acc + slots_span ps).
Proof.
  induction ps as [|p ps IH]; intros acc Hacc; cbn [fold_left slots_span foldr].
  - now rewrite Z.add_0_r.
  - rewrite IH by (unfold wrap64; apply Z.mod_mod; lia).
    fold (slots_span ps). unfold wrap64.
    rewrite Z.add_mod_idemp_l by lia.
    replace (acc + (p_size p + p_pad_bytes p) mod 2 ^ 64 + slots_span ps)
      with ((p_size p + p_pad_bytes p) mod 2 ^ 64 + (acc + slots_span ps))
      by lia.
    rewrite Z.add_mod_idemp_l by lia. f_equal. lia.
Qed.

Lemma next_part_offset_span h :
  next_part_offset h = wrap64 (BPAK_HEADER_SIZE + slots_span (parts h)).
Proof. apply fold_slots_span. reflexivity. Qed.

Lemma installed_size_span pkg :
  bpak_pkg_installed_size pkg = wrap64 (slots_span (parts (header pkg))).
Proof. apply (fold_slots_span (parts (header pkg)) 0). reflexivity. Qed.

Lemma next_part_offset_nonneg h : 0 <= next_part_offset h.
Proof.
  rewrite next_part_offset_span. unfold wrap64.
  apply Z.mod_pos_bound. lia.
Qed.

Lemma padding_bytes_0 : padding_bytes 0 = [].
Proof. reflexivity. Qed.

(** The padding step: a write of [padding_bytes pad], which for [pad = 0] is
    no write at all. *)
Lemma add_file_padding_step pkg2 pad :
  0 <= pad ->
  (if negb (pad =? 0)
   then let '(n, fp3) := fwrite (io pkg2) (padding_bytes pad) in
        (n =? pad, set_io fp3 pkg2)
   else (true, pkg2))
  = (true, set_io (snd (stream_write (io pkg2) (padding_bytes pad))) pkg2).
Proof.
  intros Hpad. destruct (pad =? 0) eqn:Hz; cbn [negb].
  - apply Z.eqb_eq in Hz. subst pad. rewrite padding_bytes_0.
    now destruct pkg2.
  - unfold fwrite.
    pose proof (stream_write_count (io pkg2) (padding_bytes pad)) as Hc.
    destruct (stream_write _ _) as [n fp3]. cbn [fst snd] in *.
    now rewrite Hc, length_padding_bytes, Z.eqb_refl by exact Hpad.
Qed.

(** bpak_pkg_add_file up to the refresh of the payload hash: the part is
    entered in slot [i], and the stream has received the file and the padding
    as one write at [next_part_offset]. *)
Lemma add_file_until_hash fuel fs pkg filename part_name flags data st_size i :
  fs filename = Some (mk_file st_size data) ->
  Z.of_nat (length data) = st_size -> st_size < 2 ^ 64 ->
  0 <= part_padding st_size ->
  bpak_add_part (header pkg) (bpak_id part_name) = (BPAK_OK, Some i) ->
  (Z.to_nat ((st_size + 511) / 512) <= fuel)%nat ->
  bpak_pkg_add_file fuel fs pkg filename part_name flags =
    match bpak_pkg_update_payload_hash
            (mk_package
               (snd (stream_write
                       (mk_stream (s_data (io pkg))
                          (next_part_offset (header pkg)))
                       (data ++ padding_bytes (part_padding st_size))))
               (set_parts
                  (alter (fill_part (bpak_id part_name)
                            (next_part_offset (header pkg)) flags st_size)
                     i (parts (header pkg))) (header pkg))
               (header_location pkg)) with
    | None => None
    | Some (rc', pkg4) =>
        if negb (is_ok rc') then Some (BPAK_FAILED, pkg4)
        else Some (bpak_pkg_write_header_fp pkg4)
    end.
Proof.
  intros Hfs Hlen Hlt Hpad Hadd Hfuel.
  pose proof (next_part_offset_nonneg (header pkg)) as Hoff.
  unfold bpak_pkg_add_file, stat. rewrite Hfs.
  cbn [fmap option_fmap option_map f_st_size]. rewrite Hadd.
  unfold fseek at 1.
  destruct (next_part_offset (header pkg) <? 0) eqn:Hneg;
    [apply Z.ltb_lt in Hneg; lia|].
  cbn [Z.eqb negb].
  unfold fopen. rewrite Hfs.
  cbn [fmap option_fmap option_map f_data fp_stream].
  assert (Hw : wrap64 st_size = st_size) by (apply Z.mod_small; lia).
  rewrite Hw.
  edestruct (copy_loop_writes_input fuel st_size (mk_stream data 0)
               (mk_stream (s_data (io (set_header
                    (set_parts
                       (alter (fill_part (bpak_id part_name)
                                 (next_part_offset (header pkg)) flags st_size)
                          i (parts (header pkg))) (header pkg)) pkg)))
                  (next_part_offset (header pkg))))
    as (in_fp' & ->); cbn [s_pos]; try eassumption; try lia.
  cbn [is_ok bpak_errors_eqb negb s_pos s_data]. rewrite ?drop_0.
  unfold add_file_finish. rewrite add_file_padding_step by exact Hpad.
  cbn [negb set_io set_header io header header_location].
  rewrite stream_write_app by (cbn [s_pos]; lia).
  reflexivity.
Qed.

(** The whole of a successful bpak_pkg_add_file on an archive with the
    header in front. *)
Lemma add_file_ok_run fuel fs pkg filename part_name flags data st_size i
    ctx size' :
  fs filename = Some (mk_file st_size data) ->
  Z.of_nat (length data) = st_size -> st_size < 2 ^ 64 ->
  0 <= part_padding st_size ->
  header_location pkg = BPAK_HEADER_POS_FIRST ->
  bpak_add_part (header pkg) (bpak_id part_name) = (BPAK_OK, Some i) ->
  hash_begin (hash_kind (header pkg)) BPAK_PAYLOAD_HASH_BYTES
    = inr (ctx, size') ->
  (Z.to_nat ((st_size + 511) / 512) <= fuel)%nat ->
  let written :=
    snd (stream_write
           (mk_stream (s_data (io pkg)) (next_part_offset (header pkg)))
           (data ++ padding_bytes (part_padding st_size))) in
  let h1 :=
    set_parts
      (alter (fill_part (bpak_id part_name) (next_part_offset (header pkg))
                flags st_size) i (parts (header pkg))) (header pkg) in
  exists s,
    hash_parts (parts h1)
      (hash_start (mk_package written h1 BPAK_HEADER_POS_FIRST) ctx)
      = Some s /\
    bpak_pkg_add_file fuel fs pkg filename part_name flags =
      Some (BPAK_OK,
            mk_package
              (mk_stream
                 (header_image
                    (set_payload_hash
                       (md_finish (hs_ctx s) (payload_hash (header pkg))) h1)
                  ++ drop (Z.to_nat BPAK_HEADER_SIZE) (s_data written))
                 BPAK_HEADER_SIZE)
              (set_payload_hash
                 (md_finish (hs_ctx s) (payload_hash (header pkg))) h1)
              BPAK_HEADER_POS_FIRST).
Proof.
  intros Hfs Hlen Hlt Hpad Hloc Hadd Hb Hfuel written h1.
  rewrite (add_file_until_hash fuel fs pkg filename part_name flags data
             st_size i Hfs Hlen Hlt Hpad Hadd Hfuel).
  fold written. fold h1. rewrite Hloc.
  unfold bpak_pkg_update_payload_hash.
  destruct (compute_payload_hash_ok
              (mk_package written h1 BPAK_HEADER_POS_FIRST)
              (payload_hash (header (mk_package written h1
                                       BPAK_HEADER_POS_FIRST)))
              BPAK_PAYLOAD_HASH_BYTES ctx size') as (s & Hs & ->).
  { cbn [header]. subst h1. now destruct (header pkg). }
  exists s. split; [exact Hs|].
  cbn [hr_rc hr_pkg hr_output is_ok bpak_errors_eqb negb].
  rewrite write_header_fp_first by reflexivity.
  cbn [set_io set_header header io header_location].
  rewrite (hash_parts_keeps_data _ _ _ Hs), hash_start_data.
  cbn [io]. do 4 f_equal.
Qed.


(** X14: a successful bpak_pkg_add_file, seen from outside (header in front,
    a file whose size is what stat reported, enough turns of the copy loop).
    The 512-byte copies and the padding write amount to ONE write of the
    file's bytes followed by the padding at the offset computed from the
    part table; after it the header image is written over the first 4096
    bytes and the cursor is left behind it.  In the header only the slot
    handed out by bpak_add_part and the payload hash change. *)
Theorem add_file_is_one_write_then_header fuel fs pkg filename part_name
    flags data st_size i ctx size' :
  fs filename = Some (mk_file st_size data) ->
  Z.of_nat (length data) = st_size -> st_size < 2 ^ 64 ->
  0 <= part_padding st_size ->
  header_location pkg = BPAK_HEADER_POS_FIRST ->
  bpak_add_part (header pkg) (bpak_id part_name) = (BPAK_OK, Some i) ->
  hash_begin (hash_kind (header pkg)) BPAK_PAYLOAD_HASH_BYTES
    = inr (ctx, size') ->
  (Z.to_nat ((st_size + 511) / 512) <= fuel)%nat ->
  exists pkg',
    bpak_pkg_add_file fuel fs pkg filename part_name flags
      = Some (BPAK_OK, pkg') /\
    parts (header pkg')
      = alter (fill_part (bpak_id part_name) (next_part_offset (header pkg))
                 flags st_size) i (parts (header pkg)) /\
    set_payload_hash (payload_hash (header pkg))
      (set_parts (parts (header pkg)) (header pkg')) = header pkg /\
    s_data (io pkg')
      = header_image (header pkg')
        ++ drop (Z.to_nat BPAK_HEADER_SIZE)
             (s_data
                (snd (stream_write
                        (mk_stream (s_data (io pkg))
                           (next_part_offset (header pkg)))
                        (data ++ padding_bytes (part_padding st_size))))) /\
    s_pos (io pkg') = BPAK_HEADER_SIZE /\
    header_location pkg' = BPAK_HEADER_POS_FIRST.
Proof.
  intros Hfs Hlen Hlt Hpad Hloc Hadd Hb Hfuel.
  destruct (add_file_ok_run fuel fs pkg filename part_name flags data
              st_size i ctx size' Hfs Hlen Hlt Hpad Hloc Hadd Hb Hfuel)
    as (s & _ & Hrun).
  eexists. split; [exact Hrun|].
  cbn [header io s_data s_pos header_location parts set_payload_hash
       set_parts].
  split; [reflexivity|]. split; [now destruct (header pkg)|].
  repeat split.
Qed.

Lemma slots_span_alter f ps : forall i p,
  ps !! i = Some p ->
  slots_span (alter f i ps)
  = slots_span ps - (p_size p + p_pad_bytes p)
    + (p_size (f p) + p_pad_bytes (f p)).
Proof.
  induction ps as [|q ps IH]; intros [|i] p Hp; try discriminate.
  - injection Hp as ->. cbn [alter list_alter slots_span foldr]. lia.
  - cbn [alter list_alter slots_span foldr].
    fold (slots_span ps). fold (slots_span (alter f i ps)).
    rewrite (IH i p Hp). lia.
Qed.

(** What a write put down is what a read at the same place returns. *)
Lemma stream_write_reads_back d pos a :
  0 <= pos ->
  take (length a)
    (drop (Z.to_nat pos) (s_data (snd (stream_write (mk_stream d pos) a))))
  = a.
Proof.
  intros Hpos. destruct a as [|x a]; [reflexivity|].
  unfold stream_write, stream_put. cbn [snd s_data s_pos].
  set (before := take (Z.to_nat pos) d ++ zeros (Z.to_nat pos - length d)).
  assert (Hbefore : length before = Z.to_nat pos).
  { subst before. rewrite length_app, length_take, length_zeros. lia. }
  rewrite <- Hbefore at 1. rewrite drop_app_length.
  now rewrite take_app_length.
Qed.

(** X15: bpak_pkg_add_file on an archive that ends where its part table
    says (the file is as long as the header plus the sizes and paddings of
    the slots) and whose handed-out slot was clean.  The old payload is
    not touched, the file's bytes and then the padding are appended, and the
    header is rewritten in front; the bytes of the file are found at the
    offset the new part records; and the archive again ends where its part
    table says, so the next bpak_pkg_add_file appends in turn. *)
Theorem add_file_appends_and_keeps_layout fuel fs pkg filename part_name
    flags data st_size i p ctx size' :
  fs filename = Some (mk_file st_size data) ->
  Z.of_nat (length data) = st_size ->
  0 <= part_padding st_size ->
  header_location pkg = BPAK_HEADER_POS_FIRST ->
  bpak_add_part (header pkg) (bpak_id part_name) = (BPAK_OK, Some i) ->
  parts (header pkg) !! i = Some p -> slot_unused p ->
  BPAK_HEADER_SIZE <= stream_end (io pkg) ->
  next_part_offset (header pkg) = stream_end (io pkg) ->
  stream_end (io pkg) + st_size + part_padding st_size < 2 ^ 64 ->
  hash_begin (hash_kind (header pkg)) BPAK_PAYLOAD_HASH_BYTES
    = inr (ctx, size') ->
  (Z.to_nat ((st_size + 511) / 512) <= fuel)%nat ->
  exists pkg' part,
    bpak_pkg_add_file fuel fs pkg filename part_name flags
      = Some (BPAK_OK, pkg') /\
    take (Z.to_nat BPAK_HEADER_SIZE) (s_data (io pkg'))
      = header_image (header pkg') /\
    drop (Z.to_nat BPAK_HEADER_SIZE) (s_data (io pkg'))
      = drop (Z.to_nat BPAK_HEADER_SIZE) (s_data (io pkg))
        ++ data ++ padding_bytes (part_padding st_size) /\
    parts (header pkg') !! i = Some part /\
    p_offset part = stream_end (io pkg) /\
    p_size part = st_size /\
    take (Z.to_nat (p_size part))
      (drop (Z.to_nat (p_offset part)) (s_data (io pkg'))) = data /\
    next_part_offset (header pkg') = stream_end (io pkg').
Proof.
  intros Hfs Hlen Hpad Hloc Hadd Hslot (_ & Hsz & Hpb) Hfront Hinv Hroom
    Hb Hfuel.
  assert (Hlt : st_size < 2 ^ 64) by (unfold stream_end in *; lia).
  destruct (add_file_ok_run fuel fs pkg filename part_name flags data
              st_size i ctx size' Hfs Hlen Hlt Hpad Hloc Hadd Hb Hfuel)
    as (s & _ & Hrun).
  rewrite Hinv in Hrun.
  change (stream_end (io pkg))
    with (Z.of_nat (length (s_data (io pkg)))) in Hrun.
  rewrite stream_write_at_end in Hrun. cbn [s_data] in Hrun.
  assert (Hw : wrap64 st_size = st_size) by (apply Z.mod_small; lia).
  assert (Hd : (Z.to_nat BPAK_HEADER_SIZE <= length (s_data (io pkg)))%nat)
    by (unfold stream_end in Hfront; lia).
  eexists. exists (fill_part (bpak_id part_name)
                     (Z.of_nat (length (s_data (io pkg)))) flags st_size p).
  split; [exact Hrun|].
  cbn [header io s_data s_pos header_location parts set_payload_hash
       set_parts].
  split.
  { rewrite take_app_length';
      [reflexivity|symmetry; apply header_image_length]. }
  split.
  { rewrite drop_app_length' by (symmetry; apply header_image_length).
    now rewrite drop_app_le by exact Hd. }
  split.
  { rewrite list_lookup_alter_eq, Hslot. reflexivity. }
  cbn [fill_part p_offset p_size]. rewrite Hw.
  split; [reflexivity|]. split; [reflexivity|].
  split.
  { rewrite (drop_app_le (s_data (io pkg)) _ (Z.to_nat BPAK_HEADER_SIZE))
      by exact Hd.
    rewrite app_assoc, Nat2Z.id.
    rewrite drop_app_length' by
      (rewrite length_app, length_drop, header_image_length; lia).
    rewrite <- Hlen, Nat2Z.id. apply take_app_length. }
  rewrite next_part_offset_span.
  cbn [parts set_payload_hash set_parts].
  rewrite (slots_span_alter _ _ i p Hslot).
  cbn [fill_part p_size p_pad_bytes]. rewrite Hw, Hsz, Hpb.
  rewrite next_part_offset_span in Hinv. unfold wrap64 in *.
  replace (BPAK_HEADER_SIZE
           + (slots_span (parts (header pkg)) - (0 + 0)
              + (st_size + part_padding st_size)))
    with ((BPAK_HEADER_SIZE + slots_span (parts (header pkg)))
          + (st_size + part_padding st_size)) by lia.
  rewrite <- Z.add_mod_idemp_l, Hinv by lia.
  unfold stream_end in *. cbn [s_data].
  rewrite length_app, length_drop, !length_app, header_image_length.
  pose proof (length_padding_bytes _ Hpad) as Hpl.
  unfold BPAK_HEADER_SIZE in *.
  rewrite Z.mod_small by lia. lia.
Qed.


Lemma hash_parts_unused ps : forall s,
  Forall slot_unused ps -> hash_parts ps s = Some s.
Proof.
  induction ps as [|p ps IH]; intros s Hall; [reflexivity|].
  inversion Hall as [|? ? (Hid & _) Hps]; subst.
  cbn [hash_parts]. rewrite Hid. cbn [Z.eqb]. now apply IH.
Qed.

Lemma stream_write_end_ge d pos a :
  0 <= pos <= Z.of_nat (length d) ->
  pos + Z.of_nat (length a)
  <= stream_end (snd (stream_write (mk_stream d pos) a)).
Proof.
  intros Hpos. unfold stream_end. destruct a as [|x a].
  - cbn. lia.
  - unfold stream_write, stream_put. cbn [snd s_data s_pos].
    rewrite !length_app, length_take, length_zeros. lia.
Qed.

(** X16: the payload hash bpak_pkg_add_file stores for the first part of a
    fresh archive (every slot unused, header in front and present on the
    stream), for a part name whose id is not 0 and flags without the
    TRANSPORT bit.  Without the EXCLUDE_FROM_HASH bit the digest is that of
    exactly the file's bytes: the padding written behind them does not enter
    it.  With the bit it is the digest of the empty message.  The digest
    replaces the first bytes of the old payload hash field. *)
Theorem add_file_hashes_the_file fuel fs pkg filename part_name flags data
    st_size p0 rest ctx size' :
  fs filename = Some (mk_file st_size data) ->
  Z.of_nat (length data) = st_size -> st_size < 2 ^ 64 ->
  0 <= part_padding st_size ->
  header_location pkg = BPAK_HEADER_POS_FIRST ->
  BPAK_HEADER_SIZE <= stream_end (io pkg) ->
  parts (header pkg) = p0 :: rest -> Forall slot_unused (p0 :: rest) ->
  bpak_id part_name <> 0 ->
  Z.land flags BPAK_FLAG_TRANSPORT = 0 ->
  hash_begin (hash_kind (header pkg)) BPAK_PAYLOAD_HASH_BYTES
    = inr (ctx, size') ->
  (Z.to_nat ((st_size + 511) / 512) <= fuel)%nat ->
  exists pkg',
    bpak_pkg_add_file fuel fs pkg filename part_name flags
      = Some (BPAK_OK, pkg') /\
    payload_hash (header pkg')
      = memcpy (payload_hash (header pkg))
          (resize (md_len (md_kind ctx)) x00
             (digest (md_kind ctx)
                (if Z.land flags BPAK_FLAG_EXCLUDE_FROM_HASH =? 0
                 then data else []))).
Proof.
  intros Hfs Hlen Hlt Hpad Hloc Hfront Hparts Hall Hid Htr Hb Hfuel.
  pose proof (add_part_fresh _ (bpak_id part_name) _ _ Hparts Hall) as Hadd.
  destruct (add_file_ok_run fuel fs pkg filename part_name flags data
              st_size 0%nat ctx size' Hfs Hlen Hlt Hpad Hloc Hadd Hb Hfuel)
    as (s & Hs & Hrun).
  eexists. split; [exact Hrun|].
  cbn [header payload_hash set_payload_hash]. clear Hrun.
  assert (Hoff : next_part_offset (header pkg) = BPAK_HEADER_SIZE).
  { unfold next_part_offset. rewrite Hparts.
    apply sum_unused_slots; [exact Hall|]. unfold BPAK_HEADER_SIZE. lia. }
  rewrite Hoff, Hparts in Hs.
  rewrite hash_start_first in Hs by reflexivity.
  cbn [alter list_alter parts set_parts io hash_parts] in Hs.
  set (W := snd (stream_write
                   (mk_stream (s_data (io pkg)) BPAK_HEADER_SIZE)
                   (data ++ padding_bytes (part_padding st_size)))) in *.
  assert (Hw : wrap64 st_size = st_size) by (apply Z.mod_small; lia).
  inversion Hall as [|? ? _ Hrest]; subst x l.
  assert (Hsize : bpak_part_size
                    (fill_part (bpak_id part_name) BPAK_HEADER_SIZE flags
                       (Z.of_nat (length data)) p0)
                  = Z.of_nat (length data)).
  { unfold bpak_part_size. cbn [fill_part p_flags p_size].
    rewrite Htr. cbn [Z.eqb]. rewrite Hlen. now rewrite Hw, <- Hlen. }
  rewrite <- Hlen in Hs.
  cbn [fill_part p_id p_flags] in Hs. fold (fill_part (bpak_id part_name)
    BPAK_HEADER_SIZE flags (Z.of_nat (length data)) p0) in Hs.
  destruct (bpak_id part_name =? 0) eqn:Hz;
    [apply Z.eqb_eq in Hz; contradiction|].
  pose proof (hash_begin_fresh _ _ _ _ Hb) as Hfresh.
  unfold md_finish.
  destruct (Z.land flags BPAK_FLAG_EXCLUDE_FROM_HASH =? 0) eqn:Hex;
    cbn [negb] in Hs.
  - rewrite Hsize in Hs.
    destruct (hash_chunks_in_bounds (hash_chunks_fuel (Z.of_nat (length data)))
                (Z.of_nat (length data))
                (mk_hash_state (mk_stream (s_data W) BPAK_HEADER_SIZE)
                   (resize (Z.to_nat HASH_BUFFER_SIZE) x00 hash_buffer_init)
                   ctx))
      as (s1 & fed & Hrun1 & _ & _ & Hfed & Hcat & _);
      cbn [hs_io hs_buffer s_pos s_data].
    + lia.
    + unfold BPAK_HEADER_SIZE. lia.
    + pose proof (stream_write_end_ge (s_data (io pkg)) BPAK_HEADER_SIZE
                    (data ++ padding_bytes (part_padding st_size))) as Hge.
      fold W in Hge. unfold stream_end in *. cbn [s_data].
      rewrite length_app in Hge. unfold BPAK_HEADER_SIZE in *. lia.
    + apply length_resize.
    + unfold hash_chunks_fuel. lia.
    + rewrite Hrun1, (hash_parts_unused _ _ Hrest) in Hs.
      injection Hs as <-. unfold feeds in Hfed. rewrite Hfed.
      cbn [md_kind hs_ctx]. unfold md_message. cbn [md_fed].
      rewrite Hfresh, app_nil_l, Hcat. cbn [hs_io s_pos s_data].
      rewrite Nat2Z.id.
      pose proof (stream_write_reads_back (s_data (io pkg)) BPAK_HEADER_SIZE
                    (data ++ padding_bytes (part_padding st_size))
                    ltac:(unfold BPAK_HEADER_SIZE; lia)) as Hback.
      fold W in Hback.
      apply (f_equal (take (length data))) in Hback.
      rewrite take_take, length_app, take_app_length in Hback.
      rewrite Nat.min_l in Hback by lia.
      now rewrite Hback.
  - rewrite (hash_parts_unused _ _ Hrest) in Hs. injection Hs as <-.
    cbn [hs_ctx]. unfold md_message. now rewrite Hfresh.
Qed.

Lemma stream_write_keeps_prefix d pos a n :
  (n <= Z.to_nat pos)%nat -> (n <= length d)%nat ->
  take n (s_data (snd (stream_write (mk_stream d pos) a))) = take n d.
Proof.
  intros Hn Hd. destruct a as [|x a]; [reflexivity|].
  unfold stream_write, stream_put. cbn [snd s_data s_pos].
  rewrite <- app_assoc.
  rewrite take_app_le by (rewrite length_take; lia).
  rewrite take_take. f_equal. lia.
Qed.

(** X17: bpak_pkg_add_file on an archive whose hash kind is not supported.
    The failure is found only when the payload hash is refreshed, after the
    part was entered and the file copied: the call returns FAILED, the
    header in memory carries the new part, the stream has received the file
    and the padding, and no header is written -- the first 4096 bytes of the
    stream are the old ones (for an archive that holds its header and whose
    parts start behind it). *)
Theorem add_file_unsupported_hash_kind fuel fs pkg filename part_name flags
    data st_size i rc :
  fs filename = Some (mk_file st_size data) ->
  Z.of_nat (length data) = st_size -> st_size < 2 ^ 64 ->
  0 <= part_padding st_size ->
  bpak_add_part (header pkg) (bpak_id part_name) = (BPAK_OK, Some i) ->
  hash_begin (hash_kind (header pkg)) BPAK_PAYLOAD_HASH_BYTES = inl rc ->
  (Z.to_nat ((st_size + 511) / 512) <= fuel)%nat ->
  exists pkg',
    bpak_pkg_add_file fuel fs pkg filename part_name flags
      = Some (BPAK_FAILED, pkg') /\
    header pkg'
      = set_parts
          (alter (fill_part (bpak_id part_name)
                    (next_part_offset (header pkg)) flags st_size)
             i (parts (header pkg))) (header pkg) /\
    io pkg'
      = snd (stream_write
               (mk_stream (s_data (io pkg)) (next_part_offset (header pkg)))
               (data ++ padding_bytes (part_padding st_size))) /\
    (BPAK_HEADER_SIZE <= stream_end (io pkg) ->
     BPAK_HEADER_SIZE <= next_part_offset (header pkg) ->
     take (Z.to_nat BPAK_HEADER_SIZE) (s_data (io pkg'))
       = take (Z.to_nat BPAK_HEADER_SIZE) (s_data (io pkg))).
Proof.
  intros Hfs Hlen Hlt Hpad Hadd Hb Hfuel.
  rewrite (add_file_until_hash fuel fs pkg filename part_name flags data
             st_size i Hfs Hlen Hlt Hpad Hadd Hfuel).
  unfold bpak_pkg_update_payload_hash.
  rewrite (compute_payload_hash_err _ _ _ rc)
    by (cbn [header]; now destruct (header pkg)).
  cbn [hr_rc hr_pkg hr_output header].
  rewrite set_payload_hash_same. unfold set_header.
  cbn [io header_location].
  assert (Hrc : is_ok rc = false).
  { apply is_ok_false. intros ->.
    apply hash_begin_error_cases in Hb. destruct Hb; discriminate. }
  rewrite Hrc. cbn [negb].
  eexists. split; [reflexivity|]. cbn [header io].
  split; [reflexivity|]. split; [reflexivity|].
  intros Hfront Hoff. apply stream_write_keeps_prefix.
  - lia.
  - unfold stream_end in Hfront. lia.
Qed.


(** ** The size of the package and the reach of the payload hash *)

Lemma hash_parts_end_pos ps : forall s s',
  Forall (fun p => 0 <= bpak_part_size p) ps ->
  0 <= s_pos (hs_io s) ->
  s_pos (hs_io s) + payload_span ps <= stream_end (hs_io s) ->
  length (hs_buffer s) = Z.to_nat HASH_BUFFER_SIZE ->
  hash_parts ps s = Some s' ->
  s_pos (hs_io s') = s_pos (hs_io s) + payload_span ps.
Proof.
  induction ps as [|p ps IH]; intros s s' Hnn Hpos Hend Hbuf.
  { cbn. intros [= <-]. lia. }
  inversion Hnn as [|? ? Hp Hps]; subst.
  pose proof (payload_span_nonneg ps Hps) as Hspan.
  cbn [hash_parts payload_span foldr] in *. fold (payload_span ps) in *.
  unfold part_live in *.
  destruct (p_id p =? 0) eqn:Hid; cbn [negb] in *.
  { apply IH; assumption. }
  destruct (negb (Z.land (p_flags p) BPAK_FLAG_EXCLUDE_FROM_HASH =? 0)).
  - unfold bpak_io_seek.
    destruct (s_pos (hs_io s) + bpak_part_size p <? 0) eqn:Hlt;
      [apply Z.ltb_lt in Hlt; lia|].
    cbn [snd]. intros Hrun. apply IH in Hrun;
      cbn [hs_io hs_buffer s_pos s_data] in *; try assumption; try lia.
    unfold stream_end in *. cbn [s_data]. lia.
  - destruct (hash_chunks_in_bounds (hash_chunks_fuel (bpak_part_size p))
                (bpak_part_size p) s)
      as (s1 & fed1 & Hrun1 & Hio1 & Hb1 & _);
      try assumption; try lia.
    { unfold hash_chunks_fuel. lia. }
    rewrite Hrun1. intros Hrun. apply IH in Hrun;
      rewrite ?Hio1 in *; cbn [s_pos s_data] in *; try assumption; try lia.
    unfold stream_end in *. cbn [s_data]. lia.
Qed.

Lemma fold_pkg_size ps : forall acc,
  wrap64 acc = acc ->
  Forall (fun p => p_id p = 0 -> p_size p = 0 /\ p_transport_size p = 0) ps ->
  fold_left
    (fun acc p =>
       wrap64 (acc + (if negb (Z.land (p_flags p) BPAK_FLAG_TRANSPORT =? 0)
                      then p_transport_size p else p_size p)))
    ps acc
  = wrap64 (acc + payload_span ps).
Proof.
  induction ps as [|p ps IH]; intros acc Hacc Hall;
    cbn [fold_left payload_span foldr].
  - now rewrite Z.add_0_r.
  - inversion Hall as [|? ? Hp Hps]; subst.
    rewrite IH by (try assumption; unfold wrap64; apply Z.mod_mod; lia).
    fold (payload_span ps). unfold wrap64.
    rewrite Z.add_mod_idemp_l by lia. f_equal.
    unfold part_live, bpak_part_size.
    destruct (p_id p =? 0) eqn:Hid; cbn [negb].
    + apply Z.eqb_eq in Hid. destruct (Hp Hid) as [-> ->].
      destruct (negb _); lia.
    + destruct (Z.land (p_flags p) BPAK_FLAG_TRANSPORT =? 0); cbn [negb]; lia.
Qed.

(** X18: bpak_pkg_size and the payload hash agree on where the package
    ends.  For a package with the header in front, slots whose sizes are
    not negative and are zero where the id is zero, and a stream that holds
    the header and all the parts (and is shorter than 2^64 bytes), a
    successful bpak_pkg_compute_payload_hash leaves the stream cursor at
    exactly bpak_pkg_size: the hash has walked over every byte that
    bpak_pkg_size counts, and no further. *)
Theorem payload_hash_stops_at_pkg_size pkg output size r :
  header_location pkg = BPAK_HEADER_POS_FIRST ->
  Forall (fun p => 0 <= p_size p /\ 0 <= p_transport_size p /\
                   (p_id p = 0 -> p_size p = 0 /\ p_transport_size p = 0))
    (parts (header pkg)) ->
  BPAK_HEADER_SIZE + payload_span (parts (header pkg))
    <= stream_end (io pkg) < 2 ^ 64 ->
  bpak_pkg_compute_payload_hash pkg output size = Some r ->
  hr_rc r = BPAK_OK ->
  s_pos (io (hr_pkg r)) = bpak_pkg_size pkg /\
  bpak_pkg_size pkg <= stream_end (io pkg).
Proof.
  intros Hloc Hall Hend Hrun Hok.
  assert (Hnn : Forall (fun p => 0 <= bpak_part_size p) (parts (header pkg))).
  { eapply Forall_impl; [exact Hall|]. intros p (H1 & H2 & _).
    unfold bpak_part_size. destruct (_ =? 0); assumption. }
  assert (Hclean : Forall (fun p => p_id p = 0 ->
                              p_size p = 0 /\ p_transport_size p = 0)
                     (parts (header pkg))).
  { eapply Forall_impl; [exact Hall|]. intros p (_ & _ & H3). exact H3. }
  pose proof (payload_span_nonneg _ Hnn) as Hspan.
  assert (Hsize : bpak_pkg_size pkg
                  = BPAK_HEADER_SIZE + payload_span (parts (header pkg))).
  { unfold bpak_pkg_size.
    rewrite (fold_pkg_size _ 0 eq_refl Hclean).
    unfold wrap64, BPAK_HEADER_SIZE in *.
    rewrite Z.add_0_l, Z.add_mod_idemp_l by lia.
    rewrite Z.mod_small by lia. lia. }
  rewrite Hsize. split; [|lia].
  destruct (hash_begin (hash_kind (header pkg)) size)
    as [rc|[ctx size']] eqn:Hb.
  { rewrite (compute_payload_hash_err _ _ _ _ Hb) in Hrun.
    injection Hrun as <-. cbn [hr_rc] in Hok. subst rc.
    apply hash_begin_error_cases in Hb. destruct Hb; discriminate. }
  destruct (compute_payload_hash_ok pkg output size ctx size' Hb)
    as (s & Hs & Hrun').
  rewrite Hrun' in Hrun. injection Hrun as <-. cbn [hr_pkg set_io io].
  rewrite (hash_start_first _ _ Hloc) in Hs.
  assert (Hp0 : 0 <= BPAK_HEADER_SIZE) by (unfold BPAK_HEADER_SIZE; lia).
  assert (Hlen : length (resize (Z.to_nat HASH_BUFFER_SIZE) x00
                           hash_buffer_init) = Z.to_nat HASH_BUFFER_SIZE)
    by apply length_resize.
  match type of Hs with
  | hash_parts _ ?st = _ =>
      exact (hash_parts_end_pos _ st s Hnn Hp0 (proj1 Hend) Hlen Hs)
  end.
Qed.


(** ** The hooks of the transport decoder *)

(** X19: decode_write_output and decode_read_output (lib/pkg.c and
    part_001 alike) address the output stream at [output_offset + offset].
    When that position is not negative the write stores the whole buffer and
    returns its length, and a read of as many bytes at the same offset
    returns exactly the buffer; the other members of the private data are
    not changed.  When the position is negative both hooks return
    SEEK_ERROR and leave the private data as it was. *)
Theorem decode_output_write_then_read priv offset buffer :
  (0 <= output_offset priv + offset ->
   exists priv',
     decode_write_output priv offset buffer
       = (inr (Z.of_nat (length buffer)), priv') /\
     decode_write_output_fp priv offset buffer
       = (inr (Z.of_nat (length buffer)), priv') /\
     fst (decode_read_output priv' offset (Z.of_nat (length buffer)))
       = inr buffer /\
     fst (decode_read_output_fp priv' offset (Z.of_nat (length buffer)))
       = inr buffer /\
     origin_io priv' = origin_io priv /\
     origin_offset priv' = origin_offset priv /\
     output_offset priv' = output_offset priv) /\
  (output_offset priv + offset < 0 ->
   forall length,
     decode_write_output priv offset buffer = (inl BPAK_SEEK_ERROR, priv) /\
     decode_write_output_fp priv offset buffer
       = (inl BPAK_SEEK_ERROR, priv) /\
     decode_read_output priv offset length = (inl BPAK_SEEK_ERROR, priv) /\
     decode_read_output_fp priv offset length
       = (inl BPAK_SEEK_ERROR, priv)).
Proof.
  unfold decode_write_output, decode_write_output_fp, decode_read_output,
    decode_read_output_fp, bpak_io_seek, fseek, bpak_io_write, bpak_io_read,
    fwrite, fread.
  split.
  - intros Hpos.
    destruct (output_offset priv + offset <? 0) eqn:Hneg;
      [apply Z.ltb_lt in Hneg; lia|].
    cbn [is_ok bpak_errors_eqb negb Z.eqb].
    pose proof (stream_write_count
                  (mk_stream (s_data (output_io priv))
                     (output_offset priv + offset)) buffer) as Hc.
    pose proof (stream_write_reads_back (s_data (output_io priv))
                  (output_offset priv + offset) buffer Hpos) as Hback.
    destruct (stream_write _ buffer) as [n out] eqn:Hw.
    cbn [fst snd] in *. subst n.
    eexists. split; [reflexivity|]. split; [reflexivity|].
    cbn [set_output_io output_io output_offset origin_io origin_offset].
    rewrite Hneg. cbn [is_ok bpak_errors_eqb negb Z.eqb].
    unfold stream_read. cbn [s_data s_pos fst].
    rewrite Nat2Z.id, Hback. repeat split.
  - intros Hneg length. apply Z.ltb_lt in Hneg. rewrite Hneg.
    cbn [is_ok bpak_errors_eqb negb Z.eqb].
    now destruct priv.
Qed.

(** X20: decode_write_output_header (lib/pkg.c and part_001 alike) accepts
    a buffer of exactly 4096 bytes and nothing else.  Any other length is
    answered with SIZE_ERROR before the stream is touched.  A buffer of 4096
    bytes is written over the first 4096 bytes of the output stream,
    wherever [offset] and [output_offset] point; the bytes behind them are
    kept and 4096 is returned. *)
Theorem decode_write_output_header_effect priv offset buffer :
  (Z.of_nat (length buffer) <> BPAK_HEADER_SIZE ->
   decode_write_output_header priv offset buffer
     = (inl BPAK_SIZE_ERROR, priv) /\
   decode_write_output_header_fp priv offset buffer
     = (inl BPAK_SIZE_ERROR, priv)) /\
  (Z.of_nat (length buffer) = BPAK_HEADER_SIZE ->
   decode_write_output_header priv offset buffer
     = (inr BPAK_HEADER_SIZE,
        set_output_io
          (mk_stream
             (buffer ++ drop (Z.to_nat BPAK_HEADER_SIZE)
                          (s_data (output_io priv)))
             BPAK_HEADER_SIZE) priv) /\
   decode_write_output_header_fp priv offset buffer
     = decode_write_output_header priv offset buffer).
Proof.
  unfold decode_write_output_header, decode_write_output_header_fp.
  split.
  - intros Hne. apply Z.eqb_neq in Hne. now rewrite Hne.
  - intros Hlen. rewrite Hlen, Z.eqb_refl. cbn [negb].
    unfold bpak_io_seek, fseek, bpak_io_write, fwrite.
    cbn [Z.ltb Z.compare is_ok bpak_errors_eqb negb Z.eqb].
    rewrite stream_write_put by (unfold BPAK_HEADER_SIZE in Hlen; lia).
    unfold stream_put. cbn [s_data s_pos].
    rewrite Hlen. change (Z.to_nat 0) with 0%nat.
    cbn [take Nat.sub Nat.add]. change (zeros 0) with (@nil byte).
    cbn [app].
    replace (length buffer) with (Z.to_nat BPAK_HEADER_SIZE) by lia.
    split; reflexivity.
Qed.

(** ** Reading the payload on a FILE stream *)

(** X21: pkg_read_payload (part_001) delivers all of the requested range
    or an error.  It returns [length] with the bytes of the range exactly
    when the range [offset, offset + length) lies inside the file or is
    empty; a negative offset gives SEEK_ERROR with nothing read; a range
    that is not empty and reaches past the end gives READ_ERROR, after the
    bytes up to the end of the file have been stored in the buffer.  The
    file's data is never changed. *)
Theorem pkg_read_payload_all_or_error fp offset length :
  0 <= length ->
  (0 <= offset -> offset + length <= stream_end fp \/ length = 0 ->
   pkg_read_payload fp offset length
     = (inr length,
        take (Z.to_nat length) (drop (Z.to_nat offset) (s_data fp)),
        mk_stream (s_data fp) (offset + length))) /\
  (offset < 0 ->
   pkg_read_payload fp offset length = (inl BPAK_SEEK_ERROR, [], fp)) /\
  (0 <= offset -> 0 < length -> stream_end fp < offset + length ->
   pkg_read_payload fp offset length
     = (inl BPAK_READ_ERROR, drop (Z.to_nat offset) (s_data fp),
        mk_stream (s_data fp)
          (offset
           + Z.of_nat (List.length (drop (Z.to_nat offset) (s_data fp)))))).
Proof.
  intros Hlen. unfold pkg_read_payload, fseek, fread, stream_read, stream_end.
  split; [|split].
  - intros Hoff Hend.
    destruct (offset <? 0) eqn:Hneg; [apply Z.ltb_lt in Hneg; lia|].
    cbn [Z.eqb negb s_data s_pos].
    assert (Hgot : Z.of_nat (List.length
                     (take (Z.to_nat length)
                        (drop (Z.to_nat offset) (s_data fp)))) = length).
    { rewrite length_take, length_drop. lia. }
    rewrite Hgot, Z.eqb_refl. reflexivity.
  - intros Hneg. apply Z.ltb_lt in Hneg. now rewrite Hneg.
  - intros Hoff Hpos Hend.
    destruct (offset <? 0) eqn:Hneg; [apply Z.ltb_lt in Hneg; lia|].
    cbn [Z.eqb negb s_data s_pos].
    rewrite take_ge by (rewrite length_drop; lia).
    destruct (_ =? length) eqn:Heq; [|reflexivity].
    apply Z.eqb_eq in Heq. rewrite length_drop in Heq. lia.
Qed.

(** ** The array behind the hash tree *)

(** X22: merkle_wr and merkle_rd (lib/pkg_create.c) on a range inside the
    array: what merkle_wr stored is what merkle_rd returns for the same
    range, the array keeps its length, and a range that does not overlap
    the written one reads as before. *)
Theorem merkle_wr_then_rd offset buf data :
  0 <= offset -> offset + Z.of_nat (length buf) <= Z.of_nat (length data) ->
  exists data',
    merkle_wr offset buf data = Returned (Z.of_nat (length buf), data') /\
    length data' = length data /\
    merkle_rd offset (Z.of_nat (length buf)) data'
      = Returned (Z.of_nat (length buf), buf) /\
    (forall offset2 size2,
        0 <= offset2 -> 0 <= size2 ->
        offset2 + size2 <= offset
        \/ offset + Z.of_nat (length buf) <= offset2 ->
        merkle_rd offset2 size2 data' = merkle_rd offset2 size2 data).
Proof.
  intros Hoff Hend. unfold merkle_wr.
  destruct (0 <=? offset) eqn:H0; [|apply Z.leb_gt in H0; lia].
  destruct (offset + Z.of_nat (length buf) <=? Z.of_nat (length data))
    eqn:H1; [|apply Z.leb_gt in H1; lia].
  cbn [andb]. eexists. split; [reflexivity|].
  set (data' := take (Z.to_nat offset) data ++ buf
                ++ drop (Z.to_nat offset + length buf) data).
  assert (Hlen' : length data' = length data).
  { subst data'. rewrite !length_app, length_take, length_drop. lia. }
  split; [exact Hlen'|].
  assert (Htake : length (take (Z.to_nat offset) data) = Z.to_nat offset)
    by (rewrite length_take; lia).
  split.
  - unfold merkle_rd. rewrite Hlen', H0, H1.
    destruct (0 <=? Z.of_nat (length buf)) eqn:H2;
      [|apply Z.leb_gt in H2; lia].
    cbn [andb]. do 2 f_equal. subst data'.
    rewrite <- Htake at 1. rewrite drop_app_length, Nat2Z.id.
    apply take_app_length.
  - intros offset2 size2 Ho2 Hs2 Hdisj. unfold merkle_rd. rewrite Hlen'.
    destruct (_ && _); [|reflexivity]. do 2 f_equal.
    subst data'. destruct Hdisj as [Hbefore|Hafter].
    + assert (Hpre : forall tail,
                 take (Z.to_nat size2)
                   (drop (Z.to_nat offset2)
                      (take (Z.to_nat offset) data ++ tail))
                 = take (Z.to_nat size2)
                     (drop (Z.to_nat offset2) (take (Z.to_nat offset) data))).
      { intros tail. rewrite drop_app_le by lia.
        apply take_app_le. rewrite length_drop. lia. }
      rewrite Hpre.
      rewrite <- (Hpre (drop (Z.to_nat offset) data)).
      now rewrite take_drop.
    + assert (Hsuf : forall front,
                 length front = (Z.to_nat offset + length buf)%nat ->
                 take (Z.to_nat size2)
                   (drop (Z.to_nat offset2)
                      (front ++ drop (Z.to_nat offset + length buf) data))
                 = take (Z.to_nat size2)
                     (drop (Z.to_nat offset2
                            - (Z.to_nat offset + length buf))
                        (drop (Z.to_nat offset + length buf) data))).
      { intros front Hfront. rewrite drop_app_ge by lia.
        now rewrite Hfront. }
      rewrite app_assoc, Hsuf by (rewrite length_app; lia).
      rewrite <- (Hsuf (take (Z.to_nat offset + length buf) data))
        by (rewrite length_take; lia).
      now rewrite take_drop.
Qed.


(** ** Transport decoding: where the part loop ends *)

Lemma transport_decode_run seek_input input output origin w0 w1 input_io :
  bpak_transport_decode_init (header input)
    (mk_decode_private (io output) (io <$> origin) 0 0) = (BPAK_OK, w0) ->
  match origin with
  | Some o => bpak_transport_decode_set_origin w0 (header o)
  | None => (BPAK_OK, w0)
  end = (BPAK_OK, w1) ->
  seek_input (io input) = (BPAK_OK, input_io) ->
  transport_decode_with seek_input input output origin =
    match decode_parts (length (parts (dw_patch_header w1))) 0 origin
            input_io w1 with
    | None => None
    | Some Fault => Some Fault
    | Some (Returned (rc3, input_io', w2)) =>
        Some (Returned (decode_done rc3 input_io' w2 input output origin))
    end.
Proof.
  intros Hinit Horigin Hseek. unfold transport_decode_with.
  rewrite Hinit. cbn [is_ok bpak_errors_eqb negb].
  rewrite Horigin. cbn [is_ok bpak_errors_eqb negb].
  rewrite Hseek. reflexivity.
Qed.

Lemma seek_input_io s :
  bpak_io_seek s BPAK_HEADER_SIZE BPAK_IO_SEEK_SET
    = (BPAK_OK, mk_stream (s_data s) BPAK_HEADER_SIZE).
Proof. reflexivity. Qed.

Lemma seek_input_fp s :
  (let '(r, s') := fseek s BPAK_HEADER_SIZE SEEK_SET in
   (if r =? 0 then BPAK_OK else BPAK_SEEK_ERROR, s'))
    = (BPAK_OK, mk_stream (s_data s) BPAK_HEADER_SIZE).
Proof. reflexivity. Qed.

(** X23: the part loop of bpak_pkg_transport_decode ends at the first slot
    whose id is 0.  When that is slot 0 (or the table has no slot) and the
    set-up succeeded, nothing is decoded: the call returns OK with the input
    stream positioned behind the header and the decoder as the set-up left
    it.  This holds for an origin that is NULL as well, which is read only
    once a part is found. *)
Theorem transport_decode_empty_first_slot input output origin w0 w1 :
  bpak_transport_decode_init (header input)
    (mk_decode_private (io output) (io <$> origin) 0 0) = (BPAK_OK, w0) ->
  match origin with
  | Some o => bpak_transport_decode_set_origin w0 (header o)
  | None => (BPAK_OK, w0)
  end = (BPAK_OK, w1) ->
  (forall part, parts (dw_patch_header w1) !! 0%nat = Some part ->
                p_id part = 0) ->
  bpak_pkg_transport_decode input output origin
    = Some (Returned
              (decode_done BPAK_OK
                 (mk_stream (s_data (io input)) BPAK_HEADER_SIZE) w1
                 input output origin)) /\
  bpak_pkg_transport_decode_fp input output origin
    = bpak_pkg_transport_decode input output origin.
Proof.
  intros Hinit Horigin Hfirst.
  unfold bpak_pkg_transport_decode, bpak_pkg_transport_decode_fp.
  rewrite !(transport_decode_run _ input output origin w0 w1
              (mk_stream (s_data (io input)) BPAK_HEADER_SIZE)
              Hinit Horigin) by reflexivity.
  assert (Hloop : decode_parts (length (parts (dw_patch_header w1))) 0 origin
                    (mk_stream (s_data (io input)) BPAK_HEADER_SIZE) w1
                  = Some (Returned
                            (BPAK_OK,
                             mk_stream (s_data (io input)) BPAK_HEADER_SIZE,
                             w1))).
  { destruct (parts (dw_patch_header w1)) as [|p ps] eqn:Hps;
      [reflexivity|].
    cbn [length decode_parts]. rewrite Hps. cbn [lookup list_lookup].
    rewrite (Hfirst p eq_refl). reflexivity. }
  rewrite Hloop. split; reflexivity.
Qed.

(** With a back-end that accepts every chunk, the chunk loop on an input
    that holds fewer bytes than the part needs ends in READ_ERROR. *)
Lemma decode_chunks_short fuel : forall bytes_to_process input_io w,
  (forall w chunk, fst (bpak_transport_decode_write_chunk w chunk) = BPAK_OK) ->
  0 <= s_pos input_io ->
  available input_io < bytes_to_process ->
  (Z.to_nat (bytes_to_process / DECODE_CHUNK_SIZE) < fuel)%nat ->
  exists input_io' w',
    decode_chunks fuel bytes_to_process input_io w
      = Some (BPAK_READ_ERROR, input_io', w').
Proof.
  unfold DECODE_CHUNK_SIZE.
  induction fuel as [|fuel IH]; intros btp input_io w Hwr Hpos Hav Hfuel;
    [lia|].
  assert (Hav0 : 0 <= available input_io) by (unfold available; lia).
  cbn [decode_chunks]. unfold DECODE_CHUNK_SIZE.
  destruct (btp =? 0) eqn:Hz; [apply Z.eqb_eq in Hz; lia|].
  destruct (fread_chunk input_io (Z.min btp 4096) Hpos ltac:(lia))
    as [Hrd Hav'].
  unfold fread in Hrd. unfold bpak_io_read. rewrite Hrd.
  rewrite length_take, length_drop.
  assert (Hk : Z.of_nat (Z.to_nat (Z.min btp 4096)
                         `min` (length (s_data input_io)
                                - Z.to_nat (s_pos input_io)))
               = Z.min (Z.min btp 4096) (available input_io)).
  { unfold available. rewrite length_drop. lia. }
  rewrite Hk.
  destruct (Z.min (Z.min btp 4096) (available input_io) =? Z.min btp 4096)
    eqn:Hfull; cbn [negb]; [|eauto].
  apply Z.eqb_eq in Hfull.
  pose proof (Hwr w (take (Z.to_nat (Z.min btp 4096))
                       (drop (Z.to_nat (s_pos input_io))
                          (s_data input_io)))) as Hok.
  destruct (bpak_transport_decode_write_chunk w _) as [rc w'].
  cbn [fst] in Hok. subst rc. cbn [is_ok bpak_errors_eqb negb].
  assert (Hmin : Z.min btp 4096 = 4096) by lia.
  rewrite Hmin in *.
  apply IH; cbn [s_pos]; try assumption; try lia.
  replace (btp - 4096) with (btp + (-1) * 4096) by lia.
  rewrite Z.div_add by lia.
  assert (1 <= btp / 4096) by (apply Z.div_le_lower_bound; lia).
  lia.
Qed.

(** X24: bpak_pkg_transport_decode on a truncated input.  When the first
    part of the patch has bytes, and more of them than the input stream
    holds behind its header, the set-up and the start of the part succeed
    and the back-end accepts the chunks it is given, the call returns
    READ_ERROR: other than the payload hash, the decoder checks how many
    bytes each read delivered. *)
Theorem transport_decode_truncated_input input output o w0 w1 w2 part
    origin_part :
  bpak_transport_decode_init (header input)
    (mk_decode_private (io output) (Some (io o)) 0 0) = (BPAK_OK, w0) ->
  bpak_transport_decode_set_origin w0 (header o) = (BPAK_OK, w1) ->
  parts (dw_patch_header w1) !! 0%nat = Some part ->
  p_id part <> 0 ->
  bpak_get_part (header o) (p_id part) = (BPAK_OK, Some origin_part) ->
  bpak_transport_decode_start
    (mk_decode_world (dw_ctx w1) (dw_patch_header w1)
       (set_offsets (bpak_part_offset (header o) origin_part)
          (bpak_part_offset (dw_patch_header w1) part) (dw_private w1)))
    part = (BPAK_OK, w2) ->
  (forall w chunk, fst (bpak_transport_decode_write_chunk w chunk) = BPAK_OK) ->
  0 < bpak_part_size part ->
  stream_end (io input) < BPAK_HEADER_SIZE + bpak_part_size part ->
  exists r,
    bpak_pkg_transport_decode input output (Some o) = Some (Returned r) /\
    bpak_pkg_transport_decode_fp input output (Some o) = Some (Returned r) /\
    dr_rc r = BPAK_READ_ERROR.
Proof.
  intros Hinit Horigin Hpart Hid Hget Hstart Hwr Hsome Hshort.
  unfold bpak_pkg_transport_decode, bpak_pkg_transport_decode_fp.
  rewrite !(transport_decode_run _ input output (Some o) w0 w1
              (mk_stream (s_data (io input)) BPAK_HEADER_SIZE)
              Hinit Horigin) by reflexivity.
  destruct (parts (dw_patch_header w1)) as [|p ps] eqn:Hps; [discriminate|].
  cbn [length decode_parts]. rewrite Hps. cbn [lookup list_lookup].
  cbn in Hpart. injection Hpart as ->.
  destruct (p_id part =? 0) eqn:Hz; [apply Z.eqb_eq in Hz; lia|].
  rewrite Hget, Hstart. cbn [is_ok bpak_errors_eqb negb].
  destruct (decode_chunks_short
              (S (Z.to_nat (bpak_part_size part / DECODE_CHUNK_SIZE)))
              (bpak_part_size part)
              (mk_stream (s_data (io input)) BPAK_HEADER_SIZE) w2 Hwr)
    as (input_io' & w' & ->).
  - cbn [s_pos]. unfold BPAK_HEADER_SIZE. lia.
  - unfold available, stream_end, BPAK_HEADER_SIZE in *. cbn [s_pos s_data].
    rewrite length_drop. lia.
  - lia.
  - cbn [is_ok bpak_errors_eqb negb]. eexists.
    split; [reflexivity|]. split; reflexivity.
Qed.


(** ** Adding a key *)

(** The loop of bpak_pkg_add_key has the effect of one write of the bytes
    of [tmp] that are still to go. *)
Lemma key_loop_writes_key fuel : forall bytes_to_write bytes_offset tmp len
    out_fp,
  0 <= s_pos out_fp -> 0 <= bytes_offset -> 0 <= bytes_to_write ->
  bytes_offset + bytes_to_write = len -> len <= KEY_BUFFER_SIZE ->
  Z.of_nat (length tmp) = KEY_BUFFER_SIZE ->
  (Z.to_nat ((bytes_to_write + 511) / 512) <= fuel)%nat ->
  key_loop fuel bytes_to_write bytes_offset tmp len out_fp
    = Some (BPAK_OK,
            snd (stream_write out_fp
                   (drop (Z.to_nat (KEY_BUFFER_SIZE - len + bytes_offset))
                      tmp))).
Proof.
  unfold KEY_BUFFER_SIZE.
  induction fuel as [|fuel IH];
    intros btw off tmp len out_fp Hout Hoff Hbtw Hsum Hlen Htmp Hfuel.
  { assert (btw = 0).
    { destruct (Z.eq_dec btw 0) as [|Hne]; [assumption|].
      assert (1 <= (btw + 511) / 512)
        by (apply Z.div_le_lower_bound; lia). lia. }
    subst btw. cbn [key_loop Z.eqb]. rewrite drop_ge by lia. reflexivity. }
  destruct (Z.eq_dec btw 0) as [->|Hne].
  { cbn [key_loop Z.eqb]. rewrite drop_ge by lia. reflexivity. }
  cbn [key_loop]. unfold KEY_BUFFER_SIZE, CHUNK_BUFFER_SIZE.
  destruct (btw =? 0) eqn:Hz; [apply Z.eqb_eq in Hz; lia|].
  set (chunk_sz := if btw >? 512 then 512 else btw).
  assert (Hsz : chunk_sz = Z.min btw 512).
  { subst chunk_sz. destruct (btw >? 512) eqn:Hgt.
    - apply Z.gtb_lt in Hgt. lia.
    - rewrite Z.gtb_ltb in Hgt. apply Z.ltb_ge in Hgt. lia. }
  set (rest := drop (Z.to_nat (4096 - len + off)) tmp).
  assert (Hrest : Z.of_nat (length rest) = btw).
  { subst rest. rewrite length_drop. lia. }
  unfold fwrite.
  pose proof (stream_write_count out_fp (take (Z.to_nat chunk_sz) rest)) as Hc.
  destruct (stream_write out_fp (take (Z.to_nat chunk_sz) rest))
    as [written out_fp'] eqn:Hw.
  cbn [fst] in Hc. rewrite Hc, length_take.
  replace (Z.of_nat (Z.to_nat chunk_sz `min` length rest)) with chunk_sz
    by lia.
  rewrite Z.eqb_refl. cbn [negb]. unfold wrap64.
  rewrite !Z.mod_small by lia.
  rewrite IH; try lia.
  - do 2 f_equal.
    replace out_fp' with (snd (stream_write out_fp
                                 (take (Z.to_nat chunk_sz) rest)))
      by now rewrite Hw.
    rewrite stream_write_app by exact Hout. f_equal.
    replace (Z.to_nat (4096 - len + (off + chunk_sz)))
      with (Z.to_nat (4096 - len + off) + Z.to_nat chunk_sz)%nat by lia.
    rewrite <- drop_drop. fold rest. now rewrite take_drop.
  - replace out_fp' with (snd (stream_write out_fp
                                 (take (Z.to_nat chunk_sz) rest)))
      by now rewrite Hw.
    rewrite stream_write_pos. lia.
  - rewrite Hsz. destruct (Z.le_gt_cases btw 512) as [Hle|Hgt].
    + rewrite Z.min_l by lia. replace (btw - btw + 511) with 511 by lia.
      change (511 / 512) with 0. lia.
    + rewrite Z.min_r by lia.
      replace (btw - 512 + 511) with (btw + 511 + (-1) * 512) by lia.
      rewrite Z.div_add by lia.
      assert (1 <= (btw + 511) / 512) by (apply Z.div_le_lower_bound; lia).
      lia.
Qed.

Lemma add_key_run fuel pkg tmp len part_name flags i ctx size' :
  0 <= len <= KEY_BUFFER_SIZE -> Z.of_nat (length tmp) = KEY_BUFFER_SIZE ->
  0 <= part_padding len ->
  header_location pkg = BPAK_HEADER_POS_FIRST ->
  bpak_add_part (header pkg) (bpak_id part_name) = (BPAK_OK, Some i) ->
  hash_begin (hash_kind (header pkg)) BPAK_PAYLOAD_HASH_BYTES
    = inr (ctx, size') ->
  (8 <= fuel)%nat ->
  let written :=
    snd (stream_write
           (mk_stream (s_data (io pkg)) (next_part_offset (header pkg)))
           (drop (Z.to_nat (KEY_BUFFER_SIZE - len)) tmp
            ++ padding_bytes (part_padding len))) in
  let h1 :=
    set_parts
      (alter (fill_part (bpak_id part_name) (next_part_offset (header pkg))
                0 len) i (parts (header pkg))) (header pkg) in
  exists s,
    hash_parts (parts h1)
      (hash_start (mk_package written h1 BPAK_HEADER_POS_FIRST) ctx)
      = Some s /\
    bpak_pkg_add_key fuel pkg tmp len part_name flags =
      Some (BPAK_OK,
            mk_package
              (mk_stream
                 (header_image
                    (set_payload_hash
                       (md_finish (hs_ctx s) (payload_hash (header pkg))) h1)
                  ++ drop (Z.to_nat BPAK_HEADER_SIZE) (s_data written))
                 BPAK_HEADER_SIZE)
              (set_payload_hash
                 (md_finish (hs_ctx s) (payload_hash (header pkg))) h1)
              BPAK_HEADER_POS_FIRST).
Proof.
  intros Hlen Htmp Hpad Hloc Hadd Hb Hfuel written h1.
  pose proof (next_part_offset_nonneg (header pkg)) as Hoff.
  unfold bpak_pkg_add_key.
  destruct (len <? 0) eqn:Hneg; [apply Z.ltb_lt in Hneg; lia|].
  rewrite Hadd. unfold fseek at 1.
  destruct (next_part_offset (header pkg) <? 0) eqn:Hn;
    [apply Z.ltb_lt in Hn; lia|].
  cbn [Z.eqb negb].
  assert (Hw : wrap64 len = len).
  { apply Z.mod_small. unfold KEY_BUFFER_SIZE in Hlen. lia. }
  rewrite Hw.
  rewrite key_loop_writes_key; cbn [s_pos]; try lia.
  2:{ unfold KEY_BUFFER_SIZE in *.
      assert ((len + 511) / 512 < 9).
      { apply Z.div_lt_upper_bound; lia. }
      lia. }
  cbn [is_ok bpak_errors_eqb negb]. unfold set_io, set_header.
  cbn [io header header_location s_data].
  rewrite Z.add_0_r. unfold fwrite.
  pose proof (stream_write_count
                (snd (stream_write
                        (mk_stream (s_data (io pkg))
                           (next_part_offset (header pkg)))
                        (drop (Z.to_nat (KEY_BUFFER_SIZE - len)) tmp)))
                (padding_bytes (part_padding len))) as Hc.
  pose proof (stream_write_app
                (mk_stream (s_data (io pkg))
                   (next_part_offset (header pkg)))
                (drop (Z.to_nat (KEY_BUFFER_SIZE - len)) tmp)
                (padding_bytes (part_padding len)) Hoff) as Happ.
  destruct (stream_write
              (snd (stream_write
                      (mk_stream (s_data (io pkg))
                         (next_part_offset (header pkg)))
                      (drop (Z.to_nat (KEY_BUFFER_SIZE - len)) tmp)))
              (padding_bytes (part_padding len))) as [n fp3].
  cbn [fst snd] in Hc, Happ. subst n fp3.
  rewrite length_padding_bytes, Z.eqb_refl by exact Hpad. cbn [negb].
  fold written. fold h1. rewrite Hloc.
  unfold bpak_pkg_update_payload_hash.
  destruct (compute_payload_hash_ok
              (mk_package written h1 BPAK_HEADER_POS_FIRST)
              (payload_hash (header (mk_package written h1
                                       BPAK_HEADER_POS_FIRST)))
              BPAK_PAYLOAD_HASH_BYTES ctx size') as (s & Hs & ->).
  { cbn [header]. subst h1. now destruct (header pkg). }
  exists s. split; [exact Hs|].
  cbn [hr_rc hr_pkg hr_output is_ok bpak_errors_eqb negb].
  rewrite write_header_fp_first by reflexivity.
  cbn [set_io set_header header io header_location].
  rewrite (hash_parts_keeps_data _ _ _ Hs), hash_start_data.
  cbn [io]. do 4 f_equal.
Qed.

(** X25: a successful bpak_pkg_add_key, given the buffer [tmp] of 4096
    bytes and the length [0 <= len <= 4096] that the key writer returned.
    The part goes to the slot handed out by bpak_add_part with size [len]
    and flags 0 -- the [flags] argument changes nothing at all -- and the
    stream receives the LAST [len] bytes of [tmp] followed by the padding,
    as one write at the offset computed from the part table, before the
    header is written in front.  Eight turns of the copy loop always
    suffice. *)
Theorem add_key_stores_the_key_bytes fuel pkg tmp len part_name flags i
    ctx size' :
  0 <= len <= KEY_BUFFER_SIZE -> Z.of_nat (length tmp) = KEY_BUFFER_SIZE ->
  0 <= part_padding len ->
  header_location pkg = BPAK_HEADER_POS_FIRST ->
  bpak_add_part (header pkg) (bpak_id part_name) = (BPAK_OK, Some i) ->
  hash_begin (hash_kind (header pkg)) BPAK_PAYLOAD_HASH_BYTES
    = inr (ctx, size') ->
  (8 <= fuel)%nat ->
  exists pkg',
    bpak_pkg_add_key fuel pkg tmp len part_name flags
      = Some (BPAK_OK, pkg') /\
    (forall flags',
        bpak_pkg_add_key fuel pkg tmp len part_name flags'
        = Some (BPAK_OK, pkg')) /\
    parts (header pkg')
      = alter (fill_part (bpak_id part_name) (next_part_offset (header pkg))
                 0 len) i (parts (header pkg)) /\
    s_data (io pkg')
      = header_image (header pkg')
        ++ drop (Z.to_nat BPAK_HEADER_SIZE)
             (s_data
                (snd (stream_write
                        (mk_stream (s_data (io pkg))
                           (next_part_offset (header pkg)))
                        (drop (Z.to_nat (KEY_BUFFER_SIZE - len)) tmp
                         ++ padding_bytes (part_padding len))))) /\
    header_location pkg' = BPAK_HEADER_POS_FIRST.
Proof.
  intros Hlen Htmp Hpad Hloc Hadd Hb Hfuel.
  destruct (add_key_run fuel pkg tmp len part_name flags i ctx size'
              Hlen Htmp Hpad Hloc Hadd Hb Hfuel) as (s & Hs & Hrun).
  eexists. split; [exact Hrun|]. split.
  { intros flags'.
    destruct (add_key_run fuel pkg tmp len part_name flags' i ctx size'
                Hlen Htmp Hpad Hloc Hadd Hb Hfuel) as (s' & Hs' & Hrun').
    rewrite Hs in Hs'. injection Hs' as <-. exact Hrun'. }
  cbn [header io s_data header_location parts set_payload_hash set_parts].
  repeat split.
Qed.

End Facade.

(** * The theorems at work on the sample packages *)

Abbreviation std_compute_payload_hash :=
  (bpak_pkg_compute_payload_hash Standin.digest
     Standin.BPAK_FLAG_EXCLUDE_FROM_HASH Standin.BPAK_FLAG_TRANSPORT
     Standin.hash_buffer_init).
Abbreviation std_compute_header_hash :=
  (bpak_pkg_compute_header_hash Standin.digest Standin.header_image
     Standin.BPAK_FLAG_EXCLUDE_FROM_HASH Standin.BPAK_FLAG_TRANSPORT
     Standin.hash_buffer_init).
Abbreviation std_open :=
  (bpak_pkg_open Standin.image_header Standin.bpak_valid_header).
Abbreviation std_open_fp :=
  (bpak_pkg_open_fp Standin.image_header Standin.bpak_valid_header).

Abbreviation std_add_file :=
  (bpak_pkg_add_file Standin.digest Standin.header_image
     Standin.BPAK_FLAG_EXCLUDE_FROM_HASH Standin.BPAK_FLAG_TRANSPORT
     Standin.hash_buffer_init Standin.bpak_id Standin.BPAK_PART_ALIGN
     Standin.pad_bytes_modulus Standin.memory_after_chunk_buffer).
Abbreviation std_transport_decode :=
  (bpak_pkg_transport_decode Standin.BPAK_FLAG_TRANSPORT Z
     Standin.decode_init Standin.decode_set_origin Standin.decode_start
     Standin.decode_write_chunk Standin.decode_finish).
Abbreviation std_transport_decode_fp :=
  (bpak_pkg_transport_decode_fp Standin.BPAK_FLAG_TRANSPORT Z
     Standin.decode_init Standin.decode_set_origin Standin.decode_start
     Standin.decode_write_chunk Standin.decode_finish).

Abbreviation std_add_key :=
  (bpak_pkg_add_key Standin.digest Standin.header_image
     Standin.BPAK_FLAG_EXCLUDE_FROM_HASH Standin.BPAK_FLAG_TRANSPORT
     Standin.hash_buffer_init Standin.bpak_id Standin.BPAK_PART_ALIGN
     Standin.pad_bytes_modulus Standin.memory_after_chunk_buffer).
Abbreviation std_part_padding :=
  (part_padding Standin.BPAK_PART_ALIGN Standin.pad_bytes_modulus).

Lemma standin_header_image_length h :
  length (Standin.header_image h) = Z.to_nat BPAK_HEADER_SIZE.
Proof. apply length_resize. Qed.

(** The failing input of C1: an unknown hash kind.  The call returns
    NOT_SUPPORTED and the 64-byte signature is gone from the header. *)
Lemma compute_header_hash_error_clobbers_signature_witness :
  hash_begin (hash_kind (header Sample.unknown_kind_pkg)) 64
    = inl BPAK_NOT_SUPPORTED /\
  signature_sz (header Sample.unknown_kind_pkg) = 64 /\
  exists r,
    std_compute_header_hash Sample.unknown_kind_pkg (zeros 64) 64 false
      = Some r /\
    hr_rc r = BPAK_NOT_SUPPORTED /\ BPAK_NOT_SUPPORTED <> BPAK_OK /\
    signature (header (hr_pkg r)) = zeros BPAK_SIGNATURE_MAX_BYTES /\
    signature_sz (header (hr_pkg r)) = 0.
Proof.
  split; [reflexivity|]. split; [reflexivity|].
  apply (compute_header_hash_error_clobbers_signature Standin.digest
           Standin.header_image Standin.BPAK_FLAG_EXCLUDE_FROM_HASH
           Standin.BPAK_FLAG_TRANSPORT Standin.hash_buffer_init
           Sample.unknown_kind_pkg (zeros 64) 64 BPAK_NOT_SUPPORTED).
  reflexivity.
Defined.

(** The other error of C1: a 16-byte buffer for a SHA-256 digest, with the
    payload hash refreshed first.  The call returns FAILED, and the header
    has lost its signature. *)
Example compute_header_hash_short_buffer :
  (fun r => (hr_rc r, signature_sz (header (hr_pkg r)),
             take 2 (signature (header (hr_pkg r)))))
    <$> std_compute_header_hash Sample.sha256_pkg (zeros 16) 16 true
  = Some (BPAK_FAILED, 0, [x00; x00]) /\
  take 2 (signature (header Sample.sha256_pkg)) = [xff; xff].
Proof. vm_compute. split; reflexivity. Qed.

(** C4 on three parts: 3 bytes from offset 4096, nothing of the excluded
    two, 600 bytes from offset 4101 in chunks of 512 and 88; and on a padded
    part: the 5 bytes fed are the 5 bytes behind the header, 3 of the part
    and 2 of its padding. *)
Lemma payload_hash_feeds_part_bytes_witness :
  (exists s,
      hash_parts Standin.BPAK_FLAG_EXCLUDE_FROM_HASH
        Standin.BPAK_FLAG_TRANSPORT
        (parts (header Sample.three_part_pkg))
        (hash_start Standin.hash_buffer_init Sample.three_part_pkg
           (md_starts MD_SHA256)) = Some s /\
      md_message (hs_ctx s)
        = take 3 (Sample.counting 605) ++ drop 5 (Sample.counting 605) /\
      map length (md_fed (hs_ctx s)) = [3; 512; 88]%nat) /\
  (exists s,
      hash_parts Standin.BPAK_FLAG_EXCLUDE_FROM_HASH
        Standin.BPAK_FLAG_TRANSPORT
        (parts (header Sample.padded_pkg))
        (hash_start Standin.hash_buffer_init Sample.padded_pkg
           (md_starts MD_SHA256)) = Some s /\
      md_message (hs_ctx s)
        = take 5 (drop 4096 (s_data (io Sample.padded_pkg))) /\
      take 5 (drop 4096 (s_data (io Sample.padded_pkg)))
        = [x01; x02; x03; x00; x00]).
Proof.
  split.
  - destruct (payload_hash_feeds_part_bytes Standin.digest
                Standin.BPAK_FLAG_EXCLUDE_FROM_HASH
                Standin.BPAK_FLAG_TRANSPORT
                Standin.hash_buffer_init Sample.three_part_pkg (zeros 32) 32
                (md_starts MD_SHA256) 32)
      as (s & Hrun & _ & Hmsg & _).
    + reflexivity.
    + apply Forall_forall. intros p Hp.
      apply (Forall_forall (fun p => p_transport_size p = 0 /\ 0 <= p_size p)
               (parts (header Sample.three_part_pkg))) in Hp.
      * unfold bpak_part_size. destruct (_ =? 0); lia.
      * vm_compute. repeat constructor; discriminate.
    + vm_compute. discriminate.
    + exists s. split; [exact Hrun|]. split.
      * rewrite Hmsg. vm_compute. reflexivity.
      * vm_compute in Hrun. injection Hrun as <-. vm_compute. reflexivity.
  - destruct (payload_hash_feeds_part_bytes Standin.digest
                Standin.BPAK_FLAG_EXCLUDE_FROM_HASH
                Standin.BPAK_FLAG_TRANSPORT
                Standin.hash_buffer_init Sample.padded_pkg (zeros 32) 32
                (md_starts MD_SHA256) 32)
      as (s & Hrun & _ & _ & _ & _ & _ & Hspan & _).
    + reflexivity.
    + apply Forall_forall. intros p Hp.
      apply (Forall_forall (fun p => p_transport_size p = 0 /\ 0 <= p_size p)
               (parts (header Sample.padded_pkg))) in Hp.
      * unfold bpak_part_size. destruct (_ =? 0); lia.
      * vm_compute. repeat constructor; discriminate.
    + vm_compute. discriminate.
    + exists s. split; [exact Hrun|]. split; [|vm_compute; reflexivity].
      rewrite Hspan.
      * vm_compute. reflexivity.
      * apply Forall_forall. intros p Hp.
        apply (Forall_forall (fun p => p_flags p = 0)
                 (parts (header Sample.padded_pkg))) in Hp.
        -- intros _. unfold part_excluded. rewrite Hp. reflexivity.
        -- vm_compute. repeat constructor.
Defined.

(** C4 as stated fails on a padded part.  The header records 3 bytes at
    offset 4096 with 5 bytes of padding and 2 bytes at offset 4104; the
    stream holds 01 02 03, five zero bytes and 09 09 there.  The parts'
    bytes are 01 02 03 09 09; the digest is fed 01 02 03 00 00: two bytes
    of padding, and nothing of the second part. *)
Lemma payload_hash_feeds_padding_counterexample :
  let pkg := Sample.padded_pkg in
  let data := s_data (io pkg) in
  take 2 (parts (header pkg))
    = [mk_part 11 3 0 4096 5 0; mk_part 12 2 0 4104 0 0] /\
  Forall (fun p => part_live p = false) (drop 2 (parts (header pkg))) /\
  take 3 (drop 4096 data) = [x01; x02; x03] /\
  take 5 (drop 4099 data) = zeros 5 /\
  take 2 (drop 4104 data) = [x09; x09] /\
  exists r s,
    std_compute_payload_hash pkg (zeros 5) 32 = Some r /\
    hr_rc r = BPAK_OK /\
    hash_parts Standin.BPAK_FLAG_EXCLUDE_FROM_HASH
      Standin.BPAK_FLAG_TRANSPORT (parts (header pkg))
      (hash_start Standin.hash_buffer_init pkg (md_starts MD_SHA256))
      = Some s /\
    md_message (hs_ctx s) = [x01; x02; x03; x00; x00] /\
    md_message (hs_ctx s) <> [x01; x02; x03; x09; x09].
Proof.
  cbv zeta.
  split; [vm_compute; reflexivity|].
  split; [vm_compute; repeat constructor|].
  split; [vm_compute; reflexivity|].
  split; [vm_compute; reflexivity|].
  split; [vm_compute; reflexivity|].
  eexists. eexists.
  split; [vm_compute; reflexivity|].
  split; [reflexivity|].
  split; [vm_compute; reflexivity|].
  split; [reflexivity|discriminate].
Qed.

(** The cursor of the payload hash moves by [bpak_part_size] only, never
    over a part's padding and never to a part's recorded offset: behind a
    padded part, the next part's share of the message is read from where the
    previous part's bytes ended. *)
Example payload_hash_cursor_ignores_offsets :
  hr_output <$> std_compute_payload_hash Sample.padded_pkg (zeros 5) 32
  = Some ([x01; x02; x03; x00; x00] ++ zeros 27).
Proof. vm_compute. reflexivity. Qed.

(** C9 on a stream that ends with the header: the call is OK and the
    "digest" is four bytes of the untouched chunk buffer. *)
Lemma payload_hash_never_reports_read_failure_witness :
  (exists r,
      std_compute_payload_hash Sample.truncated_pkg (zeros 32) 32 = Some r /\
      hr_rc r = BPAK_OK /\
      take 4 (hr_output r) = replicate 4 "165"%byte) /\
  available
    (snd (bpak_io_seek (io Sample.truncated_pkg) BPAK_HEADER_SIZE
            BPAK_IO_SEEK_SET)) = 0.
Proof.
  destruct (payload_hash_never_reports_read_failure Standin.digest
              Standin.BPAK_FLAG_EXCLUDE_FROM_HASH Standin.BPAK_FLAG_TRANSPORT
              Standin.hash_buffer_init Sample.truncated_pkg (zeros 32) 32)
    as [(r & Hrun & _ & Hok) _].
  split; [|vm_compute; reflexivity].
  exists r. split; [exact Hrun|].
  split; [apply (Hok (md_starts MD_SHA256) 32); reflexivity|].
  vm_compute in Hrun. injection Hrun as <-. vm_compute. reflexivity.
Defined.

(** C2 as stated fails: a file of 8192 zero bytes opened for reading has no
    valid header at either end, and both variants of bpak_pkg_open return OK
    with that invalid image in [pkg->header]. *)
Lemma open_invalid_header_counterexample :
  let data := zeros (Z.to_nat 8192) in
  Sample.fs "blank.bin"%string = Some (mk_file 8192 data) /\
  Standin.bpak_valid_header (Standin.image_header (take 4096 data))
    <> BPAK_OK /\
  Standin.bpak_valid_header (Standin.image_header (drop 4096 data))
    <> BPAK_OK /\
  (exists pkg,
      std_open Sample.fs "blank.bin"%string (Some "r"%string)
        = (BPAK_OK, Some pkg) /\
      Standin.bpak_valid_header (header pkg) <> BPAK_OK) /\
  (exists pkg,
      std_open_fp Sample.fs "blank.bin"%string (Some "r"%string)
        = (BPAK_OK, Some pkg) /\
      Standin.bpak_valid_header (header pkg) <> BPAK_OK).
Proof.
  cbv zeta. split; [reflexivity|].
  split; [vm_compute; discriminate|].
  split; [vm_compute; discriminate|].
  split; eexists; (split; [vm_compute; reflexivity|vm_compute; discriminate]).
Qed.

Lemma open_succeeds_whatever_the_header_witness :
  fopen Sample.fs "blank.bin" "r"
    = Some (mk_FILE (mk_stream (zeros (Z.to_nat 8192)) 0) true false) /\
  std_open Sample.fs "blank.bin"%string (Some "r"%string)
    = (BPAK_OK,
       Some (mk_package (mk_stream (zeros (Z.to_nat 8192)) 0)
               (Standin.image_header (zeros (Z.to_nat 4096)))
               BPAK_HEADER_POS_FIRST)) /\
  std_open_fp Sample.fs "blank.bin"%string (Some "r"%string)
    = (BPAK_OK,
       Some (mk_package (mk_stream (zeros (Z.to_nat 8192)) 0)
               (Standin.image_header (zeros (Z.to_nat 4096)))
               BPAK_HEADER_POS_FIRST)) /\
  std_open_fp Sample.fs "tail.bpak"%string (Some "a"%string)
    = (BPAK_OK,
       Some (mk_package (mk_stream Sample.tail_data' 0)
               (Standin.image_header (zeros (Z.to_nat 4096)))
               BPAK_HEADER_POS_FIRST)) /\
  std_open Sample.fs "missing.bin"%string (Some "r"%string)
    = (BPAK_NOT_FOUND, None).
Proof.
  split; [reflexivity|].
  destruct (open_succeeds_whatever_the_header Standin.image_header
              Standin.bpak_valid_header Sample.fs "blank.bin" "r")
    as (_ & _ & _ & Hblank).
  destruct (Hblank _ eq_refl) as (Hio & Hfp & _).
  destruct (open_succeeds_whatever_the_header Standin.image_header
              Standin.bpak_valid_header Sample.fs "tail.bpak" "a")
    as (_ & _ & _ & Htail).
  destruct (Htail _ eq_refl) as (_ & Hfp' & _).
  destruct (open_succeeds_whatever_the_header Standin.image_header
              Standin.bpak_valid_header Sample.fs "missing.bin" "r")
    as (_ & _ & Hnone & _).
  split; [rewrite Hio; vm_compute; reflexivity|].
  split; [rewrite Hfp; vm_compute; reflexivity|].
  split; [rewrite Hfp'; vm_compute; reflexivity|].
  apply Hnone. reflexivity.
Defined.

(** C3 on a package with 8192 payload bytes and the header behind them: the
    in-memory header has gained a signature; writing it back and opening
    the file finds it at the tail. *)
Lemma tail_header_write_back_is_located_witness :
  header_location Sample.tail_pkg = BPAK_HEADER_POS_LAST /\
  stream_end (io Sample.tail_pkg) = 12288 /\
  bpak_pkg_write_header Standin.header_image Sample.tail_pkg =
    (BPAK_OK,
     set_io (mk_stream Sample.tail_data' 12288) Sample.tail_pkg) /\
  std_open Sample.fs "tail.bpak"%string (Some "r"%string) =
    (BPAK_OK,
     Some (mk_package (mk_stream Sample.tail_data' 0)
             (header Sample.tail_pkg) BPAK_HEADER_POS_LAST)).
Proof.
  split; [reflexivity|]. split; [vm_compute; reflexivity|].
  assert (Hdata : take (Z.to_nat (stream_end (io Sample.tail_pkg)
                                  - BPAK_HEADER_SIZE))
                    (s_data (io Sample.tail_pkg))
                  ++ Standin.header_image (header Sample.tail_pkg)
                  = Sample.tail_data') by (vm_compute; reflexivity).
  destruct (tail_header_write_back_is_located Standin.header_image
              Standin.image_header Standin.bpak_valid_header
              standin_header_image_length Sample.tail_pkg Sample.fs
              "tail.bpak" 12288)
    as (Hwrite & _ & _ & Hopen).
  - reflexivity.
  - vm_compute. discriminate.
  - vm_compute. reflexivity.
  - vm_compute. reflexivity.
  - rewrite Hdata. vm_compute. discriminate.
  - rewrite Hdata. reflexivity.
  - rewrite Hdata in Hwrite, Hopen. split; [exact Hwrite|exact Hopen].
Defined.

(** C6 on a three-byte signature. *)
Lemma sign_stores_signature_then_writes_header_witness :
  let sig := [x01; x02; x03] in
  (length sig <= BPAK_SIGNATURE_MAX_BYTES)%nat /\
  exists io',
    bpak_pkg_sign Standin.header_image Standin.signature_overrun
      Sample.fresh_pkg sig =
      (BPAK_OK,
       mk_package io' (spec_write_signature sig (header Sample.fresh_pkg))
         BPAK_HEADER_POS_FIRST) /\
    take 3 (signature (spec_write_signature sig (header Sample.fresh_pkg)))
      = sig /\
    signature_sz (spec_write_signature sig (header Sample.fresh_pkg)) = 3.
Proof.
  cbv zeta.
  assert (Hlen : (length [x01; x02; x03] <= BPAK_SIGNATURE_MAX_BYTES)%nat)
    by (apply Nat.leb_le; reflexivity).
  split; [exact Hlen|].
  destruct (sign_stores_signature_then_writes_header Standin.header_image
              standin_header_image_length Standin.signature_overrun
              Sample.fresh_pkg [x01; x02; x03] Hlen)
    as ((Htake & _ & _ & Hsz) & _ & _ & _ & _ & _ & Hfirst & _).
  destruct (Hfirst eq_refl) as [Hsign _].
  eexists. split; [exact Hsign|]. split; [exact Htake|exact Hsz].
Defined.

(** C7 on "kernel.bin": with the 8-bit [pad_bytes] member of the
    specification's data model the part records 255 bytes of padding and the
    installed size is 8448; with a 16-bit member they are 4095 and 12288. *)
Lemma add_file_8193_bytes_witness :
  Sample.fs "kernel.bin"%string
    = Some (mk_file 8193 (Sample.counting (Z.to_nat 8193))) /\
  (exists pkg' part,
      std_add_file 17%nat Sample.fs Sample.fresh_pkg "kernel.bin"%string
        "kernel"%string 0 = Some (BPAK_OK, pkg') /\
      parts (header pkg') !! 0%nat = Some part /\
      p_id part = Standin.bpak_id "kernel" /\
      p_size part = 8193 /\ p_pad_bytes part = 255 /\
      p_offset part = 4096 /\ p_flags part = 0 /\
      bpak_pkg_installed_size pkg' = 8448) /\
  (exists pkg' part,
      bpak_pkg_add_file Standin.digest Standin.header_image
        Standin.BPAK_FLAG_EXCLUDE_FROM_HASH Standin.BPAK_FLAG_TRANSPORT
        Standin.hash_buffer_init Standin.bpak_id 4096 (2 ^ 16)
        Standin.memory_after_chunk_buffer 17%nat Sample.fs Sample.fresh_pkg
        "kernel.bin"%string "kernel"%string 0 = Some (BPAK_OK, pkg') /\
      parts (header pkg') !! 0%nat = Some part /\
      p_size part = 8193 /\ p_pad_bytes part = 4095 /\
      p_offset part = 4096 /\
      bpak_pkg_installed_size pkg' = 12288).
Proof.
  split; [reflexivity|]. split.
  - destruct (add_file_8193_bytes Standin.digest Standin.header_image
                Standin.BPAK_FLAG_EXCLUDE_FROM_HASH
                Standin.BPAK_FLAG_TRANSPORT
                Standin.hash_buffer_init standin_header_image_length
                Standin.bpak_id Standin.BPAK_PART_ALIGN
                Standin.pad_bytes_modulus
                Standin.memory_after_chunk_buffer 17%nat Sample.fs
                Sample.fresh_pkg "kernel.bin" "kernel" 0
                (Sample.counting (Z.to_nat 8193)) Standin.empty_part
                (replicate 31 Standin.empty_part) (md_starts MD_SHA256) 32)
      as (pkg' & part & Hrun & Hpart & Hid & Hsize & _ & Hoff & Hflags & _
          & Hu8 & _).
    + reflexivity.
    + reflexivity.
    + reflexivity.
    + vm_compute. reflexivity.
    + reflexivity.
    + reflexivity.
    + repeat constructor.
    + reflexivity.
    + apply Nat.le_refl.
    + destruct (Hu8 eq_refl) as [Hpad Hinst].
      exists pkg', part. repeat (split; [assumption|]). assumption.
  - destruct (add_file_8193_bytes Standin.digest Standin.header_image
                Standin.BPAK_FLAG_EXCLUDE_FROM_HASH
                Standin.BPAK_FLAG_TRANSPORT
                Standin.hash_buffer_init standin_header_image_length
                Standin.bpak_id 4096 (2 ^ 16)
                Standin.memory_after_chunk_buffer 17%nat Sample.fs
                Sample.fresh_pkg "kernel.bin" "kernel" 0
                (Sample.counting (Z.to_nat 8193)) Standin.empty_part
                (replicate 31 Standin.empty_part) (md_starts MD_SHA256) 32)
      as (pkg' & part & Hrun & Hpart & _ & Hsize & _ & Hoff & _ & _
          & _ & Hu16).
    + reflexivity.
    + reflexivity.
    + reflexivity.
    + vm_compute. reflexivity.
    + reflexivity.
    + reflexivity.
    + repeat constructor.
    + reflexivity.
    + apply Nat.le_refl.
    + destruct (Hu16 eq_refl) as [Hpad Hinst].
      exists pkg', part. repeat (split; [assumption|]). assumption.
Defined.

(** C7 as stated fails with the part slot of the specification's data
    model, whose [pad_bytes] member has 8 bits: the same call records
    4095 mod 256 = 255, and the installed size is 8193 + 255 = 8448. *)
Lemma add_file_8193_bytes_counterexample :
  Standin.BPAK_PART_ALIGN = 4096 /\
  Standin.pad_bytes_modulus = 2 ^ 8 /\
  (fun '(rc, pkg') =>
     (rc,
      (fun part => (p_size part, p_pad_bytes part, p_offset part))
        <$> parts (header pkg') !! 0%nat,
      bpak_pkg_installed_size pkg'))
    <$> std_add_file 17%nat Sample.fs Sample.fresh_pkg "kernel.bin"%string
          "kernel"%string 0
  = Some (BPAK_OK, Some (8193, 255, 4096), 8448) /\
  255 <> 4095 /\ 8448 <> 12288.
Proof.
  split; [reflexivity|]. split; [reflexivity|].
  split; [vm_compute; reflexivity|]. split; discriminate.
Qed.

(** The same call evaluated: the part bytes follow the header, and the 255
    bytes of padding written behind them are zero bytes of the chunk
    buffer. *)
Example add_file_kernel_bin_stream :
  (fun '(rc, pkg') =>
     (rc, bpak_pkg_installed_size pkg', stream_end (io pkg'),
      take 3 (drop 4096 (s_data (io pkg'))),
      drop (Z.to_nat (4096 + 8193 + 253)) (s_data (io pkg'))))
    <$> std_add_file 17%nat Sample.fs Sample.fresh_pkg "kernel.bin"%string
          "kernel"%string 0
  = Some (BPAK_OK, 8448, 12544, [x01; x02; x03], [x00; x00]).
Proof. vm_compute. reflexivity. Qed.

(** C10 on "short.bin": five bytes promised, three delivered. *)
Lemma copy_loop_needs_the_promised_bytes_witness :
  available (mk_stream (Sample.counting 3) 0) = 3 /\
  (forall fuel,
      copy_loop fuel 5 (mk_stream (Sample.counting 3) 0) (mk_stream [] 0)
        = None) /\
  forall fuel,
    std_add_file fuel Sample.fs Sample.fresh_pkg "short.bin"%string
      "short"%string 0 = None.
Proof.
  destruct (copy_loop_needs_the_promised_bytes 5
              (mk_stream (Sample.counting 3) 0) (mk_stream [] 0))
    as (_ & Hshort & _); [cbn; lia|lia|].
  destruct (copy_loop_needs_the_promised_bytes 5
              (mk_stream (Sample.counting 3) 0)
              (mk_stream (Standin.header_image (Sample.fresh_header 1)) 4096))
    as (_ & Hshort' & _); [cbn; lia|lia|].
  split; [reflexivity|]. split.
  - apply Hshort. vm_compute. reflexivity.
  - intros fuel. unfold bpak_pkg_add_file.
    change (stat Sample.fs "short.bin") with (Some 5).
    change (bpak_add_part (header Sample.fresh_pkg) (Standin.bpak_id "short"))
      with (BPAK_OK, Some 0%nat).
    change (next_part_offset (header Sample.fresh_pkg)) with 4096.
    cbn [fseek io set_header s_data s_pos Z.ltb Z.compare Z.eqb negb
           Sample.fresh_pkg].
    change (fp_stream <$> fopen Sample.fs "short.bin" "r")
      with (Some (mk_stream (Sample.counting 3) 0)).
    change (wrap64 5) with 5.
    cbv iota beta. rewrite Hshort'; [reflexivity|vm_compute; reflexivity].
Defined.

(** C8 on a one-part input: no origin, and the call faults. *)
Lemma transport_decode_null_origin_faults_witness :
  std_transport_decode Sample.input_pkg Sample.output_pkg None = Some Fault /\
  std_transport_decode_fp Sample.input_pkg Sample.output_pkg None
    = Some Fault.
Proof.
  apply (transport_decode_null_origin_faults Standin.BPAK_FLAG_TRANSPORT Z
           Standin.decode_init Standin.decode_set_origin Standin.decode_start
           Standin.decode_write_chunk Standin.decode_finish
           Sample.input_pkg Sample.output_pkg
           (mk_decode_world 0 (header Sample.input_pkg)
              (mk_decode_private (io Sample.output_pkg) None 0 0))
           (mk_part 11 4 0 4096 0 0)).
  - reflexivity.
  - reflexivity.
  - discriminate.
Defined.

(** With an origin that carries the part, the same input is decoded: the
    four bytes arrive at offset 4096 of the output. *)
Example transport_decode_with_origin :
  (fun o => match o with
            | Returned r =>
                Some (dr_rc r, drop 4096 (s_data (io (dr_output r))))
            | Fault => None
            end)
    <$> std_transport_decode Sample.input_pkg Sample.output_pkg
          (Some Sample.input_pkg)
  = Some (Some (BPAK_OK, [x01; x02; x03; x04])).
Proof. vm_compute. reflexivity. Qed.

(** C5 on the signed sample: the stored signature against an empty slot. *)
Lemma signature_does_not_affect_hashes_witness :
  exists r1 r2,
    std_compute_header_hash Sample.sha256_pkg (zeros 32) 32 true = Some r1 /\
    std_compute_header_hash
      (with_signature (zeros BPAK_SIGNATURE_MAX_BYTES) 0 Sample.sha256_pkg)
      (zeros 32) 32 true = Some r2 /\
    hr_public r1 = hr_public r2 /\ hr_rc r1 = BPAK_OK.
Proof.
  destruct (signature_does_not_affect_hashes Standin.digest
              Standin.header_image Standin.BPAK_FLAG_EXCLUDE_FROM_HASH
              Standin.BPAK_FLAG_TRANSPORT Standin.hash_buffer_init
              Sample.sha256_pkg
              (signature (header Sample.sha256_pkg))
              (signature_sz (header Sample.sha256_pkg))
              (zeros BPAK_SIGNATURE_MAX_BYTES) 0 (zeros 32) 32 true)
    as [_ (r1 & r2 & H1 & H2 & Heq & _)].
  exists r1, r2.
  split; [exact H1|]. split; [exact H2|]. split; [exact Heq|].
  vm_compute in H1. injection H1 as <-. reflexivity.
Defined.

(** The FILE variant of the locator on the file of the C3 sample:
    [fseek(fp, 4096, SEEK_END)] leaves the cursor past the end, the second
    read delivers nothing, and the package comes back with the invalid front
    image and FIRST. *)
Example open_fp_misses_tail_header :
  (fun '(rc, pkg) =>
     (rc, header_location <$> pkg,
      Standin.bpak_valid_header <$> (header <$> pkg)))
    (std_open_fp Sample.fs "tail.bpak"%string (Some "r"%string))
  = (BPAK_OK, Some BPAK_HEADER_POS_FIRST, Some BPAK_INVALID_HEADER).
Proof. vm_compute. reflexivity. Qed.

(** * The further properties on the stand-ins *)

Lemma open_prefers_front_header_witness :
  std_open Sample.front_fs "front.bpak"%string (Some "r"%string)
    = (BPAK_OK,
       Some (mk_package (mk_stream Sample.front_data 0)
               (Standin.image_header
                  (take (Z.to_nat BPAK_HEADER_SIZE) Sample.front_data))
               BPAK_HEADER_POS_FIRST)) /\
  std_open_fp Sample.front_fs "front.bpak"%string (Some "r"%string)
    = (BPAK_OK,
       Some (mk_package (mk_stream Sample.front_data 0)
               (Standin.image_header
                  (take (Z.to_nat BPAK_HEADER_SIZE) Sample.front_data))
               BPAK_HEADER_POS_FIRST)).
Proof.
  apply (open_prefers_front_header Standin.image_header
           Standin.bpak_valid_header Sample.front_fs "front.bpak" "r"
           (mk_FILE (mk_stream Sample.front_data 0) true false)).
  - reflexivity.
  - reflexivity.
  - vm_compute. discriminate.
  - vm_compute. reflexivity.
Defined.

(** X2 on the archive with its header at the tail, opened for reading, and
    on the archive with a valid front header, opened for appending: nothing
    can be read and the header stays zero. *)
Lemma open_fp_never_finds_tail_header_witness :
  (exists pkg,
      std_open_fp Sample.fs "tail.bpak"%string (Some "r"%string)
        = (BPAK_OK, Some pkg) /\
      header_location pkg = BPAK_HEADER_POS_FIRST /\
      header pkg = Standin.image_header (zeros (Z.to_nat 4096)) /\
      Standin.bpak_valid_header
        (Standin.image_header
           (drop (Z.to_nat 8192) (s_data (io pkg)))) = BPAK_OK) /\
  (exists pkg,
      std_open_fp Sample.front_fs "front.bpak"%string (Some "a"%string)
        = (BPAK_OK, Some pkg) /\
      header_location pkg = BPAK_HEADER_POS_FIRST /\
      header pkg = Standin.image_header (zeros (Z.to_nat 4096)) /\
      Standin.bpak_valid_header
        (Standin.image_header
           (take (Z.to_nat 4096) (s_data (io pkg)))) = BPAK_OK).
Proof.
  split.
  - assert (Hopen :
      std_open_fp Sample.fs "tail.bpak"%string (Some "r"%string)
      = (BPAK_OK,
         Some (mk_package (mk_stream Sample.tail_data' 0)
                 (Standin.image_header (zeros (Z.to_nat 4096)))
                 BPAK_HEADER_POS_FIRST)))
      by (vm_compute; reflexivity).
    destruct (open_fp_never_finds_tail_header Standin.image_header
                Standin.bpak_valid_header Sample.fs "tail.bpak" "r"
                (mk_FILE (mk_stream Sample.tail_data' 0) true false) _ _
                eq_refl Hopen)
      as (_ & Hloc & Hhdr & _).
    eexists. split; [exact Hopen|]. split; [exact Hloc|].
    split; [rewrite Hhdr|]; vm_compute; reflexivity.
  - assert (Hopen :
      std_open_fp Sample.front_fs "front.bpak"%string (Some "a"%string)
      = (BPAK_OK,
         Some (mk_package (mk_stream Sample.front_data 0)
                 (Standin.image_header (zeros (Z.to_nat 4096)))
                 BPAK_HEADER_POS_FIRST)))
      by (vm_compute; reflexivity).
    destruct (open_fp_never_finds_tail_header Standin.image_header
                Standin.bpak_valid_header Sample.front_fs "front.bpak" "a"
                (mk_FILE (mk_stream Sample.front_data 0) false true) _ _
                eq_refl Hopen)
      as (_ & Hloc & Hhdr & _).
    eexists. split; [exact Hopen|]. split; [exact Hloc|].
    split; [rewrite Hhdr|]; vm_compute; reflexivity.
Defined.

(** X3 on a file of three bytes opened for reading, and on an archive
    opened for appending. *)
Lemma open_short_file_zero_fills_header_witness :
  (std_open Sample.fs "short.bin"%string (Some "r"%string)
     = (BPAK_OK,
        Some (mk_package (mk_stream (Sample.counting 3) 0)
                (Standin.image_header
                   (Sample.counting 3 ++ zeros (Z.to_nat 4096 - 3)))
                BPAK_HEADER_POS_FIRST)) /\
   std_open_fp Sample.fs "short.bin"%string (Some "r"%string)
     = (BPAK_OK,
        Some (mk_package (mk_stream (Sample.counting 3) 0)
                (Standin.image_header
                   (Sample.counting 3 ++ zeros (Z.to_nat 4096 - 3)))
                BPAK_HEADER_POS_FIRST))) /\
  (std_open Sample.front_fs "front.bpak"%string (Some "a"%string)
     = (BPAK_OK,
        Some (mk_package (mk_stream Sample.front_data 0)
                (Standin.image_header (zeros (Z.to_nat 4096)))
                BPAK_HEADER_POS_FIRST)) /\
   std_open_fp Sample.front_fs "front.bpak"%string (Some "a"%string)
     = (BPAK_OK,
        Some (mk_package (mk_stream Sample.front_data 0)
                (Standin.image_header (zeros (Z.to_nat 4096)))
                BPAK_HEADER_POS_FIRST))).
Proof.
  split.
  - apply (open_short_file_zero_fills_header Standin.image_header
             Standin.bpak_valid_header Sample.fs "short.bin" "r"
             (mk_FILE (mk_stream (Sample.counting 3) 0) true false)).
    + reflexivity.
    + right. vm_compute. reflexivity.
  - apply (open_short_file_zero_fills_header Standin.image_header
             Standin.bpak_valid_header Sample.front_fs "front.bpak" "a"
             (mk_FILE (mk_stream Sample.front_data 0) false true)).
    + reflexivity.
    + left. reflexivity.
Defined.

(** X4 on a file whose front (zero bytes) and tail (1, 2, 3, ...) differ:
    the header returned is the image of the tail. *)
Lemma open_keeps_rejected_tail_candidate_witness :
  std_open Sample.rewritten_fs "mixed.bin"%string (Some "r"%string)
    = (BPAK_OK,
       Some (mk_package (mk_stream Sample.mixed_data 0)
               (Standin.image_header (Sample.counting (Z.to_nat 4096)))
               BPAK_HEADER_POS_FIRST)) /\
  take (Z.to_nat 4096) Sample.mixed_data = zeros (Z.to_nat 4096) /\
  magic (Standin.image_header (Sample.counting (Z.to_nat 4096)))
    <> magic (Standin.image_header (zeros (Z.to_nat 4096))).
Proof.
  split; [|split; [vm_compute; reflexivity|vm_compute; discriminate]].
  rewrite (open_keeps_rejected_tail_candidate Standin.image_header
             Standin.bpak_valid_header Sample.rewritten_fs "mixed.bin" "r"
             (mk_FILE (mk_stream Sample.mixed_data 0) true false)).
  - vm_compute. reflexivity.
  - reflexivity.
  - reflexivity.
  - vm_compute. discriminate.
  - vm_compute. discriminate.
  - vm_compute. discriminate.
Defined.


Lemma write_header_fp_tail_appends_witness :
  exists pkg',
    bpak_pkg_write_header_fp Standin.header_image Sample.tail_pkg
      = (BPAK_OK, pkg') /\
    stream_end (io pkg')
      = stream_end (io Sample.tail_pkg) + 2 * BPAK_HEADER_SIZE.
Proof.
  destruct (write_header_fp_tail_appends Standin.header_image
              standin_header_image_length Sample.tail_pkg eq_refl)
    as (pkg' & Hrun & _ & _ & _ & Hend & _).
  exists pkg'. split; [exact Hrun|exact Hend].
Defined.

Lemma update_payload_hash_outcomes_witness :
  exists pkg',
    bpak_pkg_update_payload_hash Standin.digest
      Standin.BPAK_FLAG_EXCLUDE_FROM_HASH Standin.BPAK_FLAG_TRANSPORT
      Standin.hash_buffer_init Sample.three_part_pkg = Some (BPAK_OK, pkg') /\
    s_data (io pkg') = s_data (io Sample.three_part_pkg).
Proof.
  destruct (update_payload_hash_outcomes Standin.digest
              Standin.BPAK_FLAG_EXCLUDE_FROM_HASH Standin.BPAK_FLAG_TRANSPORT
              Standin.hash_buffer_init Sample.three_part_pkg)
    as [Hknown _].
  destruct Hknown as (pkg' & Hrun & Hdata & _); [left; reflexivity|].
  exists pkg'. split; [exact Hrun|exact Hdata].
Defined.

Lemma payload_hash_skips_front_header_witness :
  hr_public <$>
    std_compute_payload_hash
      (set_io (mk_stream (zeros (Z.to_nat 4096) ++ Sample.counting 605)
                 (s_pos (io Sample.three_part_pkg))) Sample.three_part_pkg)
      (zeros 32) 32
  = hr_public <$>
      std_compute_payload_hash Sample.three_part_pkg (zeros 32) 32.
Proof.
  apply (payload_hash_skips_front_header Standin.digest
           Standin.BPAK_FLAG_EXCLUDE_FROM_HASH Standin.BPAK_FLAG_TRANSPORT
           Standin.hash_buffer_init Sample.three_part_pkg).
  - reflexivity.
  - apply Forall_forall. intros p Hp.
    apply (Forall_forall (fun p => p_transport_size p = 0 /\ 0 <= p_size p)
             (parts (header Sample.three_part_pkg))) in Hp.
    + unfold bpak_part_size. destruct (_ =? 0); lia.
    + vm_compute. repeat constructor; discriminate.
  - vm_compute. reflexivity.
Defined.

Lemma payload_hash_output_frame_witness :
  exists r s,
    std_compute_payload_hash Sample.three_part_pkg (zeros 40) 40 = Some r /\
    hash_parts Standin.BPAK_FLAG_EXCLUDE_FROM_HASH
      Standin.BPAK_FLAG_TRANSPORT (parts (header Sample.three_part_pkg))
      (hash_start Standin.hash_buffer_init Sample.three_part_pkg
         (md_starts MD_SHA256)) = Some s /\
    md_message (hs_ctx s)
      = take 3 (Sample.counting 605) ++ drop 5 (Sample.counting 605) /\
    hr_size r = 32 /\
    take 32 (hr_output r)
      = resize 32 x00 (Standin.digest MD_SHA256 (md_message (hs_ctx s))) /\
    drop 32 (hr_output r) = zeros 8.
Proof.
  destruct (compute_payload_hash_total Standin.digest
              Standin.BPAK_FLAG_EXCLUDE_FROM_HASH Standin.BPAK_FLAG_TRANSPORT
              Standin.hash_buffer_init Sample.three_part_pkg (zeros 40) 40)
    as [r Hrun].
  assert (Hok : hr_rc r = BPAK_OK).
  { pose proof Hrun as Hval. vm_compute in Hval. injection Hval as <-.
    reflexivity. }
  destruct (payload_hash_output_frame Standin.digest
              Standin.BPAK_FLAG_EXCLUDE_FROM_HASH Standin.BPAK_FLAG_TRANSPORT
              Standin.hash_buffer_init Sample.three_part_pkg (zeros 40) 40 r
              Hrun Hok)
    as (a & s & Hkind & Hs & Hsize & _ & Htake & Hdrop).
  assert (Ha : a = MD_SHA256).
  { destruct Hkind as [[_ Ha]|[[Hk _]|[Hk _]]];
      [exact Ha|vm_compute in Hk; discriminate
      |vm_compute in Hk; discriminate]. }
  subst a.
  exists r, s. split; [exact Hrun|]. split; [exact Hs|].
  split.
  { pose proof Hs as Hval. vm_compute in Hval. injection Hval as <-.
    vm_compute. reflexivity. }
  split; [exact Hsize|]. split; [exact Htake|exact Hdrop].
Defined.

Lemma header_hash_covers_refreshed_payload_hash_witness :
  exists r rp,
    std_compute_header_hash Sample.three_part_pkg (zeros 32) 32 true
      = Some r /\
    std_compute_payload_hash Sample.three_part_pkg
      (payload_hash (header Sample.three_part_pkg)) BPAK_PAYLOAD_HASH_BYTES
      = Some rp /\
    header (hr_pkg r)
      = set_payload_hash (hr_output rp) (header Sample.three_part_pkg).
Proof.
  destruct (compute_header_hash_total Standin.digest Standin.header_image
              Standin.BPAK_FLAG_EXCLUDE_FROM_HASH Standin.BPAK_FLAG_TRANSPORT
              Standin.hash_buffer_init Sample.three_part_pkg (zeros 32) 32
              true)
    as [r Hrun].
  assert (Hok : hr_rc r = BPAK_OK).
  { pose proof Hrun as Hval. vm_compute in Hval. injection Hval as <-.
    reflexivity. }
  destruct (header_hash_covers_refreshed_payload_hash Standin.digest
              Standin.header_image Standin.BPAK_FLAG_EXCLUDE_FROM_HASH
              Standin.BPAK_FLAG_TRANSPORT Standin.hash_buffer_init
              Sample.three_part_pkg (zeros 32) 32 r Hrun Hok)
    as (rp & a & Hp & _ & Hh & _).
  exists r, rp. repeat split; assumption.
Defined.

(** X12 on a fresh package: a 3-byte signature over a 5-byte one leaves
    the same header as the 3-byte signature alone. *)
Lemma sign_replaces_previous_signature_witness :
  let sig1 := Sample.counting 5 in
  let sig2 := [x07; x08; x09] in
  header
    (snd (bpak_pkg_sign Standin.header_image Standin.signature_overrun
            (snd (bpak_pkg_sign Standin.header_image
                    Standin.signature_overrun Sample.fresh_pkg sig1)) sig2))
    = header
        (snd (bpak_pkg_sign Standin.header_image Standin.signature_overrun
                Sample.fresh_pkg sig2)) /\
  take 5
    (signature
       (header
          (snd (bpak_pkg_sign Standin.header_image Standin.signature_overrun
                  (snd (bpak_pkg_sign Standin.header_image
                          Standin.signature_overrun Sample.fresh_pkg sig1))
                  sig2))))
    = [x07; x08; x09; x00; x00] /\
  take 5
    (signature
       (header
          (snd (bpak_pkg_sign Standin.header_image Standin.signature_overrun
                  Sample.fresh_pkg sig1))))
    = Sample.counting 5.
Proof.
  cbv zeta.
  destruct (sign_replaces_previous_signature Standin.header_image
              Standin.signature_overrun Sample.fresh_pkg
              (Sample.counting 5) [x07; x08; x09])
    as (Hsame & _ & Hsig & _).
  - apply Nat.leb_le. reflexivity.
  - apply Nat.leb_le. reflexivity.
  - split; [exact Hsame|]. split; [|vm_compute; reflexivity].
    rewrite Hsig. vm_compute. reflexivity.
Defined.

Lemma part_padding_aligns_witness :
  0 <= part_padding 4096 (2 ^ 16) 8193 < 4096 /\
  (8193 + part_padding 4096 (2 ^ 16) 8193) mod 4096 = 0.
Proof.
  destruct (part_padding_aligns 4096 (2 ^ 16) 8193) as (Hrange & Hmod & _).
  - vm_compute. split; [reflexivity|discriminate].
  - lia.
  - split; [exact Hrange|exact Hmod].
Defined.

Lemma add_file_is_one_write_then_header_witness :
  exists pkg',
    std_add_file 17%nat Sample.fs Sample.one_part_pkg "kernel.bin"%string
      "kernel"%string 0 = Some (BPAK_OK, pkg') /\
    s_data (io pkg')
      = Standin.header_image (header pkg')
        ++ drop (Z.to_nat BPAK_HEADER_SIZE)
             (s_data
                (snd (stream_write
                        (mk_stream (s_data (io Sample.one_part_pkg))
                           (next_part_offset (header Sample.one_part_pkg)))
                        (Sample.counting (Z.to_nat 8193)
                         ++ padding_bytes Standin.memory_after_chunk_buffer
                              (std_part_padding 8193))))) /\
    s_pos (io pkg') = BPAK_HEADER_SIZE.
Proof.
  destruct (add_file_is_one_write_then_header Standin.digest
              Standin.header_image Standin.BPAK_FLAG_EXCLUDE_FROM_HASH
              Standin.BPAK_FLAG_TRANSPORT Standin.hash_buffer_init
              standin_header_image_length Standin.bpak_id
              Standin.BPAK_PART_ALIGN Standin.pad_bytes_modulus
              Standin.memory_after_chunk_buffer 17%nat Sample.fs
              Sample.one_part_pkg "kernel.bin" "kernel" 0
              (Sample.counting (Z.to_nat 8193)) 8193 1%nat
              (md_starts MD_SHA256) 32)
    as (pkg' & Hrun & _ & _ & Hdata & Hpos & _).
  - reflexivity.
  - reflexivity.
  - reflexivity.
  - vm_compute. discriminate.
  - reflexivity.
  - reflexivity.
  - reflexivity.
  - apply Nat.le_refl.
  - exists pkg'. split; [exact Hrun|]. split; [exact Hdata|exact Hpos].
Defined.

Lemma add_file_appends_and_keeps_layout_witness :
  exists pkg' part,
    std_add_file 17%nat Sample.fs Sample.one_part_pkg "kernel.bin"%string
      "kernel"%string 0 = Some (BPAK_OK, pkg') /\
    drop (Z.to_nat BPAK_HEADER_SIZE) (s_data (io pkg'))
      = drop (Z.to_nat BPAK_HEADER_SIZE) (s_data (io Sample.one_part_pkg))
        ++ Sample.counting (Z.to_nat 8193)
        ++ padding_bytes Standin.memory_after_chunk_buffer
             (std_part_padding 8193) /\
    parts (header pkg') !! 1%nat = Some part /\
    p_offset part = stream_end (io Sample.one_part_pkg) /\
    next_part_offset (header pkg') = stream_end (io pkg').
Proof.
  destruct (add_file_appends_and_keeps_layout Standin.digest
              Standin.header_image Standin.BPAK_FLAG_EXCLUDE_FROM_HASH
              Standin.BPAK_FLAG_TRANSPORT Standin.hash_buffer_init
              standin_header_image_length Standin.bpak_id
              Standin.BPAK_PART_ALIGN Standin.pad_bytes_modulus
              Standin.memory_after_chunk_buffer 17%nat Sample.fs
              Sample.one_part_pkg "kernel.bin" "kernel" 0
              (Sample.counting (Z.to_nat 8193)) 8193 1%nat
              Standin.empty_part (md_starts MD_SHA256) 32)
    as (pkg' & part & Hrun & _ & Hdata & Hpart & Hoff & _ & _ & Hinv).
  - reflexivity.
  - reflexivity.
  - vm_compute. discriminate.
  - reflexivity.
  - reflexivity.
  - reflexivity.
  - repeat split.
  - vm_compute. discriminate.
  - vm_compute. reflexivity.
  - vm_compute. reflexivity.
  - reflexivity.
  - apply Nat.le_refl.
  - exists pkg', part. repeat split; assumption.
Defined.

Lemma add_file_hashes_the_file_witness :
  exists pkg',
    std_add_file 17%nat Sample.fs Sample.fresh_pkg "kernel.bin"%string
      "kernel"%string 0 = Some (BPAK_OK, pkg') /\
    payload_hash (header pkg')
      = memcpy (payload_hash (header Sample.fresh_pkg))
          (resize 32 x00
             (Standin.digest MD_SHA256 (Sample.counting (Z.to_nat 8193)))).
Proof.
  apply (add_file_hashes_the_file Standin.digest Standin.header_image
           Standin.BPAK_FLAG_EXCLUDE_FROM_HASH Standin.BPAK_FLAG_TRANSPORT
           Standin.hash_buffer_init standin_header_image_length
           Standin.bpak_id Standin.BPAK_PART_ALIGN Standin.pad_bytes_modulus
           Standin.memory_after_chunk_buffer 17%nat Sample.fs
           Sample.fresh_pkg "kernel.bin" "kernel" 0
           (Sample.counting (Z.to_nat 8193)) 8193 Standin.empty_part
           (replicate 31 Standin.empty_part) (md_starts MD_SHA256) 32).
  - reflexivity.
  - reflexivity.
  - reflexivity.
  - vm_compute. discriminate.
  - reflexivity.
  - vm_compute. discriminate.
  - reflexivity.
  - repeat constructor.
  - discriminate.
  - reflexivity.
  - reflexivity.
  - apply Nat.le_refl.
Defined.

Lemma add_file_unsupported_hash_kind_witness :
  exists pkg',
    std_add_file 17%nat Sample.fs Sample.unknown_kind_pkg
      "kernel.bin"%string "kernel"%string 0 = Some (BPAK_FAILED, pkg') /\
    p_id <$> parts (header pkg') !! 0%nat = Some (Standin.bpak_id "kernel") /\
    take (Z.to_nat BPAK_HEADER_SIZE) (s_data (io pkg'))
      = take (Z.to_nat BPAK_HEADER_SIZE)
          (s_data (io Sample.unknown_kind_pkg)).
Proof.
  destruct (add_file_unsupported_hash_kind Standin.digest
              Standin.header_image Standin.BPAK_FLAG_EXCLUDE_FROM_HASH
              Standin.BPAK_FLAG_TRANSPORT Standin.hash_buffer_init
              Standin.bpak_id Standin.BPAK_PART_ALIGN
              Standin.pad_bytes_modulus Standin.memory_after_chunk_buffer
              17%nat Sample.fs Sample.unknown_kind_pkg "kernel.bin" "kernel"
              0 (Sample.counting (Z.to_nat 8193)) 8193 0%nat
              BPAK_NOT_SUPPORTED)
    as (pkg' & Hrun & Hh & _ & Hfront).
  - reflexivity.
  - reflexivity.
  - reflexivity.
  - vm_compute. discriminate.
  - reflexivity.
  - reflexivity.
  - apply Nat.le_refl.
  - exists pkg'. split; [exact Hrun|]. split.
    + rewrite Hh. reflexivity.
    + apply Hfront; vm_compute; discriminate.
Defined.

Lemma payload_hash_stops_at_pkg_size_witness :
  exists r,
    std_compute_payload_hash Sample.three_part_pkg (zeros 32) 32 = Some r /\
    s_pos (io (hr_pkg r))
      = bpak_pkg_size Standin.BPAK_FLAG_TRANSPORT Sample.three_part_pkg /\
    bpak_pkg_size Standin.BPAK_FLAG_TRANSPORT Sample.three_part_pkg = 4701.
Proof.
  destruct (compute_payload_hash_total Standin.digest
              Standin.BPAK_FLAG_EXCLUDE_FROM_HASH Standin.BPAK_FLAG_TRANSPORT
              Standin.hash_buffer_init Sample.three_part_pkg (zeros 32) 32)
    as [r Hrun].
  assert (Hok : hr_rc r = BPAK_OK).
  { pose proof Hrun as Hval. vm_compute in Hval. injection Hval as <-.
    reflexivity. }
  destruct (payload_hash_stops_at_pkg_size Standin.digest
              Standin.BPAK_FLAG_EXCLUDE_FROM_HASH Standin.BPAK_FLAG_TRANSPORT
              Standin.hash_buffer_init Sample.three_part_pkg (zeros 32) 32 r)
    as (Hpos & _).
  - reflexivity.
  - vm_compute. repeat constructor; try discriminate; intros [=].
  - vm_compute. split; [discriminate|reflexivity].
  - exact Hrun.
  - exact Hok.
  - exists r. split; [exact Hrun|]. split; [exact Hpos|reflexivity].
Defined.

Lemma decode_output_write_then_read_witness :
  exists priv',
    decode_write_output
      (mk_decode_private (mk_stream (zeros 8) 0) None 0 4) 2 [x01; x02]
      = (inr 2, priv') /\
    fst (decode_read_output priv' 2 2) = inr [x01; x02].
Proof.
  destruct (decode_output_write_then_read
              (mk_decode_private (mk_stream (zeros 8) 0) None 0 4) 2
              [x01; x02]) as [Hok _].
  destruct Hok as (priv' & Hwrite & _ & Hread & _); [cbn; lia|].
  exists priv'. split; [exact Hwrite|exact Hread].
Defined.

Lemma decode_write_output_header_effect_witness :
  decode_write_output_header
    (mk_decode_private (mk_stream (zeros 8) 0) None 0 4) 0 [x01; x02]
    = (inl BPAK_SIZE_ERROR,
       mk_decode_private (mk_stream (zeros 8) 0) None 0 4).
Proof.
  destruct (decode_write_output_header_effect
              (mk_decode_private (mk_stream (zeros 8) 0) None 0 4) 0
              [x01; x02]) as [Hbad _].
  destruct Hbad as [Hio _]; [vm_compute; discriminate|exact Hio].
Defined.

Lemma pkg_read_payload_all_or_error_witness :
  pkg_read_payload (mk_stream (Sample.counting 10) 7) 2 3
    = (inr 3, take (Z.to_nat 3) (drop (Z.to_nat 2) (Sample.counting 10)),
       mk_stream (Sample.counting 10) (2 + 3)) /\
  pkg_read_payload (mk_stream (Sample.counting 10) 7) 8 3
    = (inl BPAK_READ_ERROR, drop (Z.to_nat 8) (Sample.counting 10),
       mk_stream (Sample.counting 10)
         (8 + Z.of_nat (length (drop (Z.to_nat 8) (Sample.counting 10))))).
Proof.
  split.
  - destruct (pkg_read_payload_all_or_error
                (mk_stream (Sample.counting 10) 7) 2 3) as (Hin & _);
      [lia|].
    apply Hin; [lia|left; vm_compute; discriminate].
  - destruct (pkg_read_payload_all_or_error
                (mk_stream (Sample.counting 10) 7) 8 3) as (_ & _ & Hout);
      [lia|].
    apply Hout; [lia|lia|vm_compute; reflexivity].
Defined.

Lemma merkle_wr_then_rd_witness :
  exists data',
    merkle_wr 2 [x01; x02] (zeros 8) = Returned (2, data') /\
    merkle_rd 2 2 data' = Returned (2, [x01; x02]) /\
    merkle_rd 4 4 data' = merkle_rd 4 4 (zeros 8).
Proof.
  destruct (merkle_wr_then_rd 2 [x01; x02] (zeros 8))
    as (data' & Hwr & _ & Hrd & Hframe).
  - lia.
  - vm_compute. discriminate.
  - exists data'. split; [exact Hwr|]. split; [exact Hrd|].
    apply Hframe; [lia|lia|right; cbn; lia].
Defined.

Lemma transport_decode_empty_first_slot_witness :
  std_transport_decode Sample.fresh_pkg Sample.output_pkg None
    = Some (Returned
              (decode_done Z BPAK_OK
                 (mk_stream (s_data (io Sample.fresh_pkg)) BPAK_HEADER_SIZE)
                 (mk_decode_world 0 (header Sample.fresh_pkg)
                    (mk_decode_private (io Sample.output_pkg) None 0 0))
                 Sample.fresh_pkg Sample.output_pkg None)) /\
  std_transport_decode_fp Sample.fresh_pkg Sample.output_pkg None
    = std_transport_decode Sample.fresh_pkg Sample.output_pkg None.
Proof.
  apply (transport_decode_empty_first_slot Standin.BPAK_FLAG_TRANSPORT Z
           Standin.decode_init Standin.decode_set_origin Standin.decode_start
           Standin.decode_write_chunk Standin.decode_finish
           Sample.fresh_pkg Sample.output_pkg None
           (mk_decode_world 0 (header Sample.fresh_pkg)
              (mk_decode_private (io Sample.output_pkg) None 0 0))).
  - reflexivity.
  - reflexivity.
  - intros part [= <-]. reflexivity.
Defined.

Lemma transport_decode_truncated_input_witness :
  exists r,
    bpak_pkg_transport_decode Standin.BPAK_FLAG_TRANSPORT unit
      Sample.discard_init Sample.discard_header Sample.discard_part
      Sample.discard_chunk Sample.discard_finish
      Sample.truncated_pkg Sample.output_pkg (Some Sample.input_pkg)
      = Some (Returned r) /\
    dr_rc r = BPAK_READ_ERROR.
Proof.
  destruct (transport_decode_truncated_input Standin.BPAK_FLAG_TRANSPORT unit
              Sample.discard_init Sample.discard_header Sample.discard_part
              Sample.discard_chunk Sample.discard_finish
              Sample.truncated_pkg Sample.output_pkg Sample.input_pkg
              (mk_decode_world tt (header Sample.truncated_pkg)
                 (mk_decode_private (io Sample.output_pkg)
                    (Some (io Sample.input_pkg)) 0 0))
              (mk_decode_world tt (header Sample.truncated_pkg)
                 (mk_decode_private (io Sample.output_pkg)
                    (Some (io Sample.input_pkg)) 0 0))
              (mk_decode_world tt (header Sample.truncated_pkg)
                 (mk_decode_private (io Sample.output_pkg)
                    (Some (io Sample.input_pkg)) 4096 4096))
              (mk_part 11 4 0 4096 0 0) (mk_part 11 4 0 4096 0 0))
    as (r & Hrun & _ & Hrc).
  - reflexivity.
  - reflexivity.
  - reflexivity.
  - discriminate.
  - reflexivity.
  - reflexivity.
  - reflexivity.
  - reflexivity.
  - vm_compute. reflexivity.
  - exists r. split; [exact Hrun|exact Hrc].
Defined.

Lemma add_key_stores_the_key_bytes_witness :
  exists pkg',
    std_add_key 8%nat Sample.fresh_pkg Sample.key_buffer 5 "key"%string 3
      = Some (BPAK_OK, pkg') /\
    std_add_key 8%nat Sample.fresh_pkg Sample.key_buffer 5 "key"%string 0
      = Some (BPAK_OK, pkg') /\
    s_data (io pkg')
      = Standin.header_image (header pkg')
        ++ drop (Z.to_nat BPAK_HEADER_SIZE)
             (s_data
                (snd (stream_write
                        (mk_stream (s_data (io Sample.fresh_pkg))
                           (next_part_offset (header Sample.fresh_pkg)))
                        (drop (Z.to_nat (KEY_BUFFER_SIZE - 5))
                           Sample.key_buffer
                         ++ padding_bytes Standin.memory_after_chunk_buffer
                              (std_part_padding 5))))).
Proof.
  destruct (add_key_stores_the_key_bytes Standin.digest Standin.header_image
              Standin.BPAK_FLAG_EXCLUDE_FROM_HASH Standin.BPAK_FLAG_TRANSPORT
              Standin.hash_buffer_init standin_header_image_length
              Standin.bpak_id Standin.BPAK_PART_ALIGN
              Standin.pad_bytes_modulus Standin.memory_after_chunk_buffer
              8%nat Sample.fresh_pkg Sample.key_buffer 5 "key" 3 0%nat
              (md_starts MD_SHA256) 32)
    as (pkg' & Hrun & Hany & _ & Hdata & _).
  - vm_compute. split; discriminate.
  - vm_compute. reflexivity.
  - vm_compute. discriminate.
  - reflexivity.
  - reflexivity.
  - reflexivity.
  - apply Nat.le_refl.
  - exists pkg'. split; [exact Hrun|]. split; [apply Hany|exact Hdata].
Defined.
